(** * AtmosEye: the acquisition, fusion, alerting and retention core

    A shallow embedding of [iaqcalc.py].  Python dictionaries that carry
    sensor readings are finite maps from field names to numbers, the module
    globals and the two stateful objects ([IAQProcessor], [SmokeDetector])
    are records that are passed explicitly, and every call that reads the
    clock takes the time as an argument.

    Numbers: Python floats are embedded as exact rationals ([Q]); integer
    results ([round], the AQI) are [Z].  Decimal literals of the source such
    as [12.1] stand for the rational they denote. *)

From Stdlib Require Import ZArith QArith Qround Lqa Lia List Ascii String Bool.
From stdpp Require Import gmap strings.
Import ListNotations.

Local Open Scope Z_scope.

(** ** Numbers *)

Module PyNum.

Definition Qltb (x y : Q) : bool := negb (Qle_bool y x).
Definition Qleb (x y : Q) : bool := Qle_bool x y.

Definition Qmax (x y : Q) : Q := if Qltb x y then y else x.
Definition Qmin (x y : Q) : Q := if Qltb y x then y else x.

(** Python's [round(x)] on a float: nearest integer, ties to the even one. *)
Definition py_round (x : Q) : Z :=
  let f := Qfloor x in
  match Qcompare (x - inject_Z f) (1 # 2) with
  | Lt => f
  | Gt => f + 1
  | Eq => if Z.even f then f else f + 1
  end.

(** [np.clip(x, lo, hi)]. *)
Definition np_clip (x lo hi : Q) : Q := Qmin (Qmax x lo) hi.

Definition Qsum (l : list Q) : Q := fold_right Qplus 0%Q l.

(** [np.mean(l)]. *)
Definition np_mean (l : list Q) : Q :=
  (Qsum l / inject_Z (Z.of_nat (List.length l)))%Q.

End PyNum.
Import PyNum.

(** ** PM2.5 to AQI *)

Definition breakpoints : list (Q * Q * Z * Z) :=
  [ (0.0%Q, 12.0%Q, 0, 50);
    (12.1%Q, 35.4%Q, 51, 100);
    (35.5%Q, 55.4%Q, 101, 150);
    (55.5%Q, 150.4%Q, 151, 200);
    (150.5%Q, 250.4%Q, 201, 300);
    (250.5%Q, 500.4%Q, 301, 500) ].

Definition interpolate (bp : Q * Q * Z * Z) (c : Q) : Z :=
  let '(low_c, high_c, low_i, high_i) := bp in
  py_round ((inject_Z (high_i - low_i) / (high_c - low_c)) * (c - low_c)
            + inject_Z low_i)%Q.

Definition in_bracket (bp : Q * Q * Z * Z) (c : Q) : bool :=
  let '(low_c, high_c, _, _) := bp in Qleb low_c c && Qleb c high_c.

Fixpoint scan_breakpoints (bps : list (Q * Q * Z * Z)) (c : Q) : Z :=
  match bps with
  | [] => 500
  | bp :: rest => if in_bracket bp c then interpolate bp c
                  else scan_breakpoints rest c
  end.

Definition _pm25_to_aqi (pm : option Q) : Z :=
  match pm with
  | None => 0
  | Some c => if Qltb c 0 then 0 else scan_breakpoints breakpoints c
  end.

(** ** Bounded deques

    [collections.deque(maxlen=n)]: appending to a full deque discards the
    element at the left end; a deque of capacity 0 stays empty. *)

Section Deque.
Context {A : Type}.

Definition deque_append (maxlen : nat) (d : list A) (x : A) : list A :=
  if Nat.eqb maxlen 0 then []
  else if Nat.ltb (List.length d) maxlen then d ++ [x]
  else List.tl d ++ [x].

(** Appending a whole sequence, one element at a time, oldest first. *)
Definition deque_extend (maxlen : nat) (d : list A) (xs : list A) : list A :=
  fold_left (deque_append maxlen) xs d.
End Deque.

(** ** Module constants *)

Definition LOG_DIR : string := "historical_logs".
Definition SENSOR_READ_INTERVAL : Q := 2.
Definition HISTORY_BUFFER_SIZE : nat := Z.to_nat 43200.
Definition ROLLING_WINDOW_SIZE : nat := 5.
Definition TEMP_SPIKE_THRESHOLD : Q := 3.0.
Definition TEMP_SPIKE_WINDOW : nat := 5.

(** ** IAQProcessor *)

Record IAQProcessor := mkIAQProcessor {
  ewma_baseline : option Q;
  alpha : Q;
  gas_window : list Q
}.

Definition IAQProcessor_init : IAQProcessor :=
  {| ewma_baseline := None; alpha := 0.2; gas_window := [] |}.

Definition humidity_penalty (humidity : Q) : Q := (Qmax 0 (humidity - 70) * 2)%Q.

Definition temp_penalty (temp : Q) : Q :=
  if Qltb temp 18 then ((18 - temp) * 2)%Q
  else if Qltb 26 temp then ((temp - 26) * 2)%Q
  else 0%Q.

(** [self.ewma_baseline] after the update of one cycle. *)
Definition next_baseline (self : IAQProcessor) (smoothed_gas : Q) : Q :=
  match ewma_baseline self with
  | None => smoothed_gas
  | Some b => (alpha self * smoothed_gas + (1 - alpha self) * b)%Q
  end.

Definition deviation_of (baseline smoothed_gas : Q) : Q :=
  Qmax 0 (baseline - smoothed_gas).

Definition voc_index_of (baseline smoothed_gas : Q) : Q :=
  Qmin 500 (if Qltb 0 baseline
            then (deviation_of baseline smoothed_gas / baseline * 500)%Q
            else 0%Q).

Definition fused_iaq_of (voc_index : Q) (pm25_aqi : Z) (humidity temp : Q) : Z :=
  let fused_iaq := (voc_index * 0.5 + inject_Z pm25_aqi * 0.5
                    + humidity_penalty humidity + temp_penalty temp)%Q in
  Z.min 500 (py_round fused_iaq).

Section Process.
(** [x ** 1.5] on floats has no rational counterpart; the function is a
    parameter.  It only feeds [co2_equivalent]. *)
Variable pow_1_5 : Q -> Q.

Definition voc_ppb_of (baseline smoothed_gas : Q) : Q :=
  if Qltb 0 baseline
  then (pow_1_5 (deviation_of baseline smoothed_gas / baseline) * 1500)%Q
  else 0%Q.

(** [IAQProcessor.process]: the result dictionary and the processor
    after the call. *)
Definition process (self : IAQProcessor) (raw_data : gmap string Q)
  : gmap string Q * IAQProcessor :=
  match raw_data !! "gas_resistance", raw_data !! "pm25",
        raw_data !! "temperature", raw_data !! "humidity" with
  | Some gas_raw, Some pm25, Some temp, Some humidity =>
      let window := deque_append ROLLING_WINDOW_SIZE (gas_window self)
                                 (np_clip gas_raw 10000 500000) in
      let smoothed_gas := np_mean window in
      let baseline := next_baseline self smoothed_gas in
      let voc_index := voc_index_of baseline smoothed_gas in
      let pm25_aqi := _pm25_to_aqi (Some pm25) in
      let fused_iaq := fused_iaq_of voc_index pm25_aqi humidity temp in
      let voc_ppb := voc_ppb_of baseline smoothed_gas in
      let co2_equivalent := (400 + voc_ppb * 0.8 + pm25 * 1.5)%Q in
      ({[ "iaq" := inject_Z fused_iaq;
          "aqi" := inject_Z pm25_aqi;
          "voc_index" := inject_Z (py_round voc_index);
          "co2_equivalent" := inject_Z (py_round co2_equivalent) ]},
       {| ewma_baseline := Some baseline;
          alpha := alpha self;
          gas_window := window |})
  | _, _, _, _ => (∅, self)
  end.
End Process.

(** ** Settings, alert state, collaborators *)

Inductive AlertState := SAFE | WARNING | SMOKE | TEST.

Global Instance AlertState_eq_dec : EqDecision AlertState.
Proof. solve_decision. Defined.

(** [user_settings]: the keys the core reads.  [run_manual_cleanup] is
    absent from the dictionary unless a manual clean-up was requested. *)
Record Settings := mkSettings {
  enableSmokeDetection : bool;
  emergencyAlert : bool;
  alertThreshold : Q;
  logRetentionPeriod : string;
  run_manual_cleanup : bool
}.

Definition default_settings : Settings :=
  {| enableSmokeDetection := true; emergencyAlert := false;
     alertThreshold := 150; logRetentionPeriod := "90d";
     run_manual_cleanup := false |}.

(** One entry of the [triggers] list of [check_conditions], with the
    number that the source formats into the entry. *)
Inductive trigger :=
| TrigPM25 (pm_val : Q)
| TrigVOC (voc_val : Q)
| TrigGasDrop (gas_change : Q)
| TrigTempSpike (temp_spike : Q).

(** The texts handed to [bot.queue_message]; [details] is the list that
    the source joins into [details_str]. *)
Inductive message :=
| MsgSmokeTriggered (details : list trigger)
| MsgConditionsNormal (details : list trigger)
| MsgIAQNormal (details : list trigger)
| MsgDetectionDisabled
| MsgDismissed
| MsgTestStopped
| MsgTestStarted.

Inductive msg_kind := KInfo | KAlert | KRecovery.

Global Instance msg_kind_eq_dec : EqDecision msg_kind.
Proof. solve_decision. Defined.

(** [Buzzer]: [sounding] holds between [start_alert] and [stop_alert]. *)
Record Buzzer := mkBuzzer { is_setup : bool; sounding : bool }.

Definition start_alert (b : Buzzer) : Buzzer :=
  if is_setup b then {| is_setup := true; sounding := true |} else b.

Definition stop_alert (b : Buzzer) : Buzzer :=
  if is_setup b then {| is_setup := true; sounding := false |} else b.

(** The module globals that the alert engine writes, with the queue of the
    bot object that the detector refers to. *)
Record Globals := mkGlobals {
  alert_active : bool;
  alert_state : AlertState;
  buzzer : Buzzer;
  bot_queue : list (msg_kind * message)
}.

Definition Globals_init (setup : bool) : Globals :=
  {| alert_active := false; alert_state := SAFE;
     buzzer := {| is_setup := setup; sounding := false |};
     bot_queue := [] |}.

Definition set_alert (active : bool) (st : AlertState) (g : Globals) : Globals :=
  {| alert_active := active; alert_state := st;
     buzzer := buzzer g; bot_queue := bot_queue g |}.

Definition set_alert_state (st : AlertState) (g : Globals) : Globals :=
  set_alert (alert_active g) st g.

Definition set_buzzer (b : Buzzer) (g : Globals) : Globals :=
  {| alert_active := alert_active g; alert_state := alert_state g;
     buzzer := b; bot_queue := bot_queue g |}.

Definition queue_message (m : message) (k : msg_kind) (g : Globals) : Globals :=
  {| alert_active := alert_active g; alert_state := alert_state g;
     buzzer := buzzer g; bot_queue := bot_queue g ++ [(k, m)] |}.

(** ** SmokeDetector *)

Record SmokeDetector := mkSmokeDetector {
  bot : bool;                  (* [self.bot] is not [None] *)
  temp_history : list Q;
  gas_history : list Q;
  last_alert_time : Q;
  alert_cooldown : Q;
  test_alert_active : bool
}.

Definition SmokeDetector_init (bot_instance : bool) : SmokeDetector :=
  {| bot := bot_instance; temp_history := []; gas_history := [];
     last_alert_time := 0; alert_cooldown := 300;
     test_alert_active := false |}.

Definition set_histories (th gh : list Q) (self : SmokeDetector) : SmokeDetector :=
  {| bot := bot self; temp_history := th; gas_history := gh;
     last_alert_time := last_alert_time self;
     alert_cooldown := alert_cooldown self;
     test_alert_active := test_alert_active self |}.

Definition set_last_alert_time (t : Q) (self : SmokeDetector) : SmokeDetector :=
  {| bot := bot self; temp_history := temp_history self;
     gas_history := gas_history self; last_alert_time := t;
     alert_cooldown := alert_cooldown self;
     test_alert_active := test_alert_active self |}.

Definition set_test_alert_active (b : bool) (self : SmokeDetector) : SmokeDetector :=
  {| bot := bot self; temp_history := temp_history self;
     gas_history := gas_history self;
     last_alert_time := last_alert_time self;
     alert_cooldown := alert_cooldown self; test_alert_active := b |}.

Definition trigger_alert (us : Settings) (self : SmokeDetector)
    (state : AlertState) (m : message) (g : Globals) : Globals :=
  let g1 := set_alert true state g in
  let g2 := if bot self then queue_message m KAlert g1 else g1 in
  if emergencyAlert us || bool_decide (state = TEST)
  then set_buzzer (start_alert (buzzer g2)) g2 else g2.

Definition clear_alert (self : SmokeDetector) (m : message) (g : Globals)
    : Globals :=
  let g1 := set_alert false SAFE g in
  let g2 := if bot self then queue_message m KRecovery g1 else g1 in
  set_buzzer (stop_alert (buzzer g2)) g2.

(** [list(h)[:2]] and [list(h)[-2:]]. *)
Definition first_two (h : list Q) : list Q := firstn 2 h.
Definition last_two (h : list Q) : list Q := skipn (List.length h - 2) h.

Definition gas_change_of (gas_history : list Q) : Q :=
  (np_mean (first_two gas_history) - np_mean (last_two gas_history))%Q.

Definition temp_spike_of (temp_history : list Q) : Q :=
  (List.last temp_history 0 - List.hd 0 temp_history)%Q.

(** The [triggers] list, built in the order of the source. *)
Definition collect_triggers (self : SmokeDetector) (data : gmap string Q)
    : list trigger :=
  let pm_val := default 0%Q (data !! "pm25") in
  let t_pm := if Qltb 100 pm_val then [TrigPM25 pm_val] else [] in
  let voc_val := default 0%Q (data !! "voc_index") in
  let gas_change := gas_change_of (gas_history self) in
  let t_voc := if Qltb 250 voc_val || Qltb 25000 gas_change
               then [TrigVOC voc_val; TrigGasDrop gas_change] else [] in
  let temp_spike := temp_spike_of (temp_history self) in
  let t_temp := if Qltb TEMP_SPIKE_THRESHOLD temp_spike
                then [TrigTempSpike temp_spike] else [] in
  t_pm ++ t_voc ++ t_temp.

(** Where a call of [check_conditions] returned; [Evaluated] carries the
    [triggers] list of the call, whose length is [trigger_count]. *)
Inductive cycle_path :=
| Disabled
| TestOverride
| WindowFilling
| Evaluated (triggers : list trigger).

Definition trigger_count_of (p : cycle_path) : option nat :=
  match p with Evaluated triggers => Some (List.length triggers) | _ => None end.

Definition smoke_branch (us : Settings) (now : Q) (triggers : list trigger)
    (self : SmokeDetector) (g : Globals) : SmokeDetector * Globals :=
  let trigger_count := List.length triggers in
  if Nat.leb 2 trigger_count
     && Qltb (alert_cooldown self) (now - last_alert_time self) then
    if negb (alert_active g)
    then (set_last_alert_time now self,
          trigger_alert us self SMOKE (MsgSmokeTriggered triggers) g)
    else (self, g)
  else if Nat.eqb trigger_count 0 && alert_active g then
    match alert_state g with
    | SMOKE => (self, clear_alert self (MsgConditionsNormal triggers) g)
    | WARNING => (self, clear_alert self (MsgIAQNormal triggers) g)
    | _ => (self, g)
    end
  else (self, g).

Definition warning_branch (us : Settings) (data : gmap string Q) (g : Globals)
    : Globals :=
  let iaq := default 0%Q (data !! "iaq") in
  if negb (alert_active g) && Qltb (alertThreshold us) iaq then
    if bool_decide (alert_state g <> WARNING)
    then set_alert_state WARNING g else g
  else if negb (alert_active g) && bool_decide (alert_state g = WARNING)
          && Qltb iaq (alertThreshold us)
  then set_alert_state SAFE g
  else g.

(** The two [append]s on the rolling windows. *)
Definition push_sample (data : gmap string Q) (self : SmokeDetector)
    : SmokeDetector :=
  let current_temp := default 0%Q (data !! "temperature") in
  let current_gas := default 1e6%Q (data !! "gas_resistance") in
  set_histories
    (deque_append TEMP_SPIKE_WINDOW (temp_history self) current_temp)
    (deque_append TEMP_SPIKE_WINDOW (gas_history self) current_gas)
    self.

Definition check_conditions (us : Settings) (now : Q) (data : gmap string Q)
    (self : SmokeDetector) (g : Globals)
    : cycle_path * SmokeDetector * Globals :=
  if negb (enableSmokeDetection us) then
    (Disabled, self,
     if alert_active g && bool_decide (alert_state g = SMOKE)
     then clear_alert self MsgDetectionDisabled g else g)
  else if test_alert_active self then
    (TestOverride, self, set_alert true TEST g)
  else
    let self1 := push_sample data self in
    if Nat.ltb (List.length (temp_history self1)) TEMP_SPIKE_WINDOW then
      (WindowFilling, self1, g)
    else
      let triggers := collect_triggers self1 data in
      let '(self2, g2) := smoke_branch us now triggers self1 g in
      (Evaluated triggers, self2, warning_branch us data g2).

Definition dismiss_alert (now : Q) (self : SmokeDetector) (g : Globals)
    : SmokeDetector * Globals :=
  if negb (alert_active g) then (self, g)
  else
    let self1 := set_last_alert_time now self in
    (self1, clear_alert self1 MsgDismissed g).

Definition toggle_test (us : Settings) (self : SmokeDetector) (g : Globals)
    : SmokeDetector * Globals :=
  if test_alert_active self then
    let self1 := set_test_alert_active false self in
    (self1, clear_alert self1 MsgTestStopped g)
  else
    let self1 := set_test_alert_active true self in
    (self1, trigger_alert us self1 TEST MsgTestStarted g).

(** ** Acquisition loop: one iteration past the cadence gate *)

Definition get_iaq_level (score : option Q) : string :=
  match score with
  | None => "Calculating..."
  | Some s =>
      if Qleb s 50 then "Good"
      else if Qleb s 100 then "Moderate"
      else if Qleb s 150 then "Unhealthy (SG)"
      else if Qleb s 200 then "Unhealthy"
      else if Qleb s 300 then "Very Unhealthy"
      else "Hazardous"
  end.

(** [final_data_point] once it is stamped: the numeric fields and the four
    stamps added after [check_conditions]. *)
Record DataPoint := mkDataPoint {
  dp_fields : gmap string Q;
  dp_alert_active : bool;
  dp_state : AlertState;
  dp_iaq_level : string;
  dp_pm25_level : string
}.

(** Everything one iteration of [continuous_sensor_reading] touches. *)
Record System := mkSystem {
  processor : IAQProcessor;
  detector : SmokeDetector;
  globals : Globals;
  latest_sensor_data : option DataPoint;
  history_buffer : list DataPoint;
  sensor_status : string
}.

Definition System_init (setup : bool) : System :=
  {| processor := IAQProcessor_init;
     detector := SmokeDetector_init true;
     globals := Globals_init setup;
     latest_sensor_data := None;
     history_buffer := [];
     sensor_status := "Unknown" |}.

Section Acquisition.
Variable pow_1_5 : Q -> Q.

(** [{**raw_data, **calculated_data, 'timestamp': ts}]: later entries
    win. *)
Definition merge_data_point (raw_data calculated_data : gmap string Q)
    (ts : Q) : gmap string Q :=
  <["timestamp" := ts]> (calculated_data ∪ raw_data).

(** The body of the loop after [sensor.get_data()] returned [raw_data]
    ([None] for the [None] of a failed read).  [ts] and [now] are the two
    clock readings of the iteration. *)
Definition sensor_cycle (us : Settings) (ts now : Q)
    (raw_data : option (gmap string Q)) (sys : System) : System :=
  match raw_data with
  | Some raw =>
      if bool_decide (raw = ∅) then
        {| processor := processor sys; detector := detector sys;
           globals := globals sys;
           latest_sensor_data := latest_sensor_data sys;
           history_buffer := history_buffer sys;
           sensor_status := "Error: No Data" |}
      else
        let '(calculated_data, proc) := process pow_1_5 (processor sys) raw in
        let final_data_point := merge_data_point raw calculated_data ts in
        let '(_, det, g) :=
          check_conditions us now final_data_point (detector sys) (globals sys) in
        let stamped :=
          {| dp_fields := final_data_point;
             dp_alert_active := alert_active g;
             dp_state := alert_state g;
             dp_iaq_level := get_iaq_level (final_data_point !! "iaq");
             dp_pm25_level := get_iaq_level (final_data_point !! "aqi") |} in
        {| processor := proc; detector := det; globals := g;
           latest_sensor_data := Some stamped;
           history_buffer :=
             deque_append HISTORY_BUFFER_SIZE (history_buffer sys) stamped;
           sensor_status := sensor_status sys |}
  | None =>
      {| processor := processor sys; detector := detector sys;
         globals := globals sys;
         latest_sensor_data := latest_sensor_data sys;
         history_buffer := history_buffer sys;
         sensor_status := "Error: No Data" |}
  end.
End Acquisition.

(** ** Runs of the alert engine

    The calls that reach the engine: [check_conditions] from the
    acquisition loop, [dismiss_alert] and [toggle_test] from the API. *)

Inductive event :=
| EvCheck (us : Settings) (now : Q) (data : gmap string Q)
| EvDismiss (now : Q)
| EvToggleTest (us : Settings).

Definition engine := (SmokeDetector * Globals)%type.

Definition engine_init (setup : bool) : engine :=
  (SmokeDetector_init true, Globals_init setup).

Definition engine_step (e : event) (s : engine) : engine :=
  match e with
  | EvCheck us now data =>
      let '(_, det, g) := check_conditions us now data (fst s) (snd s) in (det, g)
  | EvDismiss now => dismiss_alert now (fst s) (snd s)
  | EvToggleTest us => toggle_test us (fst s) (snd s)
  end.

Definition engine_run (evs : list event) (s : engine) : engine :=
  fold_left (fun s e => engine_step e s) evs s.

(** The path that a [check_conditions] event takes from state [s]. *)
Definition event_path (e : event) (s : engine) : option cycle_path :=
  match e with
  | EvCheck us now data =>
      Some (fst (fst (check_conditions us now data (fst s) (snd s))))
  | _ => None
  end.

Definition event_now (e : event) : option Q :=
  match e with
  | EvCheck _ now _ => Some now
  | EvDismiss now => Some now
  | EvToggleTest _ => None
  end.

(** Alert notifications in a bot queue. *)
Definition count_alerts (q : list (msg_kind * message)) : nat :=
  List.length (List.filter (fun km => bool_decide (fst km = KAlert)) q).

(** ** Strings and paths

    The library functions that [auto_maintenance_worker] applies to file
    names, on ASCII strings. *)

Module PyStr.
Local Open Scope string_scope.
Local Open Scope nat_scope.

Fixpoint str_take (n : nat) (s : string) : string :=
  match n, s with
  | S n', String c s' => String c (str_take n' s')
  | _, _ => EmptyString
  end.

Fixpoint str_drop (n : nat) (s : string) : string :=
  match n, s with
  | S n', String _ s' => str_drop n' s'
  | _, _ => s
  end.

(** [s[:-1]]. *)
Definition str_drop_last (s : string) : string :=
  str_take (String.length s - 1) s.

(** [s.startswith(p)]. *)
Definition startswith (s p : string) : bool := String.prefix p s.

Fixpoint endswith_char (s : string) (c : ascii) : bool :=
  match s with
  | EmptyString => false
  | String a EmptyString => Ascii.eqb a c
  | String _ s' => endswith_char s' c
  end.

(** [s.rfind(c)], [None] for -1. *)
Fixpoint rfind (c : ascii) (s : string) : option nat :=
  match s with
  | EmptyString => None
  | String a s' =>
      match rfind c s' with
      | Some i => Some (S i)
      | None => if Ascii.eqb a c then Some 0 else None
      end
  end.

Fixpoint all_chars (c : ascii) (s : string) : bool :=
  match s with
  | EmptyString => true
  | String a s' => Ascii.eqb a c && all_chars c s'
  end.

(** [s.rstrip(c)]. *)
Fixpoint rstrip (c : ascii) (s : string) : string :=
  match s with
  | EmptyString => EmptyString
  | String a s' =>
      match rstrip c s' with
      | EmptyString => if Ascii.eqb a c then EmptyString else String a EmptyString
      | r => String a r
      end
  end.

(** [s.replace(old, new)] for a non-empty [old]: occurrences are
    replaced from the left and do not overlap; [skip] counts the
    characters of a matched occurrence still to be passed over. *)
Fixpoint replace_from (old new : string) (skip : nat) (s : string) : string :=
  match s with
  | EmptyString => EmptyString
  | String c s' =>
      match skip with
      | S k => replace_from old new k s'
      | O =>
          if String.prefix old s
          then new ++ replace_from old new (String.length old - 1) s'
          else String c (replace_from old new 0 s')
      end
  end.

Definition str_replace (old new s : string) : string :=
  replace_from old new 0 s.

(** [os.path.basename]. *)
Definition basename (p : string) : string :=
  match rfind "/" p with
  | Some i => str_drop (S i) p
  | None => p
  end.

(** [os.path.dirname]. *)
Definition dirname (p : string) : string :=
  let head := match rfind "/" p with
              | Some i => str_take (S i) p
              | None => EmptyString
              end in
  if negb (String.eqb head EmptyString) && negb (all_chars "/" head)
  then rstrip "/" head else head.

(** [os.path.splitext]: the extension starts at the last dot of the last
    component, unless only dots come before it in that component. *)
Definition splitext (p : string) : string * string :=
  match rfind "." p with
  | None => (p, EmptyString)
  | Some dotIndex =>
      let start := match rfind "/" p with Some i => S i | None => 0 end in
      if Nat.leb start dotIndex
         && negb (all_chars "." (str_take (dotIndex - start) (str_drop start p)))
      then (str_take dotIndex p, str_drop dotIndex p)
      else (p, EmptyString)
  end.

(** [os.path.join(a, b)]. *)
Definition path_join (a b : string) : string :=
  if String.prefix "/" b then b
  else if String.eqb a EmptyString || endswith_char a "/" then a ++ b
  else a ++ "/" ++ b.

(** The characters that [int] skips around the number in an ASCII
    string: tab to carriage return, and the blank.  (The separators 28 to
    31 count as white space only in a string that also holds a character
    beyond ASCII.) *)
Definition is_space (c : ascii) : bool :=
  let n := nat_of_ascii c in
  (Nat.leb 9 n && Nat.leb n 13) || Nat.eqb n 32.

Fixpoint lstrip_space (s : string) : string :=
  match s with
  | String c s' => if is_space c then lstrip_space s' else s
  | EmptyString => EmptyString
  end.

Fixpoint rstrip_space (s : string) : string :=
  match s with
  | EmptyString => EmptyString
  | String a s' =>
      match rstrip_space s' with
      | EmptyString => if is_space a then EmptyString else String a EmptyString
      | r => String a r
      end
  end.

Definition digit_value (c : ascii) : option Z :=
  let n := nat_of_ascii c in
  if Nat.leb 48 n && Nat.leb n 57 then Some (Z.of_nat (n - 48)) else None.

(** Decimal digits with single underscores between them; [prev_us] says
    that the previous character was an underscore. *)
Fixpoint parse_digits (acc : Z) (prev_us : bool) (s : string) : option Z :=
  match s with
  | EmptyString => if prev_us then None else Some acc
  | String c s' =>
      if Ascii.eqb c "_" then
        if prev_us then None else parse_digits acc true s'
      else
        match digit_value c with
        | Some d => parse_digits (acc * 10 + d)%Z false s'
        | None => None
        end
  end.

Definition parse_unsigned (s : string) : option Z :=
  match s with
  | EmptyString => None
  | String c _ => if Ascii.eqb c "_" then None else parse_digits 0%Z false s
  end.

(** [int(s)] for a string in base 10; [None] stands for [ValueError]. *)
Definition py_int (s : string) : option Z :=
  match rstrip_space (lstrip_space s) with
  | String "-" s' => Z.opp <$> parse_unsigned s'
  | String "+" s' => parse_unsigned s'
  | s' => parse_unsigned s'
  end.
End PyStr.
Import PyStr.

(** ** Dates

    [datetime.date] as in the pure-Python [datetime] module: a validated
    (year, month, day) triple and its proleptic Gregorian ordinal. *)

Record date := mkDate { year : Z; month : Z; day : Z }.

Definition MINYEAR : Z := 1.
Definition MAXYEAR : Z := 9999.
Definition MAXORDINAL : Z := 3652059.

Definition is_leap (y : Z) : bool :=
  (y mod 4 =? 0) && (negb (y mod 100 =? 0) || (y mod 400 =? 0)).

Definition DAYS_IN_MONTH : list Z := [31; 28; 31; 30; 31; 30; 31; 31; 30; 31; 30; 31].

Definition days_in_month (y m : Z) : Z :=
  if (m =? 2) && is_leap y then 29
  else nth (Z.to_nat (m - 1)) DAYS_IN_MONTH 0.

Definition days_before_year (y : Z) : Z :=
  let y1 := y - 1 in y1 * 365 + y1 / 4 - y1 / 100 + y1 / 400.

Definition days_before_month (y m : Z) : Z :=
  fold_right Z.add 0 (firstn (Z.to_nat (m - 1)) DAYS_IN_MONTH)
  + (if (2 <? m) && is_leap y then 1 else 0).

Definition ymd2ord (d : date) : Z :=
  days_before_year (year d) + days_before_month (year d) (month d) + day d.

(** [datetime(y, m, d)]; [None] stands for the [ValueError] of a field out
    of range. *)
Definition datetime (y m d : Z) : option date :=
  if (MINYEAR <=? y) && (y <=? MAXYEAR) && (1 <=? m) && (m <=? 12)
     && (1 <=? d) && (d <=? days_in_month y m)
  then Some {| year := y; month := m; day := d |} else None.

(** [date.__lt__]: the (year, month, day) triples are compared. *)
Definition date_ltb (a b : date) : bool :=
  (year a <? year b)
  || ((year a =? year b)
      && ((month a <? month b)
          || ((month a =? month b) && (day a <? day b)))).

(** The date of [now - timedelta(days=days)] as an ordinal; [None] stands
    for the [OverflowError] of [timedelta] or of the subtraction. *)
Definition cutoff_ordinal (today : date) (days : Z) : option Z :=
  let c := ymd2ord today - days in
  if (Z.abs days <=? 999999999) && (1 <=? c) && (c <=? MAXORDINAL)
  then Some c else None.

(** ** Retention worker *)

(** What the loop body does with one file. *)
Inductive file_action :=
| Removed (full_path : string)   (* [os.remove(full_path)] *)
| Retained                       (* dated on or after the cut-off *)
| OutsideRoot                    (* the [continue] of the path guard *)
| ParseError.                    (* the body raised before any removal *)

(** One pass of the [while True] loop. *)
Inductive pass_result :=
| SkippedForever                 (* retention is [forever]: sleep a day *)
| Overflow                       (* the cut-off computation raised *)
| Swept (days : Z) (actions : list (string * string * file_action)).

Section Retention.
(** [os.path.abspath] depends on the working directory of the process;
    it is a parameter. *)
Variable abspath : string -> string.

(** The three strings taken from the names and the date they denote. *)
Definition file_date (dirpath filename : string) : option date :=
  let day_str :=
    fst (splitext (str_replace ".csv" EmptyString (str_replace ".csv.gz" EmptyString filename))) in
  let month_str := basename dirpath in
  let year_str := basename (dirname dirpath) in
  y ← py_int year_str;
  m ← py_int month_str;
  d ← py_int day_str;
  datetime y m d.

(** Modelled from the spec: the [except] clause that closes the [try] of
    the loop body lies beyond the end of the source file.  Following
    "a file whose name cannot be parsed as a valid date is skipped and
    logged, never deleted", a body that raises leaves the file in place
    ([ParseError]) and the loop goes on with the next file. *)
Definition sweep_file (cutoff : Z) (dirpath filename : string) : file_action :=
  match file_date dirpath filename with
  | None => ParseError
  | Some file_date =>
      if ymd2ord file_date <? cutoff then
        let full_path := path_join dirpath filename in
        if negb (startswith (abspath full_path) (abspath LOG_DIR))
        then OutsideRoot
        else Removed full_path
      else Retained
  end.

(** The two nested [for] loops over the triples of [os.walk]; [walk]
    lists each [dirpath] with its [filenames]. *)
Definition sweep (cutoff : Z) (walk : list (string * list string))
    : list (string * string * file_action) :=
  flat_map (fun '(dirpath, filenames) =>
              map (fun filename => (dirpath, filename,
                                    sweep_file cutoff dirpath filename))
                  filenames)
           walk.

(** [int(retention_period[:-1])] under its bare [except]. *)
Definition retention_days (retention_period : string) : Z :=
  match py_int (str_drop_last retention_period) with
  | Some days => days
  | None => 90
  end.

(** One pass of [auto_maintenance_worker] up to the end of the walk:
    the settings after the [pop] and what the pass did. *)
Definition maintenance_pass (today : date) (us : Settings)
    (walk : list (string * list string)) : Settings * pass_result :=
  let retention_period := logRetentionPeriod us in
  let run_manual := run_manual_cleanup us in
  let us' := {| enableSmokeDetection := enableSmokeDetection us;
                emergencyAlert := emergencyAlert us;
                alertThreshold := alertThreshold us;
                logRetentionPeriod := logRetentionPeriod us;
                run_manual_cleanup := false |} in
  if String.eqb retention_period "forever" && negb run_manual then
    (us', SkippedForever)
  else
    let days := retention_days retention_period in
    match cutoff_ordinal today days with
    | None => (us', Overflow)
    | Some cutoff => (us', Swept days (sweep cutoff walk))
    end.

(** The paths handed to [os.remove] during a pass. *)
Definition removed_paths (r : pass_result) : list string :=
  match r with
  | Swept _ actions =>
      flat_map (fun '(_, _, a) => match a with Removed p => [p] | _ => [] end)
               actions
  | _ => []
  end.

(** Whether the pass removed the file [filename] of [dirpath]. *)
Definition removes (r : pass_result) (dirpath filename : string) : Prop :=
  match r with
  | Swept _ actions =>
      In (dirpath, filename, Removed (path_join dirpath filename)) actions
  | _ => False
  end.
End Retention.

(** ** The retention worker over the interpreter's [int]

    [int] reads more than [py_int] does: in a string that is not ASCII
    it also takes the decimal digits and the white space of the other
    scripts, by tables that change with the version of the interpreter.
    The worker is therefore stated a second time over a reader [int_of]
    that is a parameter, known only to agree with [py_int] where that is
    exact: on ASCII strings short enough for the limit on the digits of a
    conversion.  A name is the string that [os.walk] hands over. *)

Fixpoint ascii_only (s : string) : bool :=
  match s with
  | EmptyString => true
  | String c s' => Nat.ltb (nat_of_ascii c) 128 && ascii_only s'
  end.

(** [sys.get_int_max_str_digits()] as it is set by default. *)
Definition INT_MAX_STR_DIGITS : nat := 4300.

Definition plain_name (s : string) : bool :=
  ascii_only s && Nat.leb (String.length s) INT_MAX_STR_DIGITS.

(** What is assumed of [int]: it is [py_int] on plain names. *)
Definition int_agrees (int_of : string -> option Z) : Prop :=
  forall s, plain_name s = true -> int_of s = py_int s.

Section RetentionWith.
Variable int_of : string -> option Z.
Variable abspath : string -> string.

(** [file_date], with [int_of] for [int]. *)
Definition file_date_with (dirpath filename : string) : option date :=
  let day_str :=
    fst (splitext (str_replace ".csv" EmptyString (str_replace ".csv.gz" EmptyString filename))) in
  let month_str := basename dirpath in
  let year_str := basename (dirname dirpath) in
  y ← int_of year_str;
  m ← int_of month_str;
  d ← int_of day_str;
  datetime y m d.

(** Modelled from the spec: the [except] clause that closes the [try] of
    the loop body lies beyond the end of the source file.  Following
    "a file whose name cannot be parsed as a valid date is skipped and
    logged, never deleted", a body that raises leaves the file in place
    ([ParseError]) and the loop goes on with the next file.  This is
    [sweep_file], with [int_of] for [int]. *)
Definition sweep_file_with (cutoff : Z) (dirpath filename : string) : file_action :=
  match file_date_with dirpath filename with
  | None => ParseError
  | Some file_date =>
      if ymd2ord file_date <? cutoff then
        let full_path := path_join dirpath filename in
        if negb (startswith (abspath full_path) (abspath LOG_DIR))
        then OutsideRoot
        else Removed full_path
      else Retained
  end.

Definition sweep_with (cutoff : Z) (walk : list (string * list string))
    : list (string * string * file_action) :=
  flat_map (fun '(dirpath, filenames) =>
              map (fun filename => (dirpath, filename,
                                    sweep_file_with cutoff dirpath filename))
                  filenames)
           walk.

(** [int(retention_period[:-1])] under its bare [except]. *)
Definition retention_days_with (retention_period : string) : Z :=
  match int_of (str_drop_last retention_period) with
  | Some days => days
  | None => 90
  end.

(** [maintenance_pass], with [int_of] for [int]. *)
Definition maintenance_pass_with (today : date) (us : Settings)
    (walk : list (string * list string)) : Settings * pass_result :=
  let retention_period := logRetentionPeriod us in
  let run_manual := run_manual_cleanup us in
  let us' := {| enableSmokeDetection := enableSmokeDetection us;
                emergencyAlert := emergencyAlert us;
                alertThreshold := alertThreshold us;
                logRetentionPeriod := logRetentionPeriod us;
                run_manual_cleanup := false |} in
  if String.eqb retention_period "forever" && negb run_manual then
    (us', SkippedForever)
  else
    let days := retention_days_with retention_period in
    match cutoff_ordinal today days with
    | None => (us', Overflow)
    | Some cutoff => (us', Swept days (sweep_with cutoff walk))
    end.
End RetentionWith.

(** ** The fusion formula in the words of the specification

    [humidity_penalty = max(0, humidity - 70) * 2]; [temp_penalty] is
    [(18 - t) * 2] below 18, [(t - 26) * 2] above 26 and 0 between;
    [iaq = min(500, round(0.5 * voc_index + 0.5 * pm25_aqi
                          + humidity_penalty + temp_penalty))]. *)

Definition spec_humidity_penalty (humidity : Q) : Q :=
  match Qlt_le_dec 70 humidity with
  | left _ => ((humidity - 70) * 2)%Q
  | right _ => 0%Q
  end.

Definition spec_temp_penalty (t : Q) : Q :=
  match Qlt_le_dec t 18, Qlt_le_dec 26 t with
  | left _, _ => ((18 - t) * 2)%Q
  | right _, left _ => ((t - 26) * 2)%Q
  | right _, right _ => 0%Q
  end.

Definition spec_iaq (voc_index : Q) (pm25_aqi : Z) (humidity t : Q) : Z :=
  Z.min 500
    (py_round (0.5 * voc_index + 0.5 * inject_Z pm25_aqi
               + spec_humidity_penalty humidity + spec_temp_penalty t)%Q).

(** ** Trigger-count gate *)

(** The call evaluated its triggers and counted at least [n] of them. *)
Definition trigger_count_ge (n : nat) (p : cycle_path) : Prop :=
  match trigger_count_of p with
  | Some c => (n <= c)%nat
  | None => False
  end.

Definition is_voc_or_gas (t : trigger) : bool :=
  match t with
  | TrigVOC _ | TrigGasDrop _ => true
  | _ => false
  end.

(** ** Cycles with an empty fusion result *)

(** One of the four inputs of [process] is absent from the reading. *)
Definition missing_input (raw_data : gmap string Q) : Prop :=
  raw_data !! "gas_resistance" = None \/ raw_data !! "pm25" = None \/
  raw_data !! "temperature" = None \/ raw_data !! "humidity" = None.

(** The alert state and flag after a cycle are those before it. *)
Definition alert_retained (before after : System) : Prop :=
  alert_state (globals after) = alert_state (globals before) /\
  alert_active (globals after) = alert_active (globals before).

(** ** Sample inputs *)

Module Scenario.
(** A reading of [Sensor.get_data] when only the BME688 came up: the
    PMSA003 fields are absent. *)
Definition bme_reading (temperature humidity pressure gas : Q) : gmap string Q :=
  {[ "temperature" := temperature; "humidity" := humidity;
     "pressure" := pressure; "gas_resistance" := gas ]}.

(** A reading with both sensors. *)
Definition full_reading (temperature humidity pressure gas pm1 pm25 pm10 : Q)
    : gmap string Q :=
  {[ "pm1" := pm1; "pm25" := pm25; "pm10" := pm10 ]}
  ∪ bme_reading temperature humidity pressure gas.

(** A fused data point as [check_conditions] receives it. *)
Definition fused_point (temperature gas pm25 voc_index iaq : Q) : gmap string Q :=
  {[ "temperature" := temperature; "gas_resistance" := gas;
     "pm25" := pm25; "voc_index" := voc_index; "iaq" := iaq ]}.

Definition clean_air : gmap string Q := fused_point 24 100000 8 0 17.
Definition gas_drop : gmap string Q := fused_point 24 60000 8 0 17.

(** Three cycles in clean air and one with the gas resistance fallen by
    40 kOhm, two seconds apart: the windows are one sample short. *)
Definition warm_up : list event :=
  [ EvCheck default_settings 1000 clean_air;
    EvCheck default_settings 1002 clean_air;
    EvCheck default_settings 1004 clean_air;
    EvCheck default_settings 1006 gas_drop ].

Definition warmed_up : engine := engine_run warm_up (engine_init true).

(** The same four cycles through the acquisition loop, without the
    particulate sensor. *)
Definition bme_clean : gmap string Q := bme_reading 24 45 1013 100000.
Definition bme_gas_drop : gmap string Q := bme_reading 24 45 1013 60000.

Definition acquire (t : Q) (raw : gmap string Q) (sys : System) : System :=
  sensor_cycle (fun x => x) default_settings t t (Some raw) sys.

Definition bme_warmed_up : System :=
  acquire 1006 bme_gas_drop
    (acquire 1004 bme_clean
       (acquire 1002 bme_clean
          (acquire 1000 bme_clean (System_init true)))).

(** A log tree as [os.walk] lists it, seen on 2025-06-01. *)
Definition today : date := {| year := 2025; month := 6; day := 1 |}.

Definition log_tree : list (string * list string) :=
  [ ("historical_logs/2025/03", ["02.csv"; "03.csv.gz"; "04.csv"; "notes.txt"]);
    ("historical_logs/2025/05", ["31.csv"]);
    ("historical_logs/2025", ["summary.csv"]);
    ("historical_logs", ["README"]) ].

Definition abspath (p : string) : string := "/home/pi/AtmosEye/" ++ p.

Definition forever_manual : Settings :=
  {| enableSmokeDetection := true; emergencyAlert := false;
     alertThreshold := 150; logRetentionPeriod := "forever";
     run_manual_cleanup := true |}.
End Scenario.

(** ** Further notions for runs of the engine and of the loop *)

(** The two states in which an alert is on. *)
Definition alarm_state (st : AlertState) : bool :=
  match st with
  | SMOKE | TEST => true
  | SAFE | WARNING => false
  end.

(** The flag and the state agree. *)
Definition coherent (g : Globals) : Prop :=
  alert_active g = alarm_state (alert_state g).

(** The two rolling windows have one length, at most the window size. *)
Definition windows_ok (self : SmokeDetector) : Prop :=
  List.length (temp_history self) = List.length (gas_history self) /\
  (List.length (temp_history self) <= TEMP_SPIKE_WINDOW)%nat.

Definition is_check (e : event) : bool :=
  match e with EvCheck _ _ _ => true | _ => false end.

(** A call of [check_conditions] with smoke detection switched on. *)
Definition is_enabled_check (e : event) : bool :=
  match e with EvCheck us _ _ => enableSmokeDetection us | _ => false end.

Section Runs.
Variable pow_1_5 : Q -> Q.

(** Successive calls of [process] on one processor. *)
Definition process_run (raws : list (gmap string Q)) (self : IAQProcessor)
    : IAQProcessor :=
  fold_left (fun self raw_data => (process pow_1_5 self raw_data).2) raws self.

(** Successive iterations of the acquisition loop: each input is the
    settings in force, the two clock readings and what the sensor
    returned. *)
Definition acquisition_run
    (inputs : list (Settings * Q * Q * option (gmap string Q)))
    (sys : System) : System :=
  fold_left (fun sys '(us, ts, now, raw_data) =>
               sensor_cycle pow_1_5 us ts now raw_data sys)
            inputs sys.
End Runs.

(** The newest entry of the history. *)
Definition newest (h : list DataPoint) : option DataPoint :=
  match h with
  | [] => None
  | d :: rest => Some (List.last rest d)
  end.

(** A gas resistance within the clamp of [process]. *)
Definition gas_in_range (x : Q) : Prop := (10000 <= x <= 500000)%Q.

(** What [process] keeps true of its processor. *)
Definition processor_ok (self : IAQProcessor) : Prop :=
  alpha self = 0.2%Q /\
  (List.length (gas_window self) <= ROLLING_WINDOW_SIZE)%nat /\
  Forall gas_in_range (gas_window self) /\
  match ewma_baseline self with
  | None => gas_window self = []
  | Some b => gas_in_range b /\ gas_window self <> []
  end.

(** The sensor returned a non-empty reading: the loop takes its first
    branch. *)
Definition good_read (input : Settings * Q * Q * option (gmap string Q)) : bool :=
  match input.2 with
  | Some raw_data => negb (bool_decide (raw_data = ∅))
  | None => false
  end.

(** The keys that the loop and [process] write into a data point. *)
Definition derived_keys : gset string :=
  {[ "timestamp"; "iaq"; "aqi"; "voc_index"; "co2_equivalent" ]}.

(** The latest reading is the newest entry of the history and carries the
    alert state of the globals. *)
Definition published_ok (sys : System) : Prop :=
  latest_sensor_data sys = newest (history_buffer sys) /\
  match latest_sensor_data sys with
  | Some d => dp_state d = alert_state (globals sys) /\
              dp_alert_active d = alert_active (globals sys)
  | None => True
  end.

(** ** The path of a daily log

    The path that [periodic_csv_writer] builds for the day it writes:
    [strftime] with ['%Y'], ['%m'] and ['%d'], joined under [LOG_DIR].
    ['%Y'] is modelled for the years from 1000 on, where it has four
    digits. *)

Definition digit_char (n : Z) : ascii := ascii_of_nat (48 + Z.to_nat n).

Definition two_digits (n : Z) : string :=
  String (digit_char (n / 10 mod 10)) (String (digit_char (n mod 10)) EmptyString).

Definition four_digits (n : Z) : string :=
  (two_digits (n / 100) ++ two_digits n)%string.

Definition log_dir_path (today : date) : string :=
  path_join (path_join LOG_DIR (four_digits (year today)))
            (two_digits (month today)).

Definition log_basename (today : date) : string :=
  (two_digits (day today) ++ ".csv")%string.

Definition log_filename (today : date) : string :=
  path_join (log_dir_path today) (log_basename today).

(** The integers from [lo] to [lo + n - 1]. *)
Definition Zrange (lo : Z) (n : nat) : list Z :=
  map (fun i => lo + Z.of_nat i) (seq 0 n).

(** What the worker needs of a directory name [name] written for the
    number [n]: it is a relative, non-empty component without a separator,
    and [int] reads [n] back from it. *)
Definition component_ok (name : string) (n : Z) : bool :=
  bool_decide (rfind "/" name = None)
  && negb (String.prefix "/" name)
  && negb (endswith_char name "/")
  && negb (String.eqb name EmptyString)
  && bool_decide (py_int name = Some n).

(** The name of a day file, plain or compressed, read back as the worker
    reads it. *)
Definition day_str_of (filename : string) : string :=
  fst (splitext (str_replace ".csv" EmptyString
                   (str_replace ".csv.gz" EmptyString filename))).

Definition day_file_reads_back (d : Z) : bool :=
  negb (String.prefix "/" (two_digits d ++ ".csv"))
  && bool_decide (py_int (day_str_of (two_digits d ++ ".csv")) = Some d)
  && bool_decide (py_int (day_str_of (two_digits d ++ ".csv.gz")) = Some d).

(** The three strings that the worker reads from the names that the
    writer gives to day [d] of a month are plain. *)
Definition day_file_plain (d : Z) : bool :=
  plain_name (day_str_of (two_digits d ++ ".csv"))
  && plain_name (day_str_of (two_digits d ++ ".csv.gz")).

(** ** More sample inputs *)

Module Cases.
(** The engine right after the smoke alert of the sample run. *)
Definition smoke_engine : engine :=
  engine_step (EvCheck default_settings 1008 Scenario.gas_drop)
              Scenario.warmed_up.

Definition detection_off : Settings :=
  {| enableSmokeDetection := false; emergencyAlert := false;
     alertThreshold := 150; logRetentionPeriod := "90d";
     run_manual_cleanup := false |}.

(** Five cycles in clean air: the windows are full and nothing fires. *)
Definition steady : list event :=
  [ EvCheck default_settings 1000 Scenario.clean_air;
    EvCheck default_settings 1002 Scenario.clean_air;
    EvCheck default_settings 1004 Scenario.clean_air;
    EvCheck default_settings 1006 Scenario.clean_air;
    EvCheck default_settings 1008 Scenario.clean_air ].

Definition steady_engine : engine := engine_run steady (engine_init true).

(** Clean air with a fused IAQ of 200, above the default threshold. *)
Definition stuffy_air : gmap string Q := Scenario.fused_point 24 100000 8 0 200.

(** The engine in test mode. *)
Definition testing_engine : engine :=
  engine_step (EvToggleTest default_settings) (engine_init true).
End Cases.

(** * Properties *)

(** ** Arithmetic of the embedded floats *)

Section NumFacts.
Local Open Scope Q_scope.

Lemma Qleb_le (x y : Q) : Qleb x y = true <-> x <= y.
Proof. apply Qle_bool_iff. Qed.

Lemma Qleb_gt (x y : Q) : Qleb x y = false <-> y < x.
Proof.
  unfold Qleb. split; intros H.
  - apply Qnot_le_lt. intros Hle. apply Qle_bool_iff in Hle. congruence.
  - destruct (Qle_bool x y) eqn:E; [|reflexivity].
    apply Qle_bool_iff in E. exfalso. apply (Qlt_not_le _ _ H E).
Qed.

Lemma Qltb_lt (x y : Q) : Qltb x y = true <-> x < y.
Proof.
  unfold Qltb. rewrite negb_true_iff. apply Qleb_gt.
Qed.

Lemma Qltb_ge (x y : Q) : Qltb x y = false <-> y <= x.
Proof.
  unfold Qltb. rewrite negb_false_iff. apply Qleb_le.
Qed.

Lemma Qmax_lower (x y : Q) : x <= Qmax x y.
Proof.
  unfold Qmax. destruct (Qltb x y) eqn:E.
  - apply Qltb_lt in E. lra.
  - lra.
Qed.

Lemma Qmin_cases (x y : Q) : Qmin x y = x \/ Qmin x y = y.
Proof. unfold Qmin. destruct (Qltb y x); auto. Qed.

Lemma py_round_comp (x y : Q) : x == y -> py_round x = py_round y.
Proof.
  intros E. unfold py_round.
  rewrite (Qfloor_comp x y E).
  assert (Hc : x - inject_Z (Qfloor y) == y - inject_Z (Qfloor y))
    by (rewrite E; reflexivity).
  rewrite (Qcompare_comp _ _ Hc (1 # 2) (1 # 2) (Qeq_refl _)).
  reflexivity.
Qed.

Lemma py_round_floor (x : Q) : (Qfloor x <= py_round x)%Z.
Proof.
  unfold py_round.
  destruct (x - inject_Z (Qfloor x) ?= 1 # 2); [destruct (Z.even _)| |]; lia.
Qed.

Lemma py_round_nonneg (x : Q) : 0 <= x -> (0 <= py_round x)%Z.
Proof.
  intros H. pose proof (Qfloor_resp_le 0 x H) as Hf.
  pose proof (py_round_floor x). change (Qfloor 0) with 0%Z in Hf. lia.
Qed.
Lemma linear_nonneg (k x b : Q) : 0 <= k -> 0 <= x -> 0 <= b -> 0 <= k * x + b.
Proof.
  intros Hk Hx Hb. pose proof (Qmult_le_0_compat k x Hk Hx). lra.
Qed.
End NumFacts.

(** Case analysis on every comparison of a goal, each case with the
    inequality it stands for. *)
Ltac q_cases :=
  repeat match goal with
    | |- context [Qle_bool ?a ?b] =>
        let E := fresh "E" in
        destruct (Qle_bool a b) eqn:E;
        [ apply Qleb_le in E | apply Qleb_gt in E ]
    end.

(** ** PM2.5 to AQI *)

(** C3: the conversion at the six points of the specification: 12.0 gives
    50, 35.4 gives 100, 50.0 gives 137, 0 gives 0, 600 (above the top
    bracket) gives 500 and -5 (negative) gives 0. *)
Theorem pm25_to_aqi_spec_points :
  _pm25_to_aqi (Some 12.0%Q) = 50 /\
  _pm25_to_aqi (Some 35.4%Q) = 100 /\
  _pm25_to_aqi (Some 50.0%Q) = 137 /\
  _pm25_to_aqi (Some 0%Q) = 0 /\
  _pm25_to_aqi (Some 600%Q) = 500 /\
  _pm25_to_aqi (Some (-5)%Q) = 0.
Proof. repeat split; vm_compute; reflexivity. Qed.

Lemma pm25_to_aqi_negative (c : Q) : (c < 0)%Q -> _pm25_to_aqi (Some c) = 0.
Proof.
  intros H. unfold _pm25_to_aqi. apply Qltb_lt in H. rewrite H. reflexivity.
Qed.

Lemma scan_breakpoints_no_match (bps : list (Q * Q * Z * Z)) (c : Q) :
  (forall bp, In bp bps -> in_bracket bp c = false) ->
  scan_breakpoints bps c = 500.
Proof.
  induction bps as [|bp rest IH]; intros Hno; simpl; [reflexivity|].
  rewrite (Hno bp) by (left; reflexivity).
  apply IH. intros b Hb. apply Hno. right. exact Hb.
Qed.

Lemma pm25_to_aqi_above_top (c : Q) : (500.4 < c)%Q -> _pm25_to_aqi (Some c) = 500.
Proof.
  intros H. unfold _pm25_to_aqi.
  destruct (Qltb c 0) eqn:E0; [apply Qltb_lt in E0; lra|].
  apply scan_breakpoints_no_match.
  intros bp Hin. unfold breakpoints in Hin. simpl in Hin.
  repeat (destruct Hin as [<- | Hin]); try contradiction;
    unfold in_bracket, Qleb; q_cases; simpl; try reflexivity;
    exfalso; lra.
Qed.

(** C9: a PM2.5 value strictly inside one of the five gaps between
    adjacent brackets matches no bracket, and the conversion returns 500 as
    it does above the top bracket. *)
Theorem pm25_to_aqi_gap (c : Q) :
  (12.0 < c < 12.1 \/ 35.4 < c < 35.5 \/ 55.4 < c < 55.5 \/
   150.4 < c < 150.5 \/ 250.4 < c < 250.5)%Q ->
  scan_breakpoints breakpoints c = 500 /\
  (forall bp, In bp breakpoints -> in_bracket bp c = false) /\
  _pm25_to_aqi (Some c) = 500.
Proof.
  intros H.
  assert (Hno : forall bp, In bp breakpoints -> in_bracket bp c = false).
  { intros bp Hin. unfold breakpoints in Hin. simpl in Hin.
    repeat (destruct Hin as [<- | Hin]); try contradiction;
      unfold in_bracket, Qleb; q_cases; simpl; try reflexivity;
      exfalso; lra. }
  assert (Hscan : scan_breakpoints breakpoints c = 500)
    by (apply scan_breakpoints_no_match; exact Hno).
  split; [exact Hscan|]. split; [exact Hno|].
  unfold _pm25_to_aqi.
  destruct (Qltb c 0) eqn:E0; [apply Qltb_lt in E0; lra | exact Hscan].
Qed.

Lemma pm25_to_aqi_gap_witness :
  scan_breakpoints breakpoints 12.05%Q = 500 /\
  (forall bp, In bp breakpoints -> in_bracket bp 12.05%Q = false) /\
  _pm25_to_aqi (Some 12.05%Q) = 500.
Proof.
  apply (pm25_to_aqi_gap 12.05%Q). left. split; reflexivity.
Defined.

Lemma interpolate_nonneg (bp : Q * Q * Z * Z) (c : Q) :
  In bp breakpoints -> in_bracket bp c = true -> 0 <= interpolate bp c.
Proof.
  intros Hin Hb. unfold breakpoints in Hin. simpl in Hin.
  repeat (destruct Hin as [<- | Hin]); try contradiction;
    unfold in_bracket in Hb; apply andb_true_iff in Hb as [Hlo Hhi];
    apply Qleb_le in Hlo; apply Qleb_le in Hhi;
    unfold interpolate; apply py_round_nonneg;
    (apply linear_nonneg; [vm_compute; discriminate | lra | vm_compute; discriminate]).
Qed.

Lemma scan_breakpoints_nonneg (bps : list (Q * Q * Z * Z)) (c : Q) :
  (forall bp, In bp bps -> In bp breakpoints) -> 0 <= scan_breakpoints bps c.
Proof.
  induction bps as [|bp rest IH]; intros Hsub; simpl; [lia|].
  destruct (in_bracket bp c) eqn:E.
  - apply interpolate_nonneg; [apply Hsub; left; reflexivity | exact E].
  - apply IH. intros b Hb. apply Hsub. right. exact Hb.
Qed.

Lemma pm25_to_aqi_nonneg (pm : option Q) : 0 <= _pm25_to_aqi pm.
Proof.
  destruct pm as [c|]; unfold _pm25_to_aqi; [|lia].
  destruct (Qltb c 0); [lia|].
  apply scan_breakpoints_nonneg. auto.
Qed.

(** ** Fusion *)

Section FusionFacts.
Local Open Scope Q_scope.

Lemma humidity_penalty_spec (h : Q) : humidity_penalty h == spec_humidity_penalty h.
Proof.
  unfold humidity_penalty, spec_humidity_penalty, Qmax.
  destruct (Qlt_le_dec 70 h) as [Hlt | Hle].
  - assert (E : Qltb 0 (h - 70) = true) by (apply Qltb_lt; lra).
    rewrite E. reflexivity.
  - destruct (Qltb 0 (h - 70)) eqn:E.
    + apply Qltb_lt in E. lra.
    + lra.
Qed.

Lemma temp_penalty_spec (t : Q) : temp_penalty t == spec_temp_penalty t.
Proof.
  unfold temp_penalty, spec_temp_penalty.
  destruct (Qlt_le_dec t 18) as [H18 | H18].
  - assert (E : Qltb t 18 = true) by (apply Qltb_lt; exact H18).
    rewrite E. destruct (Qlt_le_dec 26 t); reflexivity.
  - assert (E : Qltb t 18 = false) by (apply Qltb_ge; exact H18).
    rewrite E. destruct (Qlt_le_dec 26 t) as [H26 | H26].
    + assert (E' : Qltb 26 t = true) by (apply Qltb_lt; exact H26).
      rewrite E'. reflexivity.
    + assert (E' : Qltb 26 t = false) by (apply Qltb_ge; exact H26).
      rewrite E'. reflexivity.
Qed.

Lemma spec_humidity_penalty_nonneg (h : Q) : 0 <= spec_humidity_penalty h.
Proof. unfold spec_humidity_penalty. destruct (Qlt_le_dec 70 h); lra. Qed.

Lemma spec_temp_penalty_nonneg (t : Q) : 0 <= spec_temp_penalty t.
Proof.
  unfold spec_temp_penalty.
  destruct (Qlt_le_dec t 18), (Qlt_le_dec 26 t); lra.
Qed.

Lemma deviation_nonneg (baseline smoothed_gas : Q) :
  0 <= deviation_of baseline smoothed_gas.
Proof. apply Qmax_lower. Qed.

Lemma voc_index_nonneg (baseline smoothed_gas : Q) :
  0 <= voc_index_of baseline smoothed_gas.
Proof.
  unfold voc_index_of.
  assert (H : 0 <= (if Qltb 0 baseline
                    then deviation_of baseline smoothed_gas / baseline * 500
                    else 0)).
  { destruct (Qltb 0 baseline) eqn:E; [|lra].
    apply Qltb_lt in E.
    pose proof (deviation_nonneg baseline smoothed_gas) as Hd.
    pose proof (Qinv_lt_0_compat baseline E) as Hi.
    unfold Qdiv.
    pose proof (Qmult_le_0_compat _ (/ baseline) Hd (Qlt_le_weak _ _ Hi)).
    lra. }
  destruct (Qmin_cases 500 (if Qltb 0 baseline
                            then deviation_of baseline smoothed_gas / baseline * 500
                            else 0)) as [-> | ->]; [lra | exact H].
Qed.

Lemma voc_index_le_500 (baseline smoothed_gas : Q) :
  voc_index_of baseline smoothed_gas <= 500.
Proof.
  unfold voc_index_of, Qmin.
  match goal with |- context [Qltb ?a 500] => destruct (Qltb a 500) eqn:E end.
  - apply Qltb_lt in E. lra.
  - lra.
Qed.

Lemma fused_iaq_of_spec (voc_index : Q) (pm25_aqi : Z) (humidity temp : Q) :
  fused_iaq_of voc_index pm25_aqi humidity temp
  = spec_iaq voc_index pm25_aqi humidity temp.
Proof.
  unfold fused_iaq_of, spec_iaq. f_equal. apply py_round_comp.
  rewrite humidity_penalty_spec, temp_penalty_spec. ring.
Qed.

Lemma spec_iaq_range (voc_index : Q) (pm25_aqi : Z) (humidity temp : Q) :
  0 <= voc_index -> (0 <= pm25_aqi)%Z ->
  (0 <= spec_iaq voc_index pm25_aqi humidity temp <= 500)%Z.
Proof.
  intros Hv Ha. unfold spec_iaq.
  assert (Hq : 0 <= inject_Z pm25_aqi)
    by (change 0 with (inject_Z 0); rewrite <- Zle_Qle; exact Ha).
  pose proof (spec_humidity_penalty_nonneg humidity).
  pose proof (spec_temp_penalty_nonneg temp).
  assert (Hr : (0 <= py_round (0.5 * voc_index + 0.5 * inject_Z pm25_aqi
                               + spec_humidity_penalty humidity
                               + spec_temp_penalty temp))%Z)
    by (apply py_round_nonneg; lra).
  lia.
Qed.
End FusionFacts.

(** C7: for a raw reading with the four inputs present, the [iaq] entry of
    the result of [process] is min(500, round(0.5 voc_index + 0.5 pm25_aqi
    + humidity_penalty + temp_penalty)) with the penalties of the
    specification, [voc_index] and [pm25_aqi] being the values of the
    cycle; the result lies between 0 and 500. *)
Theorem process_iaq_formula (pow_1_5 : Q -> Q) (self : IAQProcessor)
    (raw_data : gmap string Q) (gas_raw pm25 temp humidity : Q) :
  raw_data !! "gas_resistance" = Some gas_raw ->
  raw_data !! "pm25" = Some pm25 ->
  raw_data !! "temperature" = Some temp ->
  raw_data !! "humidity" = Some humidity ->
  let smoothed_gas :=
    np_mean (deque_append ROLLING_WINDOW_SIZE (gas_window self)
                          (np_clip gas_raw 10000 500000)) in
  let voc_index := voc_index_of (next_baseline self smoothed_gas) smoothed_gas in
  let pm25_aqi := _pm25_to_aqi (Some pm25) in
  let iaq := spec_iaq voc_index pm25_aqi humidity temp in
  let result := fst (process pow_1_5 self raw_data) in
  result !! "iaq" = Some (inject_Z iaq) /\
  result !! "aqi" = Some (inject_Z pm25_aqi) /\
  result !! "voc_index" = Some (inject_Z (py_round voc_index)) /\
  0 <= iaq <= 500.
Proof.
  intros Hg Hp Ht Hh smoothed_gas voc_index pm25_aqi iaq result.
  subst result. unfold process. rewrite Hg, Hp, Ht, Hh. cbn [fst].
  fold smoothed_gas. fold voc_index. fold pm25_aqi.
  rewrite fused_iaq_of_spec. fold iaq.
  repeat split.
  - subst iaq. apply spec_iaq_range;
      [apply voc_index_nonneg | apply pm25_to_aqi_nonneg].
  - subst iaq. apply spec_iaq_range;
      [apply voc_index_nonneg | apply pm25_to_aqi_nonneg].
Qed.

(** ** Alert engine *)

Section TriggerFacts.
Implicit Types (self : SmokeDetector) (g : Globals) (data : gmap string Q).

Lemma push_sample_cooldown data self :
  alert_cooldown (push_sample data self) = alert_cooldown self.
Proof. reflexivity. Qed.

Lemma push_sample_last_alert_time data self :
  last_alert_time (push_sample data self) = last_alert_time self.
Proof. reflexivity. Qed.

Lemma clear_alert_state self m g : alert_state (clear_alert self m g) = SAFE.
Proof. unfold clear_alert. destruct (bot self); reflexivity. Qed.

Lemma clear_alert_active self m g : alert_active (clear_alert self m g) = false.
Proof. unfold clear_alert. destruct (bot self); reflexivity. Qed.

Lemma trigger_alert_state us self st m g :
  alert_state (trigger_alert us self st m g) = st.
Proof.
  unfold trigger_alert.
  destruct (bot self), (emergencyAlert us || bool_decide (st = TEST)); reflexivity.
Qed.

Lemma trigger_alert_active us self st m g :
  alert_active (trigger_alert us self st m g) = true.
Proof.
  unfold trigger_alert.
  destruct (bot self), (emergencyAlert us || bool_decide (st = TEST)); reflexivity.
Qed.

Lemma trigger_alert_queue us self st m g :
  bot_queue (trigger_alert us self st m g)
  = if bot self then bot_queue g ++ [(KAlert, m)] else bot_queue g.
Proof.
  unfold trigger_alert.
  destruct (bot self), (emergencyAlert us || bool_decide (st = TEST)); reflexivity.
Qed.

(** The warning rule never writes SMOKE. *)
Lemma warning_branch_smoke us data g :
  alert_state (warning_branch us data g) = SMOKE -> alert_state g = SMOKE.
Proof.
  unfold warning_branch.
  repeat case_match; simpl; congruence.
Qed.

Lemma warning_branch_active us data g :
  alert_active g = true -> warning_branch us data g = g.
Proof. intros H. unfold warning_branch. rewrite H. reflexivity. Qed.

(** The smoke rule writes SMOKE only through its first branch. *)
Lemma smoke_branch_smoke us now triggers self g :
  alert_state g <> SMOKE ->
  alert_state (smoke_branch us now triggers self g).2 = SMOKE ->
  (2 <= List.length triggers)%nat /\
  Qltb (alert_cooldown self) (now - last_alert_time self) = true /\
  alert_active g = false.
Proof.
  intros Hpre. unfold smoke_branch.
  destruct (Nat.leb 2 (List.length triggers)
            && Qltb (alert_cooldown self) (now - last_alert_time self)) eqn:Egate.
  - apply andb_true_iff in Egate as [E2 Ec]. apply Nat.leb_le in E2.
    destruct (alert_active g); cbn [negb snd]; intros Hpost;
      [congruence | auto].
  - destruct (Nat.eqb _ 0 && alert_active g);
      [destruct (alert_state g) eqn:Es|]; cbn [snd];
      rewrite ?clear_alert_state; intros; congruence.
Qed.

(** One call of [check_conditions] that ends in SMOKE from another
    state went through the gate. *)
Lemma check_conditions_smoke us now data self g :
  alert_state g <> SMOKE ->
  alert_state (check_conditions us now data self g).2 = SMOKE ->
  exists triggers,
    (check_conditions us now data self g).1.1 = Evaluated triggers /\
    (2 <= List.length triggers)%nat /\
    Qltb (alert_cooldown self) (now - last_alert_time self) = true /\
    alert_active g = false.
Proof.
  intros Hpre. unfold check_conditions.
  destruct (enableSmokeDetection us); simpl.
  2:{ destruct (alert_active g && bool_decide (alert_state g = SMOKE));
        rewrite ?clear_alert_state; intros; congruence. }
  destruct (test_alert_active self); simpl; [intros; congruence|].
  destruct (Nat.ltb _ TEMP_SPIKE_WINDOW); simpl; [intros; congruence|].
  destruct (smoke_branch us now (collect_triggers (push_sample data self) data)
              (push_sample data self) g) as [self2 g2] eqn:Eb.
  simpl. intros Hpost. apply warning_branch_smoke in Hpost.
  exists (collect_triggers (push_sample data self) data).
  split; [reflexivity|].
  pose proof (smoke_branch_smoke us now
                (collect_triggers (push_sample data self) data)
                (push_sample data self) g Hpre) as Hs.
  rewrite Eb in Hs. exact (Hs Hpost).
Qed.
End TriggerFacts.

Section RunFacts.
Implicit Types (s : engine) (e : event) (evs : list event).

Lemma engine_step_cooldown e s :
  alert_cooldown (engine_step e s).1 = alert_cooldown s.1.
Proof.
  destruct s as [self g], e as [us now data | now | us]; cbn [engine_step fst snd].
  - unfold check_conditions.
    destruct (negb (enableSmokeDetection us)); [reflexivity|].
    destruct (test_alert_active self); [reflexivity|].
    destruct (Nat.ltb _ _); [reflexivity|].
    unfold smoke_branch. repeat case_match; simplify_eq; reflexivity.
  - unfold dismiss_alert. destruct (negb (alert_active g)); reflexivity.
  - unfold toggle_test. destruct (test_alert_active self); reflexivity.
Qed.

Lemma engine_run_cooldown evs s :
  alert_cooldown (engine_run evs s).1 = alert_cooldown s.1.
Proof.
  revert s. induction evs as [|e evs IH]; intros s; [reflexivity|].
  cbn [engine_run fold_left]. fold (engine_run evs (engine_step e s)).
  rewrite IH. apply engine_step_cooldown.
Qed.

(** A dismissal or a test toggle never moves the engine into SMOKE. *)
Lemma manual_step_not_smoke e s :
  event_path e s = None ->
  alert_state s.2 <> SMOKE -> alert_state (engine_step e s).2 <> SMOKE.
Proof.
  destruct s as [self g], e as [us now data | now | us];
    cbn [event_path engine_step fst snd]; [discriminate| |]; intros _ Hpre.
  - unfold dismiss_alert. destruct (alert_active g); cbn [negb snd].
    + rewrite clear_alert_state. discriminate.
    + exact Hpre.
  - unfold toggle_test. destruct (test_alert_active self); cbn [snd].
    + rewrite clear_alert_state. discriminate.
    + rewrite trigger_alert_state. discriminate.
Qed.
End RunFacts.

(** C1: in every run of the engine from its initial state (calls of
    [check_conditions] with any settings, clock readings and data, and in
    between them dismissals and test toggles), a step that takes the alert
    state from another state to SMOKE is a call of [check_conditions] that
    evaluated its triggers, counted at least two, found more than 300
    seconds elapsed since the recorded trigger time, and found
    [alert_active] unset. *)
Theorem smoke_only_through_gate (setup : bool) (evs : list event) (e : event) :
  let s := engine_run evs (engine_init setup) in
  alert_state s.2 <> SMOKE ->
  alert_state (engine_step e s).2 = SMOKE ->
  exists us now data triggers,
    e = EvCheck us now data /\
    event_path e s = Some (Evaluated triggers) /\
    trigger_count_ge 2 (Evaluated triggers) /\
    (300 < now - last_alert_time s.1)%Q /\
    alert_active s.2 = false.
Proof.
  intros s Hpre Hpost.
  destruct e as [us now data | now | us].
  - cbn [engine_step] in Hpost.
    assert (Hpost' : alert_state (check_conditions us now data s.1 s.2).2 = SMOKE).
    { destruct (check_conditions us now data s.1 s.2) as [[p det] g'].
      exact Hpost. }
    destruct (check_conditions_smoke us now data s.1 s.2 Hpre Hpost')
      as (triggers & Hpath & Hcount & Hcool & Hact).
    exists us, now, data, triggers. repeat split.
    + cbn [event_path]. rewrite Hpath. reflexivity.
    + exact Hcount.
    + apply Qltb_lt in Hcool. subst s.
      rewrite engine_run_cooldown in Hcool. exact Hcool.
    + exact Hact.
  - exfalso. exact (manual_step_not_smoke (EvDismiss now) s eq_refl Hpre Hpost).
  - exfalso. exact (manual_step_not_smoke (EvToggleTest us) s eq_refl Hpre Hpost).
Qed.

Lemma smoke_only_through_gate_witness :
  let s := engine_run Scenario.warm_up (engine_init true) in
  let e := EvCheck default_settings 1008 Scenario.gas_drop in
  alert_state s.2 <> SMOKE /\
  alert_state (engine_step e s).2 = SMOKE /\
  exists us now data triggers,
    e = EvCheck us now data /\
    event_path e s = Some (Evaluated triggers) /\
    trigger_count_ge 2 (Evaluated triggers) /\
    (300 < now - last_alert_time s.1)%Q /\
    alert_active s.2 = false.
Proof.
  intros s e.
  assert (Hpre : alert_state s.2 <> SMOKE) by (vm_compute; discriminate).
  assert (Hpost : alert_state (engine_step e s).2 = SMOKE)
    by (vm_compute; reflexivity).
  split; [exact Hpre|]. split; [exact Hpost|].
  exact (smoke_only_through_gate true Scenario.warm_up e Hpre Hpost).
Defined.

(** A call of [check_conditions] that evaluated fewer than two triggers
    leaves the engine out of SMOKE if it was out of SMOKE before. *)
Corollary no_smoke_below_two_triggers (us : Settings) (now : Q)
    (data : gmap string Q) (triggers : list trigger) (s : engine) :
  event_path (EvCheck us now data) s = Some (Evaluated triggers) ->
  (List.length triggers < 2)%nat ->
  alert_state s.2 <> SMOKE ->
  alert_state (engine_step (EvCheck us now data) s).2 <> SMOKE.
Proof.
  intros Hpath Hlt Hpre Hpost. cbn [event_path] in Hpath.
  injection Hpath as Hpath. cbn [engine_step] in Hpost.
  assert (Hpost' : alert_state (check_conditions us now data s.1 s.2).2 = SMOKE).
  { destruct (check_conditions us now data s.1 s.2) as [[p det] g'].
    exact Hpost. }
  destruct (check_conditions_smoke us now data s.1 s.2 Hpre Hpost')
    as (tr & Hp & Hc & _).
  rewrite Hpath in Hp. injection Hp as ->. lia.
Qed.

Section GateFacts.
Implicit Types (self : SmokeDetector) (g : Globals) (data : gmap string Q).

(** A call that evaluated its triggers passed the three early returns. *)
Lemma check_conditions_evaluated us now data self g triggers :
  (check_conditions us now data self g).1.1 = Evaluated triggers ->
  triggers = collect_triggers (push_sample data self) data /\
  check_conditions us now data self g
  = (Evaluated triggers,
     (smoke_branch us now triggers (push_sample data self) g).1,
     warning_branch us data
       (smoke_branch us now triggers (push_sample data self) g).2).
Proof.
  unfold check_conditions.
  destruct (negb (enableSmokeDetection us)); [discriminate|].
  destruct (test_alert_active self); [discriminate|].
  destruct (Nat.ltb _ _); [discriminate|].
  destruct (smoke_branch us now (collect_triggers (push_sample data self) data)
              (push_sample data self) g) as [self2 g2] eqn:Eb.
  cbn [fst snd]. intros [= <-]. rewrite Eb. split; reflexivity.
Qed.

Lemma check_conditions_full_window us now data self g :
  enableSmokeDetection us = true ->
  test_alert_active self = false ->
  (TEMP_SPIKE_WINDOW <= List.length (temp_history (push_sample data self)))%nat ->
  (check_conditions us now data self g).1.1
  = Evaluated (collect_triggers (push_sample data self) data).
Proof.
  intros He Ht Hw. unfold check_conditions. rewrite He, Ht. cbn [negb].
  apply Nat.ltb_ge in Hw. rewrite Hw.
  destruct (smoke_branch _ _ _ _ _). reflexivity.
Qed.

(** The first branch of the smoke rule. *)
Lemma smoke_branch_fires us now triggers self g :
  (2 <= List.length triggers)%nat ->
  (alert_cooldown self < now - last_alert_time self)%Q ->
  alert_active g = false ->
  smoke_branch us now triggers self g
  = (set_last_alert_time now self,
     trigger_alert us self SMOKE (MsgSmokeTriggered triggers) g).
Proof.
  intros H2 Hc Ha. unfold smoke_branch.
  apply Nat.leb_le in H2. apply Qltb_lt in Hc.
  rewrite H2, Hc, Ha. reflexivity.
Qed.

(** Within the cool-down, two or more triggers change nothing. *)
Lemma smoke_branch_cooling us now triggers self g :
  (2 <= List.length triggers)%nat ->
  (now - last_alert_time self <= alert_cooldown self)%Q ->
  smoke_branch us now triggers self g = (self, g).
Proof.
  intros H2 Hc. unfold smoke_branch.
  apply Qltb_ge in Hc. rewrite Hc, andb_false_r.
  destruct (List.length triggers) as [|n]; [lia|]. reflexivity.
Qed.

Lemma count_alerts_snoc (q : list (msg_kind * message)) (m : message) :
  count_alerts (q ++ [(KAlert, m)]) = S (count_alerts q).
Proof.
  unfold count_alerts. rewrite List.filter_app, List.length_app.
  cbn [List.filter fst]. rewrite bool_decide_eq_true_2 by reflexivity.
  cbn [List.length]. lia.
Qed.

Lemma collect_triggers_voc_gas self data :
  let voc_val := default 0%Q (data !! "voc_index") in
  let gas_change := gas_change_of (gas_history self) in
  (250 < voc_val \/ 25000 < gas_change)%Q ->
  List.filter is_voc_or_gas (collect_triggers self data)
  = [TrigVOC voc_val; TrigGasDrop gas_change] /\
  (2 <= List.length (collect_triggers self data))%nat.
Proof.
  intros voc_val gas_change Hcond.
  assert (E : Qltb 250 voc_val || Qltb 25000 gas_change = true).
  { apply orb_true_iff. destruct Hcond as [H | H]; [left | right];
      apply Qltb_lt; exact H. }
  unfold collect_triggers. fold voc_val. fold gas_change. rewrite E.
  rewrite !List.filter_app, !List.length_app.
  destruct (Qltb 100 _), (Qltb TEMP_SPIKE_THRESHOLD _); cbn; split;
    (reflexivity || lia).
Qed.
End GateFacts.

(** C2: two calls of [check_conditions] ten seconds apart, each counting
    at least two triggers, the first from SAFE with [alert_active] unset
    and the cool-down elapsed: the first call moves to SMOKE and queues one
    alert notification; the second leaves every global as it is, so there
    is one transition and one more alert in the queue than before. *)
Theorem cooldown_blocks_second_alert (us1 us2 : Settings) (now : Q)
    (data1 data2 : gmap string Q) (self : SmokeDetector) (g : Globals) :
  let r1 := check_conditions us1 now data1 self g in
  let r2 := check_conditions us2 (now + 10) data2 r1.1.2 r1.2 in
  bot self = true ->
  alert_cooldown self = 300%Q ->
  alert_state g = SAFE ->
  alert_active g = false ->
  (300 < now - last_alert_time self)%Q ->
  trigger_count_ge 2 r1.1.1 ->
  trigger_count_ge 2 r2.1.1 ->
  (alert_state r1.2 = SMOKE /\ alert_active r1.2 = true /\
   exists triggers,
     r1.1.1 = Evaluated triggers /\
     bot_queue r1.2 = bot_queue g ++ [(KAlert, MsgSmokeTriggered triggers)]) /\
  r2.2 = r1.2 /\
  count_alerts (bot_queue r2.2) = S (count_alerts (bot_queue g)).
Proof.
  intros r1 r2 Hbot Hcd Hsafe Hact Hel H1 H2.
  (* first call *)
  destruct (r1.1.1) as [| | |tr1] eqn:Ep1; try contradiction.
  cbn in H1.
  destruct (check_conditions_evaluated _ _ _ _ _ _ Ep1) as [Htr1 Hr1].
  assert (Hc1 : (alert_cooldown (push_sample data1 self)
                 < now - last_alert_time (push_sample data1 self))%Q)
    by (rewrite push_sample_cooldown, push_sample_last_alert_time, Hcd; exact Hel).
  pose proof (smoke_branch_fires us1 now tr1 _ g H1 Hc1 Hact) as Hb1.
  rewrite Hb1 in Hr1. cbn [fst snd] in Hr1.
  rewrite warning_branch_active in Hr1 by apply trigger_alert_active.
  fold r1 in Hr1.
  assert (Hg1 : r1.2 = trigger_alert us1 (push_sample data1 self) SMOKE
                         (MsgSmokeTriggered tr1) g) by (rewrite Hr1; reflexivity).
  assert (Hs1 : r1.1.2 = set_last_alert_time now (push_sample data1 self))
    by (rewrite Hr1; reflexivity).
  assert (Hq1 : bot_queue r1.2 = bot_queue g ++ [(KAlert, MsgSmokeTriggered tr1)]).
  { rewrite Hg1, trigger_alert_queue. cbn. rewrite Hbot. reflexivity. }
  (* second call *)
  destruct (r2.1.1) as [| | |tr2] eqn:Ep2; try contradiction.
  cbn in H2.
  destruct (check_conditions_evaluated _ _ _ _ _ _ Ep2) as [Htr2 Hr2].
  assert (Hc2 : (now + 10 - last_alert_time (push_sample data2 r1.1.2)
                 <= alert_cooldown (push_sample data2 r1.1.2))%Q).
  { rewrite push_sample_cooldown, push_sample_last_alert_time, Hs1.
    cbn. rewrite Hcd. lra. }
  pose proof (smoke_branch_cooling us2 (now + 10) tr2 _ r1.2 H2 Hc2) as Hb2.
  rewrite Hb2 in Hr2. cbn [fst snd] in Hr2.
  rewrite warning_branch_active in Hr2
    by (rewrite Hg1; apply trigger_alert_active).
  fold r2 in Hr2.
  assert (Hg2 : r2.2 = r1.2) by (rewrite Hr2; reflexivity).
  repeat split.
  - rewrite Hg1. apply trigger_alert_state.
  - rewrite Hg1. apply trigger_alert_active.
  - exists tr1. split; [reflexivity | exact Hq1].
  - exact Hg2.
  - rewrite Hg2, Hq1. apply count_alerts_snoc.
Qed.

Lemma cooldown_blocks_second_alert_witness :
  let self := Scenario.warmed_up.1 in
  let g := Scenario.warmed_up.2 in
  let r1 := check_conditions default_settings 1008 Scenario.gas_drop self g in
  let r2 := check_conditions default_settings (1008 + 10) Scenario.gas_drop
              r1.1.2 r1.2 in
  (alert_state r1.2 = SMOKE /\ alert_active r1.2 = true /\
   exists triggers,
     r1.1.1 = Evaluated triggers /\
     bot_queue r1.2 = bot_queue g ++ [(KAlert, MsgSmokeTriggered triggers)]) /\
  r2.2 = r1.2 /\
  count_alerts (bot_queue r2.2) = S (count_alerts (bot_queue g)).
Proof.
  apply (cooldown_blocks_second_alert default_settings default_settings 1008
           Scenario.gas_drop Scenario.gas_drop
           Scenario.warmed_up.1 Scenario.warmed_up.2).
  - reflexivity.
  - reflexivity.
  - reflexivity.
  - reflexivity.
  - vm_compute. reflexivity.
  - vm_compute. lia.
  - vm_compute. lia.
Defined.

(** C10: in a call of [check_conditions] that evaluates its triggers, when
    the VOC index exceeds 250 or the gas drop exceeds 25000 the combined
    rule appends its two reasons together, so the count is at least two
    whatever PM2.5 and the temperature do, and with the cool-down elapsed
    and no alert active the call ends in SMOKE. *)
Theorem voc_or_gas_drop_alone_passes_gate (us : Settings) (now : Q)
    (data : gmap string Q) (self : SmokeDetector) (g : Globals) :
  let self1 := push_sample data self in
  let voc_val := default 0%Q (data !! "voc_index") in
  let gas_change := gas_change_of (gas_history self1) in
  enableSmokeDetection us = true ->
  test_alert_active self = false ->
  (TEMP_SPIKE_WINDOW <= List.length (temp_history self1))%nat ->
  (250 < voc_val \/ 25000 < gas_change)%Q ->
  exists triggers,
    (check_conditions us now data self g).1.1 = Evaluated triggers /\
    List.filter is_voc_or_gas triggers = [TrigVOC voc_val; TrigGasDrop gas_change] /\
    trigger_count_ge 2 (Evaluated triggers) /\
    ((alert_cooldown self < now - last_alert_time self)%Q ->
     alert_active g = false ->
     alert_state (check_conditions us now data self g).2 = SMOKE).
Proof.
  intros self1 voc_val gas_change He Ht Hw Hcond. subst self1.
  pose proof (check_conditions_full_window us now data self g He Ht Hw) as Hpath.
  destruct (collect_triggers_voc_gas (push_sample data self) data Hcond)
    as [Hf Hlen].
  exists (collect_triggers (push_sample data self) data).
  split; [exact Hpath|]. split; [exact Hf|]. split; [exact Hlen|].
  intros Hc Ha.
  destruct (check_conditions_evaluated _ _ _ _ _ _ Hpath) as [_ Hr].
  rewrite Hr. cbn [snd].
  rewrite (smoke_branch_fires us now _ (push_sample data self) g Hlen Hc Ha).
  cbn [snd].
  rewrite warning_branch_active by apply trigger_alert_active.
  apply trigger_alert_state.
Qed.

Lemma voc_or_gas_drop_alone_passes_gate_witness :
  let self := Scenario.warmed_up.1 in
  let g := Scenario.warmed_up.2 in
  let data := Scenario.gas_drop in
  let self1 := push_sample data self in
  exists triggers,
    (check_conditions default_settings 1008 data self g).1.1 = Evaluated triggers /\
    List.filter is_voc_or_gas triggers
    = [TrigVOC (default 0%Q (data !! "voc_index"));
       TrigGasDrop (gas_change_of (gas_history self1))] /\
    trigger_count_ge 2 (Evaluated triggers) /\
    ((alert_cooldown self < 1008 - last_alert_time self)%Q ->
     alert_active g = false ->
     alert_state (check_conditions default_settings 1008 data self g).2 = SMOKE).
Proof.
  apply (voc_or_gas_drop_alone_passes_gate default_settings 1008
           Scenario.gas_drop Scenario.warmed_up.1 Scenario.warmed_up.2).
  - reflexivity.
  - reflexivity.
  - vm_compute. lia.
  - right. vm_compute. reflexivity.
Defined.

(** ** History buffer *)

Section DequeFacts.
Context {A : Type}.
Implicit Types (d xs : list A) (x : A).

Lemma deque_append_length maxlen d x :
  (List.length d <= maxlen)%nat ->
  (List.length (deque_append maxlen d x) <= maxlen)%nat.
Proof.
  intros H. unfold deque_append.
  destruct (Nat.eqb_spec maxlen 0) as [E0 | E0]; [cbn; lia|].
  destruct (Nat.ltb_spec (List.length d) maxlen) as [Hlt | Hge];
    rewrite List.length_app; cbn [List.length].
  - lia.
  - destruct d as [|a d0]; cbn [List.length List.tl] in *; lia.
Qed.

(** A deque keeps the last [maxlen] elements of everything appended. *)
Lemma deque_extend_suffix maxlen d xs :
  (0 < maxlen)%nat ->
  (List.length d <= maxlen)%nat ->
  deque_extend maxlen d xs
  = skipn (List.length (d ++ xs) - maxlen) (d ++ xs).
Proof.
  intros Hpos. revert d.
  induction xs as [|x xs IH]; intros d Hd.
  - cbn. rewrite List.app_nil_r.
    replace (List.length d - maxlen)%nat with 0%nat by lia. reflexivity.
  - cbn [deque_extend fold_left].
    fold (deque_extend maxlen (deque_append maxlen d x) xs).
    rewrite IH by (apply deque_append_length; exact Hd).
    unfold deque_append.
    destruct (Nat.eqb_spec maxlen 0) as [E0 | E0]; [lia|].
    destruct (Nat.ltb_spec (List.length d) maxlen) as [Hlt | Hge].
    + rewrite <- List.app_assoc. reflexivity.
    + destruct d as [|a d0]; [cbn in Hge; lia|].
      cbn [List.tl]. rewrite <- List.app_assoc. cbn [List.app].
      cbn [List.length] in Hd, Hge.
      assert (Hlen : (maxlen <= List.length (d0 ++ x :: xs))%nat)
        by (rewrite List.length_app; cbn [List.length]; lia).
      change (List.length (a :: d0 ++ x :: xs))
        with (S (List.length (d0 ++ x :: xs))).
      replace (S (List.length (d0 ++ x :: xs)) - maxlen)%nat
        with (S (List.length (d0 ++ x :: xs) - maxlen)) by lia.
      reflexivity.
Qed.
End DequeFacts.

Lemma HISTORY_BUFFER_SIZE_pos : (0 < HISTORY_BUFFER_SIZE)%nat.
Proof. unfold HISTORY_BUFFER_SIZE. lia. Qed.

(** C6: after C + k appends to the empty history buffer, C = 43200, the
    buffer holds exactly C entries: the first k appended are gone and the
    rest is there in the order of appending. *)
Theorem history_buffer_ring {A : Type} (entries : list A) (k : nat) :
  List.length entries = (HISTORY_BUFFER_SIZE + k)%nat ->
  let history := deque_extend HISTORY_BUFFER_SIZE [] entries in
  List.length history = HISTORY_BUFFER_SIZE /\
  history = skipn k entries /\
  entries = firstn k entries ++ history.
Proof.
  intros Hlen history.
  assert (Hh : history = skipn k entries).
  { subst history.
    rewrite deque_extend_suffix by (cbn; auto using HISTORY_BUFFER_SIZE_pos with lia).
    cbn [List.app]. f_equal. lia. }
  rewrite Hh. repeat split.
  - rewrite List.length_skipn. lia.
  - symmetry. apply List.firstn_skipn.
Qed.

Lemma history_buffer_ring_witness :
  let entries := List.repeat tt (HISTORY_BUFFER_SIZE + 1) in
  let history := deque_extend HISTORY_BUFFER_SIZE [] entries in
  List.length history = HISTORY_BUFFER_SIZE /\
  history = skipn 1 entries /\
  entries = firstn 1 entries ++ history.
Proof.
  apply (history_buffer_ring (List.repeat tt (HISTORY_BUFFER_SIZE + 1)) 1).
  apply List.repeat_length.
Defined.

(** The acquisition loop appends through the same deque: the history
    stays within its capacity. *)
Lemma sensor_cycle_history_bound (pow_1_5 : Q -> Q) (us : Settings) (ts now : Q)
    (raw_data : option (gmap string Q)) (sys : System) :
  (List.length (history_buffer sys) <= HISTORY_BUFFER_SIZE)%nat ->
  (List.length (history_buffer (sensor_cycle pow_1_5 us ts now raw_data sys))
   <= HISTORY_BUFFER_SIZE)%nat.
Proof.
  intros H. unfold sensor_cycle.
  destruct raw_data as [raw|]; [|exact H].
  destruct (bool_decide (raw = ∅)); [exact H|].
  destruct (process pow_1_5 (processor sys) raw) as [calc proc].
  destruct (check_conditions _ _ _ _ _) as [[p det] g].
  cbn [history_buffer]. apply deque_append_length. exact H.
Qed.

Lemma process_iaq_formula_witness :
  let raw_data := Scenario.full_reading 30 80 1013 50000 5 50 60 in
  let self := IAQProcessor_init in
  let smoothed_gas :=
    np_mean (deque_append ROLLING_WINDOW_SIZE (gas_window self)
                          (np_clip 50000 10000 500000)) in
  let voc_index := voc_index_of (next_baseline self smoothed_gas) smoothed_gas in
  let pm25_aqi := _pm25_to_aqi (Some 50%Q) in
  let iaq := spec_iaq voc_index pm25_aqi 80 30 in
  let result := fst (process (fun x => x) self raw_data) in
  result !! "iaq" = Some (inject_Z iaq) /\
  result !! "aqi" = Some (inject_Z pm25_aqi) /\
  result !! "voc_index" = Some (inject_Z (py_round voc_index)) /\
  0 <= iaq <= 500.
Proof.
  apply (process_iaq_formula (fun x => x) IAQProcessor_init
           (Scenario.full_reading 30 80 1013 50000 5 50 60) 50000 50 30 80).
  - vm_compute. reflexivity.
  - vm_compute. reflexivity.
  - vm_compute. reflexivity.
  - vm_compute. reflexivity.
Defined.

(** ** Cycles with an empty fusion result *)

Lemma process_missing_input (pow_1_5 : Q -> Q) (self : IAQProcessor)
    (raw_data : gmap string Q) :
  missing_input raw_data -> process pow_1_5 self raw_data = (∅, self).
Proof.
  unfold missing_input, process.
  intros [H | [H | [H | H]]]; rewrite H; repeat case_match; reflexivity.
Qed.

(** C4, as stated, fails: the reading lacks [pm25], [process] returns the
    empty result, and the cycle still takes the alert state from SAFE to
    SMOKE. *)
Lemma empty_result_cycle_changes_alert_state :
  let sys := Scenario.bme_warmed_up in
  let raw_data := Scenario.bme_gas_drop in
  missing_input raw_data /\
  (process (fun x => x) (processor sys) raw_data).1 = ∅ /\
  alert_state (globals sys) = SAFE /\
  alert_state (globals (Scenario.acquire 1008 raw_data sys)) = SMOKE /\
  ~ alert_retained sys (Scenario.acquire 1008 raw_data sys).
Proof.
  intros sys raw_data.
  assert (Hm : missing_input raw_data) by (right; left; vm_compute; reflexivity).
  split; [exact Hm|].
  split; [rewrite process_missing_input by exact Hm; reflexivity|].
  split; [vm_compute; reflexivity|].
  split; [vm_compute; reflexivity|].
  intros [Hs _]. vm_compute in Hs. discriminate.
Qed.

(** C4, amended: when one of the four inputs is absent, [process] returns
    the empty result and leaves the processor as it was; for a non-empty
    reading the loop does not skip the cycle: it calls [check_conditions]
    on the raw fields with the timestamp, takes the detector and the alert
    globals from that call, and publishes the stamped data point as the
    latest reading and at the end of the history. *)
Theorem empty_result_cycle_runs_alert_engine (pow_1_5 : Q -> Q) (us : Settings)
    (ts now : Q) (raw_data : gmap string Q) (sys : System) :
  missing_input raw_data ->
  raw_data <> ∅ ->
  let point := <["timestamp" := ts]> raw_data in
  let r := check_conditions us now point (detector sys) (globals sys) in
  let stamped :=
    {| dp_fields := point;
       dp_alert_active := alert_active r.2;
       dp_state := alert_state r.2;
       dp_iaq_level := get_iaq_level (point !! "iaq");
       dp_pm25_level := get_iaq_level (point !! "aqi") |} in
  let sys' := sensor_cycle pow_1_5 us ts now (Some raw_data) sys in
  process pow_1_5 (processor sys) raw_data = (∅, processor sys) /\
  processor sys' = processor sys /\
  detector sys' = r.1.2 /\
  globals sys' = r.2 /\
  latest_sensor_data sys' = Some stamped /\
  history_buffer sys'
  = deque_append HISTORY_BUFFER_SIZE (history_buffer sys) stamped.
Proof.
  intros Hm Hne point r stamped sys'.
  pose proof (process_missing_input pow_1_5 (processor sys) raw_data Hm) as Hp.
  split; [exact Hp|].
  subst sys'. unfold sensor_cycle.
  rewrite bool_decide_eq_false_2 by exact Hne.
  rewrite Hp. unfold merge_data_point.
  rewrite (left_id_L ∅ (∪) raw_data).
  fold point. fold r. destruct r as [[p det] g] eqn:Er.
  repeat split.
Qed.

Lemma empty_result_cycle_runs_alert_engine_witness :
  let raw_data := Scenario.bme_gas_drop in
  let sys := Scenario.bme_warmed_up in
  let point := <["timestamp" := 1008%Q]> raw_data in
  let r := check_conditions default_settings 1008 point (detector sys) (globals sys) in
  let stamped :=
    {| dp_fields := point;
       dp_alert_active := alert_active r.2;
       dp_state := alert_state r.2;
       dp_iaq_level := get_iaq_level (point !! "iaq");
       dp_pm25_level := get_iaq_level (point !! "aqi") |} in
  let sys' := sensor_cycle (fun x => x) default_settings 1008 1008 (Some raw_data) sys in
  process (fun x => x) (processor sys) raw_data = (∅, processor sys) /\
  processor sys' = processor sys /\
  detector sys' = r.1.2 /\
  globals sys' = r.2 /\
  latest_sensor_data sys' = Some stamped /\
  history_buffer sys'
  = deque_append HISTORY_BUFFER_SIZE (history_buffer sys) stamped.
Proof.
  apply (empty_result_cycle_runs_alert_engine (fun x => x) default_settings
           1008 1008 Scenario.bme_gas_drop Scenario.bme_warmed_up).
  - right. left. vm_compute. reflexivity.
  - apply insert_non_empty.
Defined.

(** ** Dates *)

(** Evaluates the month tables once the month is a numeral. *)
Ltac month_tables :=
  repeat match goal with
    | |- context [Z.to_nat ?e] =>
        let v := eval vm_compute in (Z.to_nat e) in change (Z.to_nat e) with v
    | H : context [Z.to_nat ?e] |- _ =>
        let v := eval vm_compute in (Z.to_nat e) in
        change (Z.to_nat e) with v in H
    end;
  cbn in *.

Section DateFacts.
Local Open Scope Z_scope.

Lemma datetime_some (y m d : Z) (dt : date) :
  datetime y m d = Some dt ->
  dt = {| year := y; month := m; day := d |} /\
  1 <= y <= 9999 /\ 1 <= m <= 12 /\ 1 <= d <= days_in_month y m.
Proof.
  unfold datetime, MINYEAR, MAXYEAR.
  destruct (_ && _) eqn:E; [|discriminate]. intros [= <-].
  repeat (apply andb_true_iff in E as [E ?]).
  repeat match goal with H : (_ <=? _) = true |- _ => apply Z.leb_le in H end.
  split; [reflexivity | lia].
Qed.

Lemma days_before_year_succ (y : Z) :
  days_before_year (y + 1)
  = days_before_year y + 365 + (if is_leap y then 1 else 0).
Proof.
  unfold days_before_year, is_leap.
  replace (y + 1 - 1) with y by lia.
  destruct (Z.eqb_spec (y mod 4) 0), (Z.eqb_spec (y mod 100) 0),
    (Z.eqb_spec (y mod 400) 0); cbn [negb orb andb];
    Z.div_mod_to_equations; lia.
Qed.

Lemma days_before_year_mono (y1 y2 : Z) :
  y1 <= y2 -> days_before_year y1 <= days_before_year y2.
Proof.
  intros H. unfold days_before_year. Z.div_mod_to_equations. lia.
Qed.

(** The day of the year of a valid date lies within the year. *)
Lemma day_of_year_range (y m d : Z) :
  1 <= m <= 12 -> 1 <= d <= days_in_month y m ->
  1 <= days_before_month y m + d <= 365 + (if is_leap y then 1 else 0).
Proof.
  intros Hm Hd. unfold days_before_month, days_in_month in *.
  assert (Hc : m = 1 \/ m = 2 \/ m = 3 \/ m = 4 \/ m = 5 \/ m = 6 \/ m = 7 \/
               m = 8 \/ m = 9 \/ m = 10 \/ m = 11 \/ m = 12) by lia.
  destruct (is_leap y);
    repeat (destruct Hc as [-> | Hc]; [month_tables; lia|]);
    subst m; month_tables; lia.
Qed.

Lemma days_before_month_mono (y m1 m2 d1 : Z) :
  1 <= m1 -> m1 < m2 -> m2 <= 12 -> 1 <= d1 <= days_in_month y m1 ->
  days_before_month y m1 + d1 <= days_before_month y m2.
Proof.
  intros H1 Hlt H2 Hd. unfold days_before_month, days_in_month in *.
  assert (Hc1 : m1 = 1 \/ m1 = 2 \/ m1 = 3 \/ m1 = 4 \/ m1 = 5 \/ m1 = 6 \/
                m1 = 7 \/ m1 = 8 \/ m1 = 9 \/ m1 = 10 \/ m1 = 11) by lia.
  assert (Hc2 : m2 = 2 \/ m2 = 3 \/ m2 = 4 \/ m2 = 5 \/ m2 = 6 \/ m2 = 7 \/
                m2 = 8 \/ m2 = 9 \/ m2 = 10 \/ m2 = 11 \/ m2 = 12) by lia.
  destruct (is_leap y);
    repeat (destruct Hc1 as [-> | Hc1]);
    repeat (destruct Hc2 as [-> | Hc2]); subst; try lia; clear H1 Hlt H2;
    month_tables; lia.
Qed.

(** Comparing two valid dates is comparing their ordinals. *)
Lemma date_ltb_ordinal (y1 m1 d1 y2 m2 d2 : Z) (a b : date) :
  datetime y1 m1 d1 = Some a -> datetime y2 m2 d2 = Some b ->
  date_ltb a b = true <-> ymd2ord a < ymd2ord b.
Proof.
  intros Ha Hb.
  apply datetime_some in Ha as (-> & Hy1 & Hm1 & Hd1).
  apply datetime_some in Hb as (-> & Hy2 & Hm2 & Hd2).
  unfold date_ltb, ymd2ord. cbn [year month day].
  pose proof (day_of_year_range y1 m1 d1 Hm1 Hd1) as R1.
  pose proof (day_of_year_range y2 m2 d2 Hm2 Hd2) as R2.
  pose proof (days_before_year_succ y1) as S1.
  pose proof (days_before_year_succ y2) as S2.
  destruct (Z.ltb_spec y1 y2) as [Hy | Hy]; cbn [orb].
  - pose proof (days_before_year_mono (y1 + 1) y2 ltac:(lia)).
    split; [intros _; lia | reflexivity].
  - destruct (Z.eqb_spec y1 y2) as [-> | Hne]; cbn [andb].
    + destruct (Z.ltb_spec m1 m2) as [Hm | Hm]; cbn [orb].
      * pose proof (days_before_month_mono y2 m1 m2 d1 ltac:(lia) Hm ltac:(lia) Hd1).
        split; [intros _; lia | reflexivity].
      * destruct (Z.eqb_spec m1 m2) as [-> | Hmne]; cbn [andb].
        -- rewrite Z.ltb_lt. lia.
        -- pose proof (days_before_month_mono y2 m2 m1 d2 ltac:(lia) ltac:(lia)
                         ltac:(lia) Hd2).
           split; [discriminate | lia].
    + pose proof (days_before_year_mono (y2 + 1) y1 ltac:(lia)).
      split; [discriminate | lia].
Qed.
End DateFacts.

(** ** Retention worker *)

Section StringFacts.
Local Open Scope string_scope.

Lemma append_cons (c : ascii) (a b : string) :
  String c a ++ b = String c (a ++ b).
Proof. reflexivity. Qed.

Lemma str_take_app (a b : string) : str_take (String.length a) (a ++ b) = a.
Proof.
  induction a as [|c a IH].
  - destruct b; reflexivity.
  - rewrite append_cons. cbn [String.length str_take]. rewrite IH. reflexivity.
Qed.

Lemma string_length_snoc (a : string) (c : ascii) :
  String.length (a ++ String c EmptyString) = S (String.length a).
Proof.
  induction a as [|x a IH]; [reflexivity|].
  rewrite append_cons. cbn [String.length]. rewrite IH. reflexivity.
Qed.

Lemma str_drop_last_snoc (a : string) (c : ascii) :
  str_drop_last (a ++ String c EmptyString) = a.
Proof.
  unfold str_drop_last. rewrite string_length_snoc.
  replace (S (String.length a) - 1)%nat with (String.length a) by lia.
  apply str_take_app.
Qed.

Lemma endswith_char_snoc (a : string) (c c' : ascii) :
  endswith_char (a ++ String c EmptyString) c' = Ascii.eqb c c'.
Proof.
  induction a as [|x a IH]; [reflexivity|].
  rewrite append_cons. cbn [endswith_char]. rewrite IH.
  destruct (a ++ String c EmptyString) eqn:E; [|reflexivity].
  destruct a; discriminate.
Qed.

(** No policy of the form "Nd" is the string "forever". *)
Lemma days_policy_not_forever (ds : string) :
  String.eqb (ds ++ "d") "forever" = false.
Proof.
  apply String.eqb_neq. intros H.
  pose proof (endswith_char_snoc ds "d" "d") as He.
  rewrite H in He. vm_compute in He. discriminate.
Qed.
End StringFacts.

Section SweepFacts.
Variable abspath : string -> string.

Lemma sweep_in (cutoff : Z) (walk : list (string * list string))
    (dirpath filename : string) (a : file_action) :
  In (dirpath, filename, a) (sweep abspath cutoff walk) <->
  exists filenames,
    In (dirpath, filenames) walk /\ In filename filenames /\
    a = sweep_file abspath cutoff dirpath filename.
Proof.
  unfold sweep. rewrite List.in_flat_map. split.
  - intros [[d fs] [Hw Hin]]. apply List.in_map_iff in Hin as [f [Heq Hf]].
    injection Heq as -> -> <-. exists fs. auto.
  - intros [fs (Hw & Hf & ->)]. exists (dirpath, fs). split; [exact Hw|].
    apply List.in_map_iff. exists filename. auto.
Qed.

(** A file is removed exactly when its names parse to a date before the
    cut-off and its path passes the guard. *)
Lemma sweep_file_removed (cutoff : Z) (dirpath filename : string) (p : string) :
  sweep_file abspath cutoff dirpath filename = Removed p <->
  p = path_join dirpath filename /\
  startswith (abspath (path_join dirpath filename)) (abspath LOG_DIR) = true /\
  exists fd, file_date dirpath filename = Some fd /\ ymd2ord fd < cutoff.
Proof.
  unfold sweep_file.
  destruct (file_date dirpath filename) as [fd|].
  - destruct (Z.ltb_spec (ymd2ord fd) cutoff) as [Hlt | Hge].
    + destruct (startswith _ _) eqn:Eg; cbn [negb]; split.
      * intros [= <-]. eauto.
      * intros (-> & _ & _). reflexivity.
      * discriminate.
      * intros (_ & Hg & _). discriminate.
    + split; [discriminate|]. intros (_ & _ & fd' & [= <-] & Hlt). lia.
  - split; [discriminate|]. intros (_ & _ & fd' & Hfd & _). discriminate.
Qed.
End SweepFacts.

(** With "forever" and no manual request the pass removes nothing. *)
Lemma forever_skips_deletion (abspath : string -> string) (today : date)
    (us : Settings) (walk : list (string * list string)) :
  logRetentionPeriod us = "forever" ->
  run_manual_cleanup us = false ->
  (maintenance_pass abspath today us walk).2 = SkippedForever /\
  removed_paths (maintenance_pass abspath today us walk).2 = [].
Proof.
  intros Hr Hm. unfold maintenance_pass. rewrite Hr, Hm. split; reflexivity.
Qed.

(** C5, the pass at the failing input: the policy is "forever" and a
    manual clean-up was requested; the pass falls back to 90 days and
    removes the log of 2025-03-02. *)
Theorem forever_manual_run_deletes :
  (maintenance_pass Scenario.abspath Scenario.today Scenario.forever_manual
                    Scenario.log_tree).2
  = Swept 90
      [ ("historical_logs/2025/03", "02.csv",
         Removed "historical_logs/2025/03/02.csv");
        ("historical_logs/2025/03", "03.csv.gz", Retained);
        ("historical_logs/2025/03", "04.csv", Retained);
        ("historical_logs/2025/03", "notes.txt", ParseError);
        ("historical_logs/2025/05", "31.csv", Retained);
        ("historical_logs/2025", "summary.csv", ParseError);
        ("historical_logs", "README", ParseError) ]%string /\
  removed_paths (maintenance_pass Scenario.abspath Scenario.today
                                  Scenario.forever_manual Scenario.log_tree).2
  = ["historical_logs/2025/03/02.csv"%string].
Proof. split; vm_compute; reflexivity. Qed.

(** The two dated files of the sample tree under "90d": 2025-03-02 is 91
    days before 2025-06-01 and is removed, 2025-03-04 is 89 days before
    and stays, as does the unparseable [notes.txt]. *)
Example retention_sample_pass :
  (maintenance_pass Scenario.abspath Scenario.today default_settings
                    Scenario.log_tree).2
  = Swept 90
      [ ("historical_logs/2025/03", "02.csv",
         Removed "historical_logs/2025/03/02.csv");
        ("historical_logs/2025/03", "03.csv.gz", Retained);
        ("historical_logs/2025/03", "04.csv", Retained);
        ("historical_logs/2025/03", "notes.txt", ParseError);
        ("historical_logs/2025/05", "31.csv", Retained);
        ("historical_logs/2025", "summary.csv", ParseError);
        ("historical_logs", "README", ParseError) ]%string.
Proof. vm_compute. reflexivity. Qed.

(** * Further properties of the alert engine *)

Section EngineInvariants.
Implicit Types (self : SmokeDetector) (g : Globals) (data : gmap string Q)
  (s : engine) (e : event) (evs : list event).

Lemma clear_alert_coherent self m g : coherent (clear_alert self m g).
Proof.
  unfold coherent. rewrite clear_alert_active, clear_alert_state. reflexivity.
Qed.

Lemma trigger_alert_coherent us self st m g :
  alarm_state st = true -> coherent (trigger_alert us self st m g).
Proof.
  intros H. unfold coherent.
  rewrite trigger_alert_active, trigger_alert_state, H. reflexivity.
Qed.

Lemma warning_branch_coherent us data g :
  coherent g -> coherent (warning_branch us data g).
Proof.
  unfold coherent, warning_branch. intros H.
  destruct (alert_active g) eqn:Ea; cbn [negb andb]; [rewrite Ea; exact H|].
  repeat case_match; cbn; rewrite ?Ea; first [reflexivity | exact H].
Qed.

Lemma smoke_branch_coherent us now triggers self g :
  coherent g -> coherent (smoke_branch us now triggers self g).2.
Proof.
  intros H. unfold smoke_branch.
  repeat case_match; cbn [snd];
    auto using clear_alert_coherent, trigger_alert_coherent.
Qed.

Lemma check_conditions_coherent us now data self g :
  coherent g -> coherent (check_conditions us now data self g).2.
Proof.
  intros H. unfold check_conditions.
  destruct (negb (enableSmokeDetection us)); cbn [snd].
  { case_match; auto using clear_alert_coherent. }
  destruct (test_alert_active self); cbn [snd]; [reflexivity|].
  destruct (Nat.ltb _ _); cbn [snd]; [exact H|].
  pose proof (smoke_branch_coherent us now
                (collect_triggers (push_sample data self) data)
                (push_sample data self) g H) as Hs.
  destruct (smoke_branch _ _ _ _ _) as [self2 g2]. cbn [snd] in *.
  apply warning_branch_coherent. exact Hs.
Qed.

Lemma engine_step_coherent e s : coherent s.2 -> coherent (engine_step e s).2.
Proof.
  destruct s as [self g], e as [us now data | now | us];
    cbn [engine_step fst snd]; intros H.
  - pose proof (check_conditions_coherent us now data self g H) as Hc.
    destruct (check_conditions us now data self g) as [[p det] g']. exact Hc.
  - unfold dismiss_alert. destruct (negb (alert_active g)); cbn [snd];
      auto using clear_alert_coherent.
  - unfold toggle_test. destruct (test_alert_active self); cbn [snd];
      auto using clear_alert_coherent, trigger_alert_coherent.
Qed.

Lemma engine_run_coherent evs s : coherent s.2 -> coherent (engine_run evs s).2.
Proof.
  revert s. induction evs as [|e evs IH]; intros s H; [exact H|].
  cbn [engine_run fold_left]. fold (engine_run evs (engine_step e s)).
  apply IH, engine_step_coherent, H.
Qed.

Lemma deque_append_length_eq {A : Type} (maxlen : nat) (d : list A) (x : A) :
  (List.length d <= maxlen)%nat ->
  List.length (deque_append maxlen d x) = Nat.min maxlen (S (List.length d)).
Proof.
  intros H. unfold deque_append.
  destruct (Nat.eqb_spec maxlen 0) as [E0 | E0]; [subst; reflexivity|].
  destruct (Nat.ltb_spec (List.length d) maxlen) as [Hlt | Hge];
    rewrite List.length_app; cbn [List.length].
  - lia.
  - destruct d as [|a d0]; cbn [List.length List.tl] in *; lia.
Qed.

Lemma push_sample_windows data self :
  windows_ok self -> windows_ok (push_sample data self).
Proof.
  intros [Heq Hle]. unfold windows_ok, push_sample. cbn [temp_history gas_history set_histories].
  rewrite !deque_append_length_eq by lia. lia.
Qed.

Lemma check_conditions_windows us now data self g :
  windows_ok self -> windows_ok (check_conditions us now data self g).1.2.
Proof.
  intros H. unfold check_conditions.
  destruct (negb (enableSmokeDetection us)); [exact H|].
  destruct (test_alert_active self); [exact H|].
  pose proof (push_sample_windows data self H) as Hp.
  destruct (Nat.ltb _ _); [exact Hp|].
  unfold smoke_branch. repeat case_match; simplify_eq; exact Hp.
Qed.

Lemma engine_step_windows e s : windows_ok s.1 -> windows_ok (engine_step e s).1.
Proof.
  destruct s as [self g], e as [us now data | now | us];
    cbn [engine_step fst snd]; intros H.
  - pose proof (check_conditions_windows us now data self g H) as Hc.
    destruct (check_conditions us now data self g) as [[p det] g']. exact Hc.
  - unfold dismiss_alert. destruct (negb (alert_active g)); exact H.
  - unfold toggle_test. destruct (test_alert_active self); exact H.
Qed.

Lemma engine_run_windows evs s : windows_ok s.1 -> windows_ok (engine_run evs s).1.
Proof.
  revert s. induction evs as [|e evs IH]; intros s H; [exact H|].
  cbn [engine_run fold_left]. fold (engine_run evs (engine_step e s)).
  apply IH, engine_step_windows, H.
Qed.
End EngineInvariants.

(** X1: in every run of the engine from its initial state the flag
    [alert_active] is set exactly when the state is SMOKE or TEST; in
    particular WARNING never comes with an active alert. *)
Theorem alert_active_iff_alarm_state (setup : bool) (evs : list event) :
  let g := (engine_run evs (engine_init setup)).2 in
  alert_active g = true <-> alert_state g = SMOKE \/ alert_state g = TEST.
Proof.
  intros g.
  assert (H : coherent g) by (apply engine_run_coherent; reflexivity).
  unfold coherent in H. rewrite H.
  destruct (alert_state g); cbn; split; intros Hx;
    try discriminate; try reflexivity; auto;
    destruct Hx; discriminate.
Qed.

(** X2: in every run of the engine from its initial state the temperature
    and gas windows have the same length, and never more than five
    samples. *)
Theorem rolling_windows_in_step (setup : bool) (evs : list event) :
  let self := (engine_run evs (engine_init setup)).1 in
  List.length (temp_history self) = List.length (gas_history self) /\
  (List.length (temp_history self) <= 5)%nat.
Proof.
  intros self.
  apply (engine_run_windows evs (engine_init setup)).
  split; cbn; lia.
Qed.

(** X3: with smoke detection switched off, a call of [check_conditions]
    in any state that a run from the initial state reaches never ends in
    SMOKE, and it records no sample in the rolling windows. *)
Theorem detection_off_never_smoke (setup : bool) (evs : list event)
    (us : Settings) (now : Q) (data : gmap string Q) :
  let s := engine_run evs (engine_init setup) in
  let r := check_conditions us now data s.1 s.2 in
  enableSmokeDetection us = false ->
  alert_state r.2 <> SMOKE /\ r.1.2 = s.1 /\ r.1.1 = Disabled.
Proof.
  intros s r Hoff.
  assert (Hc : coherent s.2) by (apply engine_run_coherent; reflexivity).
  subst r. unfold check_conditions. rewrite Hoff. cbn [negb fst snd].
  split; [|split; reflexivity].
  unfold coherent in Hc.
  destruct (alert_active s.2) eqn:Ea; cbn [andb].
  - case_bool_decide as Hs.
    + rewrite clear_alert_state. discriminate.
    + exact Hs.
  - intros Hs. rewrite Hs in Hc. discriminate.
Qed.

Lemma detection_off_never_smoke_witness :
  let s := engine_run (Scenario.warm_up
                       ++ [EvCheck default_settings 1008 Scenario.gas_drop])
                      (engine_init true) in
  let r := check_conditions Cases.detection_off 1010 Scenario.gas_drop s.1 s.2 in
  alert_state r.2 <> SMOKE /\ r.1.2 = s.1 /\ r.1.1 = Disabled.
Proof.
  apply (detection_off_never_smoke true
           (Scenario.warm_up ++ [EvCheck default_settings 1008 Scenario.gas_drop])
           Cases.detection_off 1010 Scenario.gas_drop).
  reflexivity.
Defined.

(** X4: an active SMOKE alert is held as long as any trigger fires and is
    cleared by the first evaluated cycle without one: with a trigger the
    call changes no global; without one the flag is unset, the state is no
    longer SMOKE, the siren is told to stop and one recovery message is
    queued. *)
Theorem smoke_held_until_no_trigger (us : Settings) (now : Q)
    (data : gmap string Q) (self : SmokeDetector) (g : Globals) :
  let triggers := collect_triggers (push_sample data self) data in
  let r := check_conditions us now data self g in
  enableSmokeDetection us = true ->
  test_alert_active self = false ->
  (TEMP_SPIKE_WINDOW <= List.length (temp_history (push_sample data self)))%nat ->
  alert_state g = SMOKE ->
  alert_active g = true ->
  (triggers <> [] -> r.2 = g) /\
  (triggers = [] ->
   alert_active r.2 = false /\
   (alert_state r.2 = SAFE \/ alert_state r.2 = WARNING) /\
   buzzer r.2 = stop_alert (buzzer g) /\
   bot_queue r.2
   = bot_queue g ++ (if bot self then [(KRecovery, MsgConditionsNormal [])]
                     else [])).
Proof.
  intros triggers r He Ht Hw Hs Ha.
  pose proof (check_conditions_full_window us now data self g He Ht Hw) as Hpath.
  destruct (check_conditions_evaluated _ _ _ _ _ _ Hpath) as [_ Hr].
  fold triggers in Hr. fold r in Hr.
  split.
  - intros Hne. rewrite Hr. cbn [snd].
    assert (Hb : smoke_branch us now triggers (push_sample data self) g
                 = (push_sample data self, g)).
    { unfold smoke_branch. rewrite Ha. cbn [negb].
      destruct triggers as [|t ts]; [contradiction|].
      cbn [List.length Nat.eqb andb]. case_match; reflexivity. }
    rewrite Hb. cbn [snd]. apply warning_branch_active. exact Ha.
  - intros Hnil. rewrite Hr. cbn [snd].
    assert (Hb : (smoke_branch us now triggers (push_sample data self) g).2
                 = clear_alert (push_sample data self) (MsgConditionsNormal []) g).
    { unfold smoke_branch. rewrite Hnil, Ha, Hs. reflexivity. }
    rewrite Hb. unfold warning_branch.
    rewrite clear_alert_active, clear_alert_state. cbn [negb andb].
    rewrite bool_decide_eq_true_2 by discriminate.
    rewrite bool_decide_eq_false_2 by discriminate. cbn [andb].
    unfold clear_alert. cbn [bot push_sample set_histories].
    destruct (bot self); case_match; cbn; rewrite ?List.app_nil_r; auto.
Qed.

Lemma smoke_held_until_no_trigger_witness :
  let self := Cases.smoke_engine.1 in
  let g := Cases.smoke_engine.2 in
  let data := Scenario.gas_drop in
  let triggers := collect_triggers (push_sample data self) data in
  let r := check_conditions default_settings 1010 data self g in
  (triggers <> [] -> r.2 = g) /\
  (triggers = [] ->
   alert_active r.2 = false /\
   (alert_state r.2 = SAFE \/ alert_state r.2 = WARNING) /\
   buzzer r.2 = stop_alert (buzzer g) /\
   bot_queue r.2
   = bot_queue g ++ (if bot self then [(KRecovery, MsgConditionsNormal [])]
                     else [])).
Proof.
  apply (smoke_held_until_no_trigger default_settings 1010 Scenario.gas_drop
           Cases.smoke_engine.1 Cases.smoke_engine.2).
  - reflexivity.
  - reflexivity.
  - vm_compute. lia.
  - reflexivity.
  - reflexivity.
Defined.

(** X5: dismissing an active alert clears it to SAFE and restarts the
    cool-down: a call of [check_conditions] no more than 300 seconds after
    the dismissal does not end in SMOKE, whatever its triggers. *)
Theorem dismiss_restarts_cooldown (setup : bool) (evs : list event)
    (t : Q) (us : Settings) (now : Q) (data : gmap string Q) :
  let s := engine_run evs (engine_init setup) in
  let s1 := engine_step (EvDismiss t) s in
  alert_active s.2 = true ->
  (now - t <= 300)%Q ->
  alert_state s1.2 = SAFE /\ alert_active s1.2 = false /\
  last_alert_time s1.1 = t /\
  alert_state (engine_step (EvCheck us now data) s1).2 <> SMOKE.
Proof.
  intros s s1 Ha Hnow.
  assert (Hs1 : s1 = (set_last_alert_time t s.1,
                      clear_alert (set_last_alert_time t s.1) MsgDismissed s.2)).
  { subst s1. cbn [engine_step]. unfold dismiss_alert. rewrite Ha. reflexivity. }
  rewrite Hs1. cbn [fst snd].
  rewrite clear_alert_state, clear_alert_active.
  repeat split.
  intros Hpost. cbn [engine_step fst snd] in Hpost.
  set (self1 := set_last_alert_time t s.1) in *.
  set (g1 := clear_alert self1 MsgDismissed s.2) in *.
  assert (Hpost' : alert_state (check_conditions us now data self1 g1).2 = SMOKE).
  { destruct (check_conditions us now data self1 g1) as [[p det] g']. exact Hpost. }
  assert (Hpre : alert_state g1 <> SMOKE)
    by (subst g1; rewrite clear_alert_state; discriminate).
  destruct (check_conditions_smoke us now data self1 g1 Hpre Hpost')
    as (tr & _ & _ & Hcool & _).
  apply Qltb_lt in Hcool. subst self1. cbn in Hcool.
  subst s. rewrite engine_run_cooldown in Hcool. cbn in Hcool. lra.
Qed.

Lemma dismiss_restarts_cooldown_witness :
  let s := engine_run (Scenario.warm_up
                       ++ [EvCheck default_settings 1008 Scenario.gas_drop])
                      (engine_init true) in
  let s1 := engine_step (EvDismiss 1010) s in
  alert_state s1.2 = SAFE /\ alert_active s1.2 = false /\
  last_alert_time s1.1 = 1010%Q /\
  alert_state (engine_step (EvCheck default_settings 1012 Scenario.gas_drop) s1).2
  <> SMOKE.
Proof.
  apply (dismiss_restarts_cooldown true
           (Scenario.warm_up ++ [EvCheck default_settings 1008 Scenario.gas_drop])
           1010 default_settings 1012 Scenario.gas_drop).
  - vm_compute. reflexivity.
  - vm_compute. discriminate.
Defined.

(** X6: starting a test and stopping it again ends in SAFE with no alert
    active, whatever state and alert preceded the test; the siren is
    started (whatever [emergencyAlert] says) and then stopped, the two
    notifications are queued in order, and the windows and the cool-down
    clock are untouched. *)
Theorem toggle_test_twice (us1 us2 : Settings) (self : SmokeDetector)
    (g : Globals) :
  let s1 := toggle_test us1 self g in
  let s2 := toggle_test us2 s1.1 s1.2 in
  test_alert_active self = false ->
  (alert_state s1.2 = TEST /\ alert_active s1.2 = true /\
   buzzer s1.2 = start_alert (buzzer g)) /\
  s2.1 = self /\
  alert_state s2.2 = SAFE /\ alert_active s2.2 = false /\
  buzzer s2.2 = stop_alert (start_alert (buzzer g)) /\
  bot_queue s2.2
  = bot_queue g ++ (if bot self
                    then [(KAlert, MsgTestStarted); (KRecovery, MsgTestStopped)]
                    else []).
Proof.
  intros s1 s2 Ht. subst s2 s1. unfold toggle_test. rewrite Ht.
  cbn [fst snd test_alert_active set_test_alert_active].
  rewrite trigger_alert_state, trigger_alert_active, clear_alert_state,
    clear_alert_active.
  destruct self as [b th gh lt cd ta]. cbn in Ht. subst ta.
  unfold trigger_alert, clear_alert. cbn [bot set_test_alert_active].
  rewrite bool_decide_eq_true_2 by reflexivity. rewrite orb_true_r.
  destruct b; cbn; rewrite <- ?List.app_assoc, ?List.app_nil_r; auto 10.
Qed.

Lemma toggle_test_twice_witness :
  let self := Cases.smoke_engine.1 in
  let g := Cases.smoke_engine.2 in
  let s1 := toggle_test default_settings self g in
  let s2 := toggle_test default_settings s1.1 s1.2 in
  (alert_state s1.2 = TEST /\ alert_active s1.2 = true /\
   buzzer s1.2 = start_alert (buzzer g)) /\
  s2.1 = self /\
  alert_state s2.2 = SAFE /\ alert_active s2.2 = false /\
  buzzer s2.2 = stop_alert (start_alert (buzzer g)) /\
  bot_queue s2.2
  = bot_queue g ++ (if bot self
                    then [(KAlert, MsgTestStarted); (KRecovery, MsgTestStopped)]
                    else []).
Proof.
  apply (toggle_test_twice default_settings default_settings
           Cases.smoke_engine.1 Cases.smoke_engine.2).
  reflexivity.
Defined.

Lemma set_alert_idem (a : bool) (st : AlertState) (g : Globals) :
  set_alert a st (set_alert a st g) = set_alert a st g.
Proof. reflexivity. Qed.

(** X7: while a test is on, calls of [check_conditions] with detection
    enabled are short-circuited: however many there are and whatever they
    read, the detector (windows, cool-down clock) does not change, nothing
    is queued, the buzzer is not touched, and after the first call the
    state is TEST with [alert_active] set. *)
Theorem test_mode_short_circuits (evs : list event) (s : engine) :
  forallb is_enabled_check evs = true ->
  test_alert_active s.1 = true ->
  let s' := engine_run evs s in
  s'.1 = s.1 /\
  bot_queue s'.2 = bot_queue s.2 /\
  buzzer s'.2 = buzzer s.2 /\
  (evs <> [] -> alert_state s'.2 = TEST /\ alert_active s'.2 = true).
Proof.
  intros Hall Ht.
  assert (Hstep : forall e s0, is_enabled_check e = true ->
                    test_alert_active s0.1 = true ->
                    engine_step e s0 = (s0.1, set_alert true TEST s0.2)).
  { intros e [self g] He Hts. destruct e as [us now data| |]; try discriminate.
    cbn in He. cbn [engine_step fst snd] in *. unfold check_conditions.
    rewrite He, Hts. reflexivity. }
  assert (Hrun : forall evs0 s0, forallb is_enabled_check evs0 = true ->
                   test_alert_active s0.1 = true ->
                   engine_run evs0 s0
                   = (s0.1, match evs0 with
                            | [] => s0.2
                            | _ => set_alert true TEST s0.2
                            end)).
  { induction evs0 as [|e evs0 IH]; intros s0 Ha Hts.
    - destruct s0; reflexivity.
    - cbn [forallb] in Ha. apply andb_true_iff in Ha as [He Ha].
      cbn [engine_run fold_left]. fold (engine_run evs0 (engine_step e s0)).
      rewrite (Hstep e s0 He Hts).
      rewrite IH by (cbn [fst]; assumption). cbn [fst snd].
      destruct evs0; [reflexivity | apply f_equal, set_alert_idem]. }
  intros s'. subst s'. rewrite (Hrun evs s Hall Ht). cbn [fst snd].
  destruct evs as [|e evs']; repeat split; try reflexivity; congruence.
Qed.

Lemma test_mode_short_circuits_witness :
  let evs := [ EvCheck default_settings 1000 Scenario.gas_drop;
               EvCheck default_settings 1002 Scenario.gas_drop ] in
  let s := Cases.testing_engine in
  let s' := engine_run evs s in
  s'.1 = s.1 /\
  bot_queue s'.2 = bot_queue s.2 /\
  buzzer s'.2 = buzzer s.2 /\
  (evs <> [] -> alert_state s'.2 = TEST /\ alert_active s'.2 = true).
Proof.
  apply (test_mode_short_circuits
           [ EvCheck default_settings 1000 Scenario.gas_drop;
             EvCheck default_settings 1002 Scenario.gas_drop ]
           Cases.testing_engine).
  - reflexivity.
  - reflexivity.
Defined.

(** X8: with [emergencyAlert] off, [check_conditions] never starts the
    siren: if it sounds after the call it sounded before. *)
Theorem siren_needs_emergency_alert (us : Settings) (now : Q)
    (data : gmap string Q) (self : SmokeDetector) (g : Globals) :
  emergencyAlert us = false ->
  sounding (buzzer (check_conditions us now data self g).2) = true ->
  sounding (buzzer g) = true.
Proof.
  intros He. unfold check_conditions, smoke_branch, warning_branch,
    trigger_alert, clear_alert, stop_alert, start_alert. rewrite He.
  rewrite (bool_decide_eq_false_2 (SMOKE = TEST)) by discriminate. cbn [orb].
  repeat case_match; simplify_eq; cbn; intros; congruence.
Qed.

Lemma siren_needs_emergency_alert_witness :
  sounding (buzzer (check_conditions default_settings 1000 Scenario.gas_drop
                      Cases.testing_engine.1 Cases.testing_engine.2).2) = true /\
  sounding (buzzer Cases.testing_engine.2) = true.
Proof.
  assert (H : sounding (buzzer (check_conditions default_settings 1000
                                  Scenario.gas_drop Cases.testing_engine.1
                                  Cases.testing_engine.2).2) = true)
    by (vm_compute; reflexivity).
  split; [exact H|].
  exact (siren_needs_emergency_alert default_settings 1000 Scenario.gas_drop
           Cases.testing_engine.1 Cases.testing_engine.2 eq_refl H).
Defined.

(** X9: a call of [check_conditions] that leaves [alert_active] as it was
    queues no notification and does not touch the buzzer: messages and
    siren commands come only with a change of the flag. *)
Theorem quiet_unless_flag_changes (us : Settings) (now : Q)
    (data : gmap string Q) (self : SmokeDetector) (g : Globals) :
  let r := check_conditions us now data self g in
  alert_active r.2 = alert_active g ->
  bot_queue r.2 = bot_queue g /\ buzzer r.2 = buzzer g.
Proof.
  unfold check_conditions, smoke_branch, warning_branch,
    trigger_alert, clear_alert.
  destruct g as [a st b q]. cbn [alert_active alert_state]. destruct a;
    cbn [negb andb];
    repeat case_match; simplify_eq; cbn; intros; try (split; reflexivity);
    try match goal with
      | H : _ && false = true |- _ => rewrite andb_false_r in H
      end;
    congruence.
Qed.

Lemma quiet_unless_flag_changes_witness :
  let g := Cases.steady_engine.2 in
  let r := check_conditions default_settings 1010 Cases.stuffy_air
             Cases.steady_engine.1 g in
  bot_queue r.2 = bot_queue g /\ buzzer r.2 = buzzer g.
Proof.
  apply (quiet_unless_flag_changes default_settings 1010 Cases.stuffy_air
           Cases.steady_engine.1 Cases.steady_engine.2).
  vm_compute. reflexivity.
Defined.

Lemma check_conditions_filling (us : Settings) (now : Q) (data : gmap string Q)
    (self : SmokeDetector) (g : Globals) :
  test_alert_active self = false ->
  alert_active g = false ->
  (List.length (temp_history self) < 4)%nat ->
  let r := check_conditions us now data self g in
  r.2 = g /\ test_alert_active r.1.2 = false /\
  (List.length (temp_history r.1.2) <= S (List.length (temp_history self)))%nat.
Proof.
  intros Ht Ha Hlen. unfold check_conditions. rewrite Ht, Ha.
  destruct (negb (enableSmokeDetection us)); cbn [andb fst snd].
  { repeat split; [exact Ht | lia]. }
  assert (Hl : List.length (temp_history (push_sample data self))
               = S (List.length (temp_history self))).
  { unfold push_sample. cbn [temp_history set_histories].
    rewrite deque_append_length_eq by (unfold TEMP_SPIKE_WINDOW; lia).
    unfold TEMP_SPIKE_WINDOW. lia. }
  assert (Hf : Nat.ltb (List.length (temp_history (push_sample data self)))
                       TEMP_SPIKE_WINDOW = true)
    by (apply Nat.ltb_lt; rewrite Hl; unfold TEMP_SPIKE_WINDOW; lia).
  rewrite Hf. cbn [fst snd]. repeat split; [exact Ht | lia].
Qed.

(** X10: no alert of any kind before the fifth sample: after at most four
    calls of [check_conditions] from the initial state, with any settings
    and readings, the alert globals are still the initial ones (SAFE, no
    alert, nothing queued, buzzer untouched); the IAQ warning is not
    evaluated either. *)
Theorem no_alert_before_five_samples (setup : bool) (evs : list event) :
  forallb is_check evs = true ->
  (List.length evs <= 4)%nat ->
  (engine_run evs (engine_init setup)).2 = Globals_init setup.
Proof.
  intros Hall Hlen.
  assert (Hgen : forall evs0 s,
             forallb is_check evs0 = true ->
             test_alert_active s.1 = false ->
             alert_active s.2 = false ->
             (List.length (temp_history s.1) + List.length evs0 <= 4)%nat ->
             (engine_run evs0 s).2 = s.2).
  { induction evs0 as [|e evs0 IH]; intros s Ha Ht Hact Hl; [reflexivity|].
    cbn [forallb] in Ha. apply andb_true_iff in Ha as [He Ha].
    destruct e as [us now data| |]; try discriminate.
    cbn [engine_run fold_left]. fold (engine_run evs0 (engine_step (EvCheck us now data) s)).
    cbn [List.length] in Hl.
    destruct (check_conditions_filling us now data s.1 s.2 Ht Hact ltac:(lia))
      as (Hg & Ht' & Hl').
    cbn [engine_step].
    destruct (check_conditions us now data s.1 s.2) as [[p det] g'].
    cbn [fst snd] in *.
    rewrite IH; cbn [fst snd]; try assumption; try congruence; lia. }
  rewrite Hgen; try reflexivity; try assumption; cbn; lia.
Qed.

Lemma no_alert_before_five_samples_witness :
  (engine_run [ EvCheck default_settings 1000 Scenario.gas_drop;
                EvCheck default_settings 1002 Cases.stuffy_air;
                EvCheck default_settings 1004 Scenario.gas_drop;
                EvCheck Cases.detection_off 1006 Scenario.clean_air ]
              (engine_init true)).2
  = Globals_init true.
Proof.
  apply (no_alert_before_five_samples true
           [ EvCheck default_settings 1000 Scenario.gas_drop;
             EvCheck default_settings 1002 Cases.stuffy_air;
             EvCheck default_settings 1004 Scenario.gas_drop;
             EvCheck Cases.detection_off 1006 Scenario.clean_air ]).
  - reflexivity.
  - cbn. lia.
Defined.

(** X11: the IAQ warning is informational.  In an evaluated cycle with no
    alert active and fewer than two triggers, the call queues nothing,
    leaves the buzzer and the flag alone, and sets the state by comparing
    [iaq] with the threshold: above it WARNING; below it WARNING falls back
    to SAFE and any other state stays; at the threshold the state stays. *)
Theorem warning_rule (us : Settings) (now : Q) (data : gmap string Q)
    (self : SmokeDetector) (g : Globals) :
  let triggers := collect_triggers (push_sample data self) data in
  let iaq := default 0%Q (data !! "iaq") in
  let r := check_conditions us now data self g in
  enableSmokeDetection us = true ->
  test_alert_active self = false ->
  (TEMP_SPIKE_WINDOW <= List.length (temp_history (push_sample data self)))%nat ->
  alert_active g = false ->
  (List.length triggers < 2)%nat ->
  alert_active r.2 = false /\ bot_queue r.2 = bot_queue g /\
  buzzer r.2 = buzzer g /\
  ((alertThreshold us < iaq)%Q -> alert_state r.2 = WARNING) /\
  ((iaq < alertThreshold us)%Q ->
   alert_state r.2 = if bool_decide (alert_state g = WARNING) then SAFE
                     else alert_state g) /\
  ((iaq == alertThreshold us)%Q -> alert_state r.2 = alert_state g).
Proof.
  intros triggers iaq r He Ht Hw Ha Hlt.
  pose proof (check_conditions_full_window us now data self g He Ht Hw) as Hpath.
  destruct (check_conditions_evaluated _ _ _ _ _ _ Hpath) as [_ Hr].
  fold triggers in Hr. fold r in Hr.
  assert (Hb : smoke_branch us now triggers (push_sample data self) g
               = (push_sample data self, g)).
  { unfold smoke_branch. rewrite Ha.
    assert (E2 : Nat.leb 2 (List.length triggers) = false)
      by (apply Nat.leb_gt; exact Hlt).
    rewrite E2, andb_false_r. reflexivity. }
  rewrite Hb in Hr. cbn [fst snd] in Hr. rewrite Hr. cbn [snd].
  unfold warning_branch. fold iaq.
  destruct g as [a st b q]. cbn [alert_active alert_state] in *. subst a.
  cbn [negb andb].
  destruct (Qltb (alertThreshold us) iaq) eqn:Eabove;
    [apply Qltb_lt in Eabove | apply Qltb_ge in Eabove];
    (destruct (Qltb iaq (alertThreshold us)) eqn:Ebelow;
     [apply Qltb_lt in Ebelow | apply Qltb_ge in Ebelow]);
    destruct st; vm_compute bool_decide; cbn;
    repeat split; intros Hx; try reflexivity; try lra;
    exfalso; rewrite Hx in *; lra.
Qed.

Lemma warning_rule_witness :
  let us := default_settings in
  let data := Cases.stuffy_air in
  let self := Cases.steady_engine.1 in
  let g := Cases.steady_engine.2 in
  let iaq := default 0%Q (data !! "iaq") in
  let r := check_conditions us 1010 data self g in
  alert_active r.2 = false /\ bot_queue r.2 = bot_queue g /\
  buzzer r.2 = buzzer g /\
  ((alertThreshold us < iaq)%Q -> alert_state r.2 = WARNING) /\
  ((iaq < alertThreshold us)%Q ->
   alert_state r.2 = if bool_decide (alert_state g = WARNING) then SAFE
                     else alert_state g) /\
  ((iaq == alertThreshold us)%Q -> alert_state r.2 = alert_state g).
Proof.
  apply (warning_rule default_settings 1010 Cases.stuffy_air
           Cases.steady_engine.1 Cases.steady_engine.2).
  - reflexivity.
  - reflexivity.
  - vm_compute. lia.
  - reflexivity.
  - vm_compute. lia.
Defined.

(** * Further properties of the fusion *)

(** Turns the outcome of a comparison into the relation it stands for. *)
Ltac q_compare H :=
  match type of H with
  | (_ ?= _)%Q = Eq => apply Qeq_alt in H
  | (_ ?= _)%Q = Lt => apply Qlt_alt in H
  | (_ ?= _)%Q = Gt => apply Qgt_alt in H
  end.

Section RoundFacts.
Local Open Scope Q_scope.

Lemma py_round_le_succ_floor (x : Q) : (py_round x <= Qfloor x + 1)%Z.
Proof.
  unfold py_round.
  destruct (x - inject_Z (Qfloor x) ?= 1 # 2); [destruct (Z.even _)| |]; lia.
Qed.

(** Rounding stays on the near side of an integer bound. *)
Lemma py_round_le_int (x : Q) (b : Z) : x <= inject_Z b -> (py_round x <= b)%Z.
Proof.
  intros H.
  pose proof (Qfloor_le x) as Hf.
  assert (Hfb : (Qfloor x <= b)%Z).
  { pose proof (Qfloor_resp_le _ _ H) as Hr. rewrite Qfloor_Z in Hr. exact Hr. }
  unfold py_round.
  destruct (x - inject_Z (Qfloor x) ?= 1 # 2) eqn:E.
  - apply Qeq_alt in E.
    assert (Hlt : inject_Z (Qfloor x) < inject_Z b) by lra.
    rewrite <- Zlt_Qlt in Hlt. destruct (Z.even _); lia.
  - exact Hfb.
  - apply Qgt_alt in E.
    assert (Hlt : inject_Z (Qfloor x) < inject_Z b) by lra.
    rewrite <- Zlt_Qlt in Hlt. lia.
Qed.

Lemma py_round_ge_int (x : Q) (a : Z) : inject_Z a <= x -> (a <= py_round x)%Z.
Proof.
  intros H. pose proof (Qfloor_resp_le _ _ H) as Hr. rewrite Qfloor_Z in Hr.
  pose proof (py_round_floor x). lia.
Qed.

(** [round] is monotone. *)
Lemma py_round_mono (x y : Q) : x <= y -> (py_round x <= py_round y)%Z.
Proof.
  intros H. pose proof (Qfloor_resp_le _ _ H) as Hf.
  destruct (Z.eq_dec (Qfloor x) (Qfloor y)) as [Heq | Hne].
  - unfold py_round. rewrite Heq.
    destruct (x - inject_Z (Qfloor y) ?= 1 # 2) eqn:Ex;
      destruct (y - inject_Z (Qfloor y) ?= 1 # 2) eqn:Ey;
      q_compare Ex; q_compare Ey;
      try (destruct (Z.even _); lia); try lia; exfalso; lra.
  - pose proof (py_round_le_succ_floor x). pose proof (py_round_floor y). lia.
Qed.
End RoundFacts.

Section AqiFacts.
Local Open Scope Q_scope.

(** Linear interpolation between two integers stays between them. *)
Lemma interpolation_between (lo hi c : Q) (li hi_i : Z) :
  lo < hi -> (li <= hi_i)%Z -> lo <= c <= hi ->
  inject_Z li
  <= inject_Z (hi_i - li) / (hi - lo) * (c - lo) + inject_Z li
  <= inject_Z hi_i.
Proof.
  intros Hd Hi [Hlo Hhi].
  assert (Hn : 0 <= inject_Z (hi_i - li))
    by (change 0 with (inject_Z 0); rewrite <- Zle_Qle; lia).
  assert (Hsub : inject_Z (hi_i - li) == inject_Z hi_i - inject_Z li).
  { unfold Z.sub. rewrite inject_Z_plus, inject_Z_opp. reflexivity. }
  set (n := inject_Z (hi_i - li)) in *.
  set (t := (c - lo) / (hi - lo)).
  assert (Ht0 : 0 <= t) by (apply Qle_shift_div_l; lra).
  assert (Ht1 : t <= 1) by (apply Qle_shift_div_r; lra).
  assert (E : n / (hi - lo) * (c - lo) == n * t)
    by (unfold t; field; lra).
  rewrite E.
  pose proof (Qmult_le_0_compat n t Hn Ht0) as H0.
  assert (H1 : n * t <= n * 1).
  { rewrite (Qmult_comm n t), (Qmult_comm n 1).
    apply Qmult_le_compat_r; assumption. }
  lra.
Qed.

(** Inside a bracket the AQI stays within the index band of the bracket. *)
Lemma interpolate_band (bp : Q * Q * Z * Z) (c : Q) :
  In bp breakpoints -> in_bracket bp c = true ->
  (bp.1.2 <= interpolate bp c <= bp.2)%Z.
Proof.
  intros Hin Hb. unfold breakpoints in Hin. simpl in Hin.
  repeat (destruct Hin as [<- | Hin]); try contradiction;
    unfold in_bracket in Hb; apply andb_true_iff in Hb as [Hlo Hhi];
    apply Qleb_le in Hlo; apply Qleb_le in Hhi;
    unfold interpolate; cbn [fst snd];
    (split; [apply py_round_ge_int | apply py_round_le_int]);
    apply interpolation_between; try lia; try lra; split; assumption.
Qed.

Lemma scan_breakpoints_le_500 (bps : list (Q * Q * Z * Z)) (c : Q) :
  (forall bp, In bp bps -> In bp breakpoints) ->
  (scan_breakpoints bps c <= 500)%Z.
Proof.
  induction bps as [|bp rest IH]; intros Hsub; simpl; [lia|].
  destruct (in_bracket bp c) eqn:E.
  - assert (Hin : In bp breakpoints) by (apply Hsub; left; reflexivity).
    pose proof (interpolate_band bp c Hin E) as [_ Hhi].
    unfold breakpoints in Hin. simpl in Hin.
    repeat (destruct Hin as [<- | Hin]); try contradiction;
      cbn [snd] in Hhi; lia.
  - apply IH. intros b Hb. apply Hsub. right. exact Hb.
Qed.

(** The brackets do not overlap: the bracket that holds [c] is the one the
    scan stops at. *)
Lemma scan_breakpoints_bracket (bp : Q * Q * Z * Z) (c : Q) :
  In bp breakpoints -> in_bracket bp c = true ->
  scan_breakpoints breakpoints c = interpolate bp c.
Proof.
  intros Hin Hb. unfold breakpoints in *. simpl in Hin.
  assert (Hb' := Hb). unfold in_bracket in Hb'.
  repeat (destruct Hin as [<- | Hin]); try contradiction;
    apply andb_true_iff in Hb' as [Hlo Hhi];
    apply Qleb_le in Hlo; apply Qleb_le in Hhi;
    cbn [scan_breakpoints];
    repeat match goal with
      | |- context [in_bracket ?b c] =>
          first
            [ rewrite Hb
            | let E := fresh "E" in
              assert (E : in_bracket b c = false)
                by (unfold in_bracket, Qleb; q_cases; simpl;
                    try reflexivity; exfalso; lra);
              rewrite E; clear E ]
      end;
    reflexivity.
Qed.
End AqiFacts.

Lemma in_bracket_bounds (bp : Q * Q * Z * Z) (c : Q) :
  (bp.1.1.1 <= c <= bp.1.1.2)%Q -> in_bracket bp c = true.
Proof.
  intros [Hlo Hhi]. destruct bp as [[[lo hi] li] hi_i]. cbn [fst snd] in *.
  unfold in_bracket. apply andb_true_iff. split; apply Qleb_le; assumption.
Qed.

Lemma pm25_to_aqi_interpolates (bp : Q * Q * Z * Z) (c : Q) :
  In bp breakpoints ->
  (bp.1.1.1 <= c <= bp.1.1.2)%Q ->
  _pm25_to_aqi (Some c) = interpolate bp c.
Proof.
  intros Hin Hc. pose proof (in_bracket_bounds bp c Hc) as Hb.
  destruct Hc as [Hlo Hhi].
  assert (H0 : Qltb c 0 = false).
  { apply Qltb_ge. unfold breakpoints in Hin. simpl in Hin.
    repeat (destruct Hin as [<- | Hin]); try contradiction;
      cbn [fst snd] in Hlo; lra. }
  unfold _pm25_to_aqi. rewrite H0.
  apply (scan_breakpoints_bracket bp c Hin Hb).
Qed.

(** X12: a PM2.5 value inside a bracket of the table is interpolated in
    that bracket (the brackets do not overlap), and the AQI it gets lies
    within the index band of the bracket. *)
Theorem pm25_to_aqi_band (bp : Q * Q * Z * Z) (c : Q) :
  In bp breakpoints ->
  (bp.1.1.1 <= c <= bp.1.1.2)%Q ->
  _pm25_to_aqi (Some c) = interpolate bp c /\
  bp.1.2 <= _pm25_to_aqi (Some c) <= bp.2.
Proof.
  intros Hin Hc.
  rewrite (pm25_to_aqi_interpolates bp c Hin Hc).
  split; [reflexivity|].
  apply interpolate_band; [exact Hin | apply in_bracket_bounds; exact Hc].
Qed.

Lemma pm25_to_aqi_band_witness :
  _pm25_to_aqi (Some 40%Q) = interpolate (35.5%Q, 55.4%Q, 101, 150) 40 /\
  101 <= _pm25_to_aqi (Some 40%Q) <= 150.
Proof.
  apply (pm25_to_aqi_band (35.5%Q, 55.4%Q, 101, 150) 40).
  - unfold breakpoints. simpl. tauto.
  - split; vm_compute; discriminate.
Defined.

Lemma pm25_to_aqi_le_500 (pm : option Q) : _pm25_to_aqi pm <= 500.
Proof.
  destruct pm as [c|]; unfold _pm25_to_aqi; [|lia].
  destruct (Qltb c 0); [lia|].
  apply scan_breakpoints_le_500. auto.
Qed.

(** X13: the AQI is between 0 and 500 for every input, absent, negative,
    in a bracket, in a gap or above the table. *)
Theorem pm25_to_aqi_range (pm : option Q) : 0 <= _pm25_to_aqi pm <= 500.
Proof.
  split; [apply pm25_to_aqi_nonneg | apply pm25_to_aqi_le_500].
Qed.

Lemma linear_mono (k a b x y : Q) :
  (0 <= k -> x <= y -> k * (x - a) + b <= k * (y - a) + b)%Q.
Proof.
  intros Hk Hxy.
  assert (H : (k * (x - a) <= k * (y - a))%Q).
  { rewrite !(Qmult_comm k). apply Qmult_le_compat_r; [lra | exact Hk]. }
  lra.
Qed.

(** X14: within one bracket the AQI does not decrease when PM2.5
    grows. *)
Theorem pm25_to_aqi_monotone_in_bracket (bp : Q * Q * Z * Z) (c1 c2 : Q) :
  In bp breakpoints ->
  (bp.1.1.1 <= c1)%Q -> (c1 <= c2)%Q -> (c2 <= bp.1.1.2)%Q ->
  _pm25_to_aqi (Some c1) <= _pm25_to_aqi (Some c2).
Proof.
  intros Hin H1 H12 H2.
  rewrite (pm25_to_aqi_interpolates bp c1 Hin) by (split; lra).
  rewrite (pm25_to_aqi_interpolates bp c2 Hin) by (split; lra).
  unfold breakpoints in Hin. simpl in Hin.
  repeat (destruct Hin as [<- | Hin]); try contradiction;
    unfold interpolate; apply py_round_mono;
    (apply linear_mono; [vm_compute; discriminate | exact H12]).
Qed.

Lemma pm25_to_aqi_monotone_in_bracket_witness :
  _pm25_to_aqi (Some 40%Q) <= _pm25_to_aqi (Some 50%Q).
Proof.
  apply (pm25_to_aqi_monotone_in_bracket (35.5%Q, 55.4%Q, 101, 150) 40 50).
  - unfold breakpoints. simpl. tauto.
  - vm_compute. discriminate.
  - vm_compute. discriminate.
  - vm_compute. discriminate.
Defined.

(** Writes the injections of integer numerals as rational numerals. *)
Ltac int_consts :=
  repeat match goal with
    | H : context [inject_Z (Zpos ?p)] |- _ =>
        change (inject_Z (Zpos p)) with (Zpos p # 1)%Q in H
    | H : context [inject_Z 0] |- _ => change (inject_Z 0) with 0%Q in H
    end.

(** X15: a whole number of micrograms between 0 and 500, which is what
    the particulate sensor reports, never falls into a gap of the table:
    it lies in a bracket and is interpolated there. *)
Theorem pm25_to_aqi_integer_no_gap (n : Z) :
  0 <= n <= 500 ->
  exists bp, In bp breakpoints /\ in_bracket bp (inject_Z n) = true /\
             _pm25_to_aqi (Some (inject_Z n)) = interpolate bp (inject_Z n).
Proof.
  intros Hn.
  assert (Hq : forall a b : Z, a <= b -> (inject_Z a <= inject_Z b)%Q)
    by (intros a b Hab; rewrite <- Zle_Qle; exact Hab).
  assert (Hc : n <= 12 \/ 13 <= n <= 35 \/ 36 <= n <= 55 \/ 56 <= n <= 150 \/
               151 <= n <= 250 \/ 251 <= n) by lia.
  assert (Hsome : exists bp, In bp breakpoints /\
                             (bp.1.1.1 <= inject_Z n <= bp.1.1.2)%Q).
  { destruct Hc as [H | [H | [H | [H | [H | H]]]]].
    - exists (0.0%Q, 12.0%Q, 0, 50). split; [unfold breakpoints; simpl; tauto|].
      pose proof (Hq 0 n ltac:(lia)). pose proof (Hq n 12 ltac:(lia)).
      cbn [fst snd]. int_consts. split; lra.
    - exists (12.1%Q, 35.4%Q, 51, 100). split; [unfold breakpoints; simpl; tauto|].
      pose proof (Hq 13 n ltac:(lia)). pose proof (Hq n 35 ltac:(lia)).
      cbn [fst snd]. int_consts. split; lra.
    - exists (35.5%Q, 55.4%Q, 101, 150). split; [unfold breakpoints; simpl; tauto|].
      pose proof (Hq 36 n ltac:(lia)). pose proof (Hq n 55 ltac:(lia)).
      cbn [fst snd]. int_consts. split; lra.
    - exists (55.5%Q, 150.4%Q, 151, 200). split; [unfold breakpoints; simpl; tauto|].
      pose proof (Hq 56 n ltac:(lia)). pose proof (Hq n 150 ltac:(lia)).
      cbn [fst snd]. int_consts. split; lra.
    - exists (150.5%Q, 250.4%Q, 201, 300). split; [unfold breakpoints; simpl; tauto|].
      pose proof (Hq 151 n ltac:(lia)). pose proof (Hq n 250 ltac:(lia)).
      cbn [fst snd]. int_consts. split; lra.
    - exists (250.5%Q, 500.4%Q, 301, 500). split; [unfold breakpoints; simpl; tauto|].
      pose proof (Hq 251 n ltac:(lia)). pose proof (Hq n 500 ltac:(lia)).
      cbn [fst snd]. int_consts. split; lra. }
  destruct Hsome as (bp & Hin & Hb). exists bp.
  split; [exact Hin|]. split; [apply in_bracket_bounds; exact Hb|].
  apply pm25_to_aqi_interpolates; assumption.
Qed.

Lemma pm25_to_aqi_integer_no_gap_witness :
  exists bp, In bp breakpoints /\ in_bracket bp (inject_Z 13) = true /\
             _pm25_to_aqi (Some (inject_Z 13)) = interpolate bp (inject_Z 13).
Proof.
  apply (pm25_to_aqi_integer_no_gap 13). lia.
Defined.

Section ProcessorFacts.
Local Open Scope Q_scope.

Lemma np_clip_range (x lo hi : Q) : lo <= hi -> lo <= np_clip x lo hi <= hi.
Proof.
  intros H. unfold np_clip, Qmin, Qmax.
  destruct (Qltb x lo) eqn:E1;
    [apply Qltb_lt in E1 | apply Qltb_ge in E1];
    match goal with |- context [Qltb hi ?a] => destruct (Qltb hi a) eqn:E2 end;
    try apply Qltb_lt in E2; try apply Qltb_ge in E2; split; lra.
Qed.

Lemma Qsum_bounds (l : list Q) (lo hi : Q) :
  Forall (fun x => lo <= x <= hi) l ->
  inject_Z (Z.of_nat (List.length l)) * lo <= Qsum l
  <= inject_Z (Z.of_nat (List.length l)) * hi.
Proof.
  induction 1 as [|x l Hx Hl IH].
  { cbn [List.length Qsum fold_right].
    change (inject_Z (Z.of_nat 0)) with 0%Q. lra. }
  cbn [List.length Qsum fold_right]. fold (Qsum l).
  rewrite Nat2Z.inj_succ. unfold Z.succ. rewrite inject_Z_plus.
  change (inject_Z 1) with 1. lra.
Qed.

(** The mean of a non-empty window lies between its bounds. *)
Lemma np_mean_range (l : list Q) (lo hi : Q) :
  l <> [] -> Forall (fun x => lo <= x <= hi) l -> lo <= np_mean l <= hi.
Proof.
  intros Hne Hall. pose proof (Qsum_bounds l lo hi Hall) as [Hlo Hhi].
  assert (Hn : 0 < inject_Z (Z.of_nat (List.length l))).
  { change 0 with (inject_Z 0). rewrite <- Zlt_Qlt.
    destruct l; [contradiction | cbn [List.length]; lia]. }
  unfold np_mean. split.
  - apply Qle_shift_div_l; [exact Hn | lra].
  - apply Qle_shift_div_r; [exact Hn | lra].
Qed.

Lemma deque_append_Forall {A : Type} (P : A -> Prop) (maxlen : nat)
    (d : list A) (x : A) :
  Forall P d -> P x -> Forall P (deque_append maxlen d x).
Proof.
  intros Hd Hx. unfold deque_append.
  destruct (Nat.eqb maxlen 0); [constructor|].
  destruct (Nat.ltb _ _); apply Forall_app; split; auto.
  destruct d; [constructor | inversion Hd; assumption].
Qed.

Lemma deque_append_nonempty {A : Type} (maxlen : nat) (d : list A) (x : A) :
  (0 < maxlen)%nat -> deque_append maxlen d x <> [].
Proof.
  intros H. unfold deque_append.
  destruct (Nat.eqb_spec maxlen 0); [lia|].
  destruct (Nat.ltb _ _); intros E; apply app_eq_nil in E as [_ E]; discriminate.
Qed.

Lemma process_ok (pow_1_5 : Q -> Q) (self : IAQProcessor)
    (raw_data : gmap string Q) :
  processor_ok self -> processor_ok (process pow_1_5 self raw_data).2.
Proof.
  intros (Ha & Hlen & Hall & Hb). unfold process.
  destruct (raw_data !! "gas_resistance") as [gas_raw|]; [|repeat split; assumption].
  destruct (raw_data !! "pm25") as [pm25|]; [|repeat split; assumption].
  destruct (raw_data !! "temperature") as [temp|]; [|repeat split; assumption].
  destruct (raw_data !! "humidity") as [humidity|]; [|repeat split; assumption].
  cbn [snd].
  set (w := deque_append ROLLING_WINDOW_SIZE (gas_window self)
                         (np_clip gas_raw 10000 500000)).
  assert (Hclip : gas_in_range (np_clip gas_raw 10000 500000))
    by (apply np_clip_range; lra).
  assert (Hw : Forall gas_in_range w)
    by (apply deque_append_Forall; assumption).
  assert (Hne : w <> [])
    by (apply deque_append_nonempty; unfold ROLLING_WINDOW_SIZE; lia).
  assert (Hm : gas_in_range (np_mean w)) by (apply np_mean_range; assumption).
  unfold processor_ok. cbn [alpha gas_window ewma_baseline].
  split; [exact Ha|]. split; [apply deque_append_length; exact Hlen|].
  split; [exact Hw|]. split; [|exact Hne].
  unfold next_baseline, gas_in_range in *. rewrite Ha.
  destruct (ewma_baseline self) as [b|]; [|exact Hm].
  destruct Hb as [[Hb1 Hb2] _]. destruct Hm as [Hm1 Hm2]. split; lra.
Qed.

Lemma process_run_ok (pow_1_5 : Q -> Q) (raws : list (gmap string Q))
    (self : IAQProcessor) :
  processor_ok self -> processor_ok (process_run pow_1_5 raws self).
Proof.
  revert self. induction raws as [|raw raws IH]; intros self H; [exact H|].
  cbn [process_run fold_left].
  fold (process_run pow_1_5 raws (process pow_1_5 self raw).2).
  apply IH, process_ok, H.
Qed.
End ProcessorFacts.

(** X16: whatever readings [process] is fed from the start, its window
    holds at most five samples, all within the clamp [10000, 500000], and
    the baseline, once set, lies within the same bounds; so the baseline is
    positive and the division by it is defined.  The baseline is unset
    exactly as long as the window is empty. *)
Theorem processor_baseline_in_range (pow_1_5 : Q -> Q)
    (raws : list (gmap string Q)) :
  let self := process_run pow_1_5 raws IAQProcessor_init in
  (List.length (gas_window self) <= 5)%nat /\
  (forall x, In x (gas_window self) -> (10000 <= x <= 500000)%Q) /\
  (forall b, ewma_baseline self = Some b -> (10000 <= b <= 500000)%Q) /\
  (ewma_baseline self = None <-> gas_window self = []).
Proof.
  intros self.
  assert (H : processor_ok self).
  { apply process_run_ok. repeat split; cbn; auto with arith. }
  destruct H as (_ & Hlen & Hall & Hb).
  split; [exact Hlen|]. split; [|split].
  - intros x Hx. rewrite List.Forall_forall in Hall. exact (Hall x Hx).
  - intros b Eb. rewrite Eb in Hb. exact (proj1 Hb).
  - destruct (ewma_baseline self) as [b|].
    + destruct Hb as [_ Hne]. split; [discriminate | intros E; contradiction].
    + split; [intros _; exact Hb | reflexivity].
Qed.

(** X17: for a reading with the four inputs present, the result of
    [process] has exactly the keys [iaq], [aqi], [voc_index] and
    [co2_equivalent], and the [aqi] and [voc_index] entries are whole
    numbers between 0 and 500, for any state of the processor. *)
Theorem process_result_shape (pow_1_5 : Q -> Q) (self : IAQProcessor)
    (raw_data : gmap string Q) (gas_raw pm25 temp humidity : Q) :
  raw_data !! "gas_resistance" = Some gas_raw ->
  raw_data !! "pm25" = Some pm25 ->
  raw_data !! "temperature" = Some temp ->
  raw_data !! "humidity" = Some humidity ->
  let result := (process pow_1_5 self raw_data).1 in
  dom result = ({["iaq"; "aqi"; "voc_index"; "co2_equivalent"]} : gset string) /\
  (exists aqi : Z, result !! "aqi" = Some (inject_Z aqi) /\ 0 <= aqi <= 500) /\
  (exists voc : Z, result !! "voc_index" = Some (inject_Z voc) /\ 0 <= voc <= 500).
Proof.
  intros Hg Hp Ht Hh result. subst result. unfold process.
  rewrite Hg, Hp, Ht, Hh. cbn [fst].
  split; [|split].
  - rewrite !dom_insert_L, dom_singleton_L. set_solver.
  - eexists. split; [reflexivity|].
    split; [apply pm25_to_aqi_nonneg | apply pm25_to_aqi_le_500].
  - eexists. split; [reflexivity|]. split.
    + apply py_round_nonneg, voc_index_nonneg.
    + apply py_round_le_int. change (inject_Z 500) with 500%Q.
      apply voc_index_le_500.
Qed.

Lemma process_result_shape_witness :
  let result := (process (fun x => x) IAQProcessor_init
                   (Scenario.full_reading 30 80 1013 50000 5 50 60)).1 in
  dom result = ({["iaq"; "aqi"; "voc_index"; "co2_equivalent"]} : gset string) /\
  (exists aqi : Z, result !! "aqi" = Some (inject_Z aqi) /\ 0 <= aqi <= 500) /\
  (exists voc : Z, result !! "voc_index" = Some (inject_Z voc) /\ 0 <= voc <= 500).
Proof.
  apply (process_result_shape (fun x => x) IAQProcessor_init
           (Scenario.full_reading 30 80 1013 50000 5 50 60) 50000 50 30 80).
  - vm_compute. reflexivity.
  - vm_compute. reflexivity.
  - vm_compute. reflexivity.
  - vm_compute. reflexivity.
Defined.

Section VocFacts.
Local Open Scope Q_scope.

Lemma voc_index_zero (baseline smoothed_gas : Q) :
  baseline <= smoothed_gas -> py_round (voc_index_of baseline smoothed_gas) = 0%Z.
Proof.
  intros H.
  assert (Hd : deviation_of baseline smoothed_gas = 0).
  { unfold deviation_of, Qmax.
    assert (E : Qltb 0 (baseline - smoothed_gas) = false) by (apply Qltb_ge; lra).
    rewrite E. reflexivity. }
  assert (Hv : voc_index_of baseline smoothed_gas == 0).
  { unfold voc_index_of. rewrite Hd.
    assert (Hx : (if Qltb 0 baseline then 0 / baseline * 500 else 0) == 0).
    { destruct (Qltb 0 baseline); [|reflexivity]. unfold Qdiv. ring. }
    unfold Qmin.
    match goal with |- context [Qltb ?a 500] => destruct (Qltb a 500) eqn:E end.
    - exact Hx.
    - apply Qltb_ge in E. rewrite Hx in E. lra. }
  rewrite (py_round_comp _ _ Hv). reflexivity.
Qed.
End VocFacts.

(** X18: gas resistance at or above the baseline is clean air: on the
    first reading ever, and whenever the smoothed gas resistance does not
    lie below the previous baseline, [process] reports a VOC index of 0. *)
Theorem rising_gas_reports_no_voc (pow_1_5 : Q -> Q) (self : IAQProcessor)
    (raw_data : gmap string Q) (gas_raw pm25 temp humidity : Q) :
  raw_data !! "gas_resistance" = Some gas_raw ->
  raw_data !! "pm25" = Some pm25 ->
  raw_data !! "temperature" = Some temp ->
  raw_data !! "humidity" = Some humidity ->
  alpha self = 0.2%Q ->
  let smoothed_gas :=
    np_mean (deque_append ROLLING_WINDOW_SIZE (gas_window self)
                          (np_clip gas_raw 10000 500000)) in
  match ewma_baseline self with
  | None => True
  | Some b => (b <= smoothed_gas)%Q
  end ->
  (process pow_1_5 self raw_data).1 !! "voc_index" = Some 0%Q.
Proof.
  intros Hg Hp Ht Hh Ha smoothed_gas Hb. unfold process.
  rewrite Hg, Hp, Ht, Hh. cbn [fst]. fold smoothed_gas.
  rewrite voc_index_zero; [reflexivity|].
  unfold next_baseline. rewrite Ha.
  destruct (ewma_baseline self) as [b|]; lra.
Qed.

Lemma rising_gas_reports_no_voc_witness :
  (process (fun x => x) IAQProcessor_init
     (Scenario.full_reading 30 80 1013 50000 5 50 60)).1 !! "voc_index"
  = Some 0%Q.
Proof.
  apply (rising_gas_reports_no_voc (fun x => x) IAQProcessor_init
           (Scenario.full_reading 30 80 1013 50000 5 50 60) 50000 50 30 80).
  - vm_compute. reflexivity.
  - vm_compute. reflexivity.
  - vm_compute. reflexivity.
  - vm_compute. reflexivity.
  - reflexivity.
  - exact I.
Defined.

(** * Further properties of the acquisition loop *)

(** A failed read, [None] or an empty dictionary, is a skipped
    cycle: processor, detector, alert globals, latest reading and history
    stay as they are, and the sensor status reports the missing data. *)
Theorem failed_read_skips_cycle (pow_1_5 : Q -> Q) (us : Settings) (ts now : Q)
    (raw_data : option (gmap string Q)) (sys : System) :
  raw_data = None \/ raw_data = Some ∅ ->
  let sys' := sensor_cycle pow_1_5 us ts now raw_data sys in
  processor sys' = processor sys /\ detector sys' = detector sys /\
  globals sys' = globals sys /\
  latest_sensor_data sys' = latest_sensor_data sys /\
  history_buffer sys' = history_buffer sys /\
  sensor_status sys' = "Error: No Data"%string.
Proof.
  intros [-> | ->]; cbn; repeat split.
Qed.

Lemma failed_read_skips_cycle_witness :
  let sys := Scenario.bme_warmed_up in
  let sys' := sensor_cycle (fun x => x) default_settings 1008 1008 (Some ∅) sys in
  processor sys' = processor sys /\ detector sys' = detector sys /\
  globals sys' = globals sys /\
  latest_sensor_data sys' = latest_sensor_data sys /\
  history_buffer sys' = history_buffer sys /\
  sensor_status sys' = "Error: No Data"%string.
Proof.
  apply (failed_read_skips_cycle (fun x => x) default_settings 1008 1008
           (Some ∅) Scenario.bme_warmed_up).
  right. reflexivity.
Defined.

Section PublishFacts.
Variable pow_1_5 : Q -> Q.

Lemma newest_snoc (h : list DataPoint) (d : DataPoint) : newest (h ++ [d]) = Some d.
Proof.
  destruct h as [|a h]; [reflexivity|].
  cbn [newest List.app]. f_equal. apply List.last_last.
Qed.

Lemma newest_deque_append (h : list DataPoint) (d : DataPoint) :
  newest (deque_append HISTORY_BUFFER_SIZE h d) = Some d.
Proof.
  unfold deque_append.
  destruct (Nat.eqb_spec HISTORY_BUFFER_SIZE 0) as [E | _].
  - pose proof HISTORY_BUFFER_SIZE_pos. lia.
  - destruct (Nat.ltb _ _); apply newest_snoc.
Qed.

(** What a cycle with a non-empty reading publishes. *)
Lemma sensor_cycle_good (us : Settings) (ts now : Q) (raw : gmap string Q)
    (sys : System) :
  raw <> ∅ ->
  let calc := (process pow_1_5 (processor sys) raw).1 in
  let point := merge_data_point raw calc ts in
  let r := check_conditions us now point (detector sys) (globals sys) in
  let stamped :=
    {| dp_fields := point;
       dp_alert_active := alert_active r.2;
       dp_state := alert_state r.2;
       dp_iaq_level := get_iaq_level (point !! "iaq");
       dp_pm25_level := get_iaq_level (point !! "aqi") |} in
  sensor_cycle pow_1_5 us ts now (Some raw) sys
  = {| processor := (process pow_1_5 (processor sys) raw).2;
       detector := r.1.2; globals := r.2;
       latest_sensor_data := Some stamped;
       history_buffer :=
         deque_append HISTORY_BUFFER_SIZE (history_buffer sys) stamped;
       sensor_status := sensor_status sys |}.
Proof.
  intros Hne calc point r stamped. unfold sensor_cycle.
  rewrite bool_decide_eq_false_2 by exact Hne.
  subst stamped r point calc.
  destruct (process pow_1_5 (processor sys) raw) as [c proc]. cbn [fst snd].
  destruct (check_conditions _ _ _ _ _) as [[p det] g]. reflexivity.
Qed.

Lemma sensor_cycle_published (us : Settings) (ts now : Q)
    (raw_data : option (gmap string Q)) (sys : System) :
  published_ok sys -> published_ok (sensor_cycle pow_1_5 us ts now raw_data sys).
Proof.
  intros H. destruct raw_data as [raw|]; [|exact H].
  destruct (decide (raw = ∅)) as [-> | Hne]; [exact H|].
  rewrite (sensor_cycle_good us ts now raw sys Hne).
  unfold published_ok. cbn [latest_sensor_data history_buffer globals].
  rewrite newest_deque_append. split; [reflexivity | split; reflexivity].
Qed.

Lemma acquisition_run_published
    (inputs : list (Settings * Q * Q * option (gmap string Q))) (sys : System) :
  published_ok sys -> published_ok (acquisition_run pow_1_5 inputs sys).
Proof.
  revert sys. induction inputs as [|[[[us ts] now] raw] inputs IH];
    intros sys H; [exact H|].
  cbn [acquisition_run fold_left].
  fold (acquisition_run pow_1_5 inputs (sensor_cycle pow_1_5 us ts now raw sys)).
  apply IH, sensor_cycle_published, H.
Qed.

Lemma acquisition_run_history_length
    (inputs : list (Settings * Q * Q * option (gmap string Q))) (sys : System) :
  (List.length (history_buffer sys) <= HISTORY_BUFFER_SIZE)%nat ->
  List.length (history_buffer (acquisition_run pow_1_5 inputs sys))
  = Nat.min HISTORY_BUFFER_SIZE
      (List.length (history_buffer sys)
       + List.length (List.filter good_read inputs)).
Proof.
  revert sys. induction inputs as [|[[[us ts] now] raw] inputs IH];
    intros sys H.
  - cbn [acquisition_run fold_left List.filter List.length]. lia.
  - cbn [acquisition_run fold_left].
    fold (acquisition_run pow_1_5 inputs (sensor_cycle pow_1_5 us ts now raw sys)).
    rewrite IH by (apply sensor_cycle_history_bound; exact H).
    cbn [List.filter]. unfold good_read at 2. cbn [snd].
    destruct raw as [raw|]; [|reflexivity].
    destruct (decide (raw = ∅)) as [-> | Hne].
    + unfold sensor_cycle. rewrite bool_decide_eq_true_2 by reflexivity.
      reflexivity.
    + rewrite (sensor_cycle_good us ts now raw sys Hne). cbn [history_buffer].
      rewrite bool_decide_eq_false_2 by exact Hne. cbn [negb List.length].
      rewrite deque_append_length_eq by exact H. lia.
Qed.
End PublishFacts.

(** X19: after any number of loop iterations from the start, the latest
    reading is the newest entry of the history, and it carries the alert
    state and the alert flag that the globals hold. *)
Theorem latest_is_newest_history_entry (pow_1_5 : Q -> Q) (setup : bool)
    (inputs : list (Settings * Q * Q * option (gmap string Q))) :
  let sys := acquisition_run pow_1_5 inputs (System_init setup) in
  latest_sensor_data sys = newest (history_buffer sys) /\
  (forall d, latest_sensor_data sys = Some d ->
             dp_state d = alert_state (globals sys) /\
             dp_alert_active d = alert_active (globals sys)).
Proof.
  intros sys.
  assert (H : published_ok sys)
    by (apply acquisition_run_published; split; [reflexivity | exact I]).
  destruct H as [H1 H2]. split; [exact H1|].
  intros d Hd. rewrite Hd in H2. exact H2.
Qed.

(** X20: the history holds one entry per successful read, up to its
    capacity: after any run from the start its length is the smaller of
    43200 and the number of non-empty readings. *)
Theorem history_counts_good_reads (pow_1_5 : Q -> Q) (setup : bool)
    (inputs : list (Settings * Q * Q * option (gmap string Q))) :
  List.length (history_buffer (acquisition_run pow_1_5 inputs (System_init setup)))
  = Nat.min HISTORY_BUFFER_SIZE (List.length (List.filter good_read inputs)).
Proof.
  rewrite acquisition_run_history_length by (cbn; lia). reflexivity.
Qed.

Lemma process_keys (pow_1_5 : Q -> Q) (self : IAQProcessor)
    (raw_data : gmap string Q) (k : string) :
  k ∉ derived_keys -> (process pow_1_5 self raw_data).1 !! k = None.
Proof.
  intros Hk. unfold derived_keys in Hk. unfold process.
  assert (Hne : k <> "iaq"%string /\ k <> "aqi"%string /\
                k <> "voc_index"%string /\ k <> "co2_equivalent"%string)
    by set_solver.
  destruct Hne as (H1 & H2 & H3 & H4).
  repeat case_match; cbn [fst]; try apply lookup_empty.
  rewrite !lookup_insert_ne by congruence.
  apply lookup_singleton_ne. congruence.
Qed.

(** X21: a cycle with a non-empty reading publishes every raw sensor
    field unchanged, next to the timestamp of the cycle: only the keys
    [timestamp], [iaq], [aqi], [voc_index] and [co2_equivalent] are written
    over the raw reading. *)
Theorem raw_fields_published (pow_1_5 : Q -> Q) (us : Settings) (ts now : Q)
    (raw_data : gmap string Q) (sys : System) :
  raw_data <> ∅ ->
  let sys' := sensor_cycle pow_1_5 us ts now (Some raw_data) sys in
  exists d,
    latest_sensor_data sys' = Some d /\
    dp_fields d !! "timestamp" = Some ts /\
    forall k v, raw_data !! k = Some v -> k ∉ derived_keys ->
                dp_fields d !! k = Some v.
Proof.
  intros Hne sys'. subst sys'.
  rewrite (sensor_cycle_good pow_1_5 us ts now raw_data sys Hne).
  cbn [latest_sensor_data]. eexists. split; [reflexivity|].
  cbn [dp_fields]. unfold merge_data_point. split.
  - apply lookup_insert_eq.
  - intros k v Hk Hnk.
    assert (Hts : "timestamp"%string <> k)
      by (intros <-; apply Hnk; unfold derived_keys; set_solver).
    rewrite lookup_insert_ne by exact Hts.
    rewrite lookup_union, (process_keys pow_1_5 _ _ k Hnk), Hk. reflexivity.
Qed.

Lemma raw_fields_published_witness :
  let sys' := sensor_cycle (fun x => x) default_settings 1008 1008
                (Some Scenario.bme_gas_drop) Scenario.bme_warmed_up in
  exists d,
    latest_sensor_data sys' = Some d /\
    dp_fields d !! "timestamp" = Some 1008%Q /\
    forall k v, Scenario.bme_gas_drop !! k = Some v -> k ∉ derived_keys ->
                dp_fields d !! k = Some v.
Proof.
  apply (raw_fields_published (fun x => x) default_settings 1008 1008
           Scenario.bme_gas_drop Scenario.bme_warmed_up).
  apply insert_non_empty.
Defined.

Lemma get_iaq_level_some (s : Q) : get_iaq_level (Some s) <> "Calculating..."%string.
Proof. unfold get_iaq_level. repeat case_match; discriminate. Qed.

(** X22: for a non-empty reading that carries no [iaq] key of its own,
    the published IAQ label is "Calculating..." exactly when one of the
    four inputs of the fusion is absent. *)
Theorem calculating_label_iff_missing_input (pow_1_5 : Q -> Q) (us : Settings)
    (ts now : Q) (raw_data : gmap string Q) (sys : System) :
  raw_data <> ∅ ->
  raw_data !! "iaq" = None ->
  let sys' := sensor_cycle pow_1_5 us ts now (Some raw_data) sys in
  (exists d, latest_sensor_data sys' = Some d /\
             dp_iaq_level d = "Calculating..."%string)
  <-> missing_input raw_data.
Proof.
  intros Hne Hiaq sys'. subst sys'.
  rewrite (sensor_cycle_good pow_1_5 us ts now raw_data sys Hne).
  cbn [latest_sensor_data]. unfold merge_data_point.
  rewrite lookup_insert_ne by discriminate. rewrite lookup_union.
  split.
  - intros (d & [= <-] & Hl). cbn [dp_iaq_level] in Hl.
    unfold missing_input. unfold process in Hl.
    destruct (raw_data !! "gas_resistance"); [|auto].
    destruct (raw_data !! "pm25"); [|auto].
    destruct (raw_data !! "temperature"); [|auto].
    destruct (raw_data !! "humidity"); [|auto 6].
    cbn [fst] in Hl. rewrite lookup_insert_eq in Hl. rewrite Hiaq in Hl.
    cbn in Hl. apply get_iaq_level_some in Hl. contradiction.
  - intros Hm. rewrite (process_missing_input pow_1_5 _ _ Hm). cbn [fst].
    rewrite lookup_empty, Hiaq. eexists. split; reflexivity.
Qed.

Lemma calculating_label_iff_missing_input_witness :
  let sys' := sensor_cycle (fun x => x) default_settings 1008 1008
                (Some Scenario.bme_gas_drop) Scenario.bme_warmed_up in
  (exists d, latest_sensor_data sys' = Some d /\
             dp_iaq_level d = "Calculating..."%string)
  <-> missing_input Scenario.bme_gas_drop.
Proof.
  apply (calculating_label_iff_missing_input (fun x => x) default_settings
           1008 1008 Scenario.bme_gas_drop Scenario.bme_warmed_up).
  - apply insert_non_empty.
  - vm_compute. reflexivity.
Defined.

(** * Further properties of the retention worker *)

Section PathFacts.
Local Open Scope string_scope.
Implicit Types (a b p : string) (c : ascii).

Lemma append_nil_l b : EmptyString ++ b = b.
Proof. reflexivity. Qed.

Lemma rfind_app_sep a b c :
  rfind c b = None -> rfind c (a ++ String c b) = Some (String.length a).
Proof.
  intros Hb. induction a as [|x a IH].
  - rewrite append_nil_l. cbn [rfind String.length]. rewrite Hb, Ascii.eqb_refl.
    reflexivity.
  - rewrite append_cons. cbn [rfind String.length]. rewrite IH. reflexivity.
Qed.

Lemma str_drop_app_sep a b c :
  str_drop (S (String.length a)) (a ++ String c b) = b.
Proof.
  induction a as [|x a IH].
  - rewrite append_nil_l. destruct b; reflexivity.
  - rewrite append_cons. cbn [String.length str_drop]. exact IH.
Qed.

Lemma str_take_app_sep a b c :
  str_take (S (String.length a)) (a ++ String c b) = a ++ String c EmptyString.
Proof.
  induction a as [|x a IH].
  - rewrite !append_nil_l. destruct b; reflexivity.
  - rewrite !append_cons.
    change (str_take (S (String.length (String x a))) (String x (a ++ String c b)))
      with (String x (str_take (S (String.length a)) (a ++ String c b))).
    rewrite IH. reflexivity.
Qed.

Lemma endswith_char_app a b c :
  b <> EmptyString -> endswith_char (a ++ b) c = endswith_char b c.
Proof.
  intros Hb. induction a as [|x a IH]; [reflexivity|].
  rewrite append_cons. cbn [endswith_char]. rewrite IH.
  destruct (a ++ b) eqn:E; [|reflexivity].
  destruct a; [rewrite append_nil_l in E; contradiction | discriminate].
Qed.

Lemma all_chars_snoc a c : all_chars c (a ++ String c EmptyString) = all_chars c a.
Proof.
  induction a as [|x a IH].
  - rewrite append_nil_l. cbn. rewrite Ascii.eqb_refl. reflexivity.
  - rewrite append_cons. cbn [all_chars]. rewrite IH. reflexivity.
Qed.

Lemma all_chars_endswith a c :
  a <> EmptyString -> endswith_char a c = false -> all_chars c a = false.
Proof.
  induction a as [|x a IH]; [contradiction|]. intros _ He.
  cbn [all_chars]. destruct a as [|y a'].
  - cbn in He. rewrite He. reflexivity.
  - cbn [endswith_char] in He. rewrite IH; [apply andb_false_r | discriminate | exact He].
Qed.

Lemma rstrip_keeps a c :
  a <> EmptyString -> endswith_char a c = false -> rstrip c a = a.
Proof.
  induction a as [|x a IH]; [contradiction|]. intros _ He.
  cbn [rstrip]. destruct a as [|y a'].
  - cbn in *. rewrite He. reflexivity.
  - cbn [endswith_char] in He. rewrite IH; [reflexivity | discriminate | exact He].
Qed.

Lemma rstrip_snoc a c :
  a <> EmptyString -> endswith_char a c = false ->
  rstrip c (a ++ String c EmptyString) = a.
Proof.
  induction a as [|x a IH]; [contradiction|]. intros _ He.
  rewrite append_cons. cbn [rstrip]. destruct a as [|y a'].
  - rewrite append_nil_l. cbn. rewrite Ascii.eqb_refl. cbn in He. rewrite He.
    reflexivity.
  - cbn [endswith_char] in He. rewrite IH; [reflexivity | discriminate | exact He].
Qed.

Lemma append_not_empty a c b : a ++ String c b <> EmptyString.
Proof. destruct a; [rewrite append_nil_l | rewrite append_cons]; discriminate. Qed.

(** [basename] and [dirname] of a path whose last component is [b]. *)
Lemma basename_sep a b :
  rfind "/" b = None -> basename (a ++ String "/" b) = b.
Proof.
  intros Hb. unfold basename. rewrite (rfind_app_sep a b "/" Hb).
  apply str_drop_app_sep.
Qed.

Lemma dirname_sep a b :
  rfind "/" b = None -> a <> EmptyString -> endswith_char a "/" = false ->
  dirname (a ++ String "/" b) = a.
Proof.
  intros Hb Ha He. unfold dirname. rewrite (rfind_app_sep a b "/" Hb).
  rewrite str_take_app_sep.
  assert (Hne : String.eqb (a ++ String "/" EmptyString) EmptyString = false)
    by (apply String.eqb_neq, append_not_empty).
  rewrite Hne, all_chars_snoc, (all_chars_endswith a "/" Ha He). cbn [negb andb].
  apply rstrip_snoc; assumption.
Qed.

(** [os.path.join] of a directory and a relative name. *)
Lemma path_join_relative a b :
  String.prefix "/" b = false -> a <> EmptyString -> endswith_char a "/" = false ->
  path_join a b = a ++ String "/" b.
Proof.
  intros Hb Ha He. unfold path_join. rewrite Hb, He.
  assert (Hne : String.eqb a EmptyString = false) by (apply String.eqb_neq, Ha).
  rewrite Hne. reflexivity.
Qed.
End PathFacts.

Section LogPathFacts.
Local Open Scope string_scope.

Lemma In_Zrange (lo : Z) (n : nat) (x : Z) :
  lo <= x < lo + Z.of_nat n -> In x (Zrange lo n).
Proof.
  intros H. unfold Zrange. apply List.in_map_iff.
  exists (Z.to_nat (x - lo)). split; [lia|]. apply List.in_seq. lia.
Qed.

Lemma year_names_ok :
  forallb (fun y => component_ok (four_digits y) y) (Zrange 1000 (Z.to_nat 9000))
  = true.
Proof. vm_compute. reflexivity. Qed.

Lemma month_names_ok :
  forallb (fun m => component_ok (two_digits m) m) (Zrange 1 12) = true.
Proof. vm_compute. reflexivity. Qed.

Lemma day_files_read_back : forallb day_file_reads_back (Zrange 1 31) = true.
Proof. vm_compute. reflexivity. Qed.

Lemma component_ok_spec (name : string) (n : Z) :
  component_ok name n = true ->
  rfind "/" name = None /\ String.prefix "/" name = false /\
  endswith_char name "/" = false /\ name <> EmptyString /\
  py_int name = Some n.
Proof.
  unfold component_ok. rewrite !andb_true_iff, !negb_true_iff.
  intros ((((H1 & H2) & H3) & H4) & H5).
  apply bool_decide_eq_true in H1. apply bool_decide_eq_true in H5.
  apply String.eqb_neq in H4. auto.
Qed.

(** The directory that the writer uses for a day, component by
    component, and what the worker reads from it. *)
Lemma log_dir_path_reads_back (today : date) :
  1000 <= year today <= 9999 -> 1 <= month today <= 12 ->
  log_dir_path today
  = (LOG_DIR ++ String "/" (four_digits (year today)))
    ++ String "/" (two_digits (month today)) /\
  py_int (basename (log_dir_path today)) = Some (month today) /\
  py_int (basename (dirname (log_dir_path today))) = Some (year today).
Proof.
  intros Hy Hm.
  assert (HinY : In (year today) (Zrange 1000 (Z.to_nat 9000)))
    by (apply In_Zrange; rewrite Z2Nat.id by lia; lia).
  assert (HinM : In (month today) (Zrange 1 12))
    by (apply In_Zrange; lia).
  pose proof (proj1 (List.forallb_forall _ _) year_names_ok _ HinY) as HY.
  pose proof (proj1 (List.forallb_forall _ _) month_names_ok _ HinM) as HM.
  cbv beta in HY, HM.
  apply component_ok_spec in HY as (Y1 & Y2 & Y3 & Y4 & Y5).
  apply component_ok_spec in HM as (M1 & M2 & M3 & M4 & M5).
  set (Y := four_digits (year today)) in *.
  set (M := two_digits (month today)) in *.
  assert (Hj1 : path_join LOG_DIR Y = LOG_DIR ++ String "/" Y)
    by (apply path_join_relative; [exact Y2 | discriminate | reflexivity]).
  assert (Hne : LOG_DIR ++ String "/" Y <> EmptyString) by apply append_not_empty.
  assert (He : endswith_char (LOG_DIR ++ String "/" Y) "/" = false).
  { rewrite endswith_char_app by discriminate.
    destruct Y as [|c Y']; [contradiction|]. exact Y3. }
  assert (Hj2 : log_dir_path today = (LOG_DIR ++ String "/" Y) ++ String "/" M).
  { unfold log_dir_path. fold Y. fold M. rewrite Hj1.
    apply path_join_relative; assumption. }
  split; [exact Hj2|]. rewrite Hj2. split.
  - rewrite basename_sep by exact M1. exact M5.
  - rewrite dirname_sep by assumption.
    rewrite basename_sep by exact Y1. exact Y5.
Qed.
End LogPathFacts.

Lemma log_file_dates (y m d : Z) (today : date) :
  datetime y m d = Some today ->
  1000 <= y ->
  file_date (log_dir_path today) (log_basename today) = Some today /\
  file_date (log_dir_path today) (log_basename today ++ ".gz") = Some today.
Proof.
  intros Hdt Hy.
  pose proof Hdt as Hdt'.
  apply datetime_some in Hdt' as (-> & Hyr & Hmr & Hdr).
  cbn [year month day] in *.
  destruct (log_dir_path_reads_back {| year := y; month := m; day := d |}
              ltac:(cbn; lia) ltac:(cbn; lia)) as (_ & HM & HY).
  assert (Hd31 : 1 <= d <= 31).
  { split; [lia|]. unfold days_in_month in Hdr.
    destruct ((m =? 2) && is_leap y); [lia|].
    assert (Hc : m = 1 \/ m = 2 \/ m = 3 \/ m = 4 \/ m = 5 \/ m = 6 \/ m = 7 \/
                 m = 8 \/ m = 9 \/ m = 10 \/ m = 11 \/ m = 12) by lia.
    repeat (destruct Hc as [-> | Hc]; [month_tables; lia|]).
    subst m. month_tables. lia. }
  assert (HinD : In d (Zrange 1 31)) by (apply In_Zrange; lia).
  pose proof (proj1 (List.forallb_forall _ _) day_files_read_back d HinD) as HD.
  unfold day_file_reads_back in HD.
  rewrite !andb_true_iff in HD. destruct HD as ((_ & HD1) & HD2).
  apply bool_decide_eq_true in HD1. apply bool_decide_eq_true in HD2.
  unfold day_str_of in HD1, HD2.
  cbn [year month day] in *.
  split; unfold file_date, log_basename; cbn [day];
    rewrite HY, HM; cbn [mbind option_bind].
  - rewrite HD1. cbn [mbind option_bind]. exact Hdt.
  - replace ((two_digits d ++ ".csv") ++ ".gz")%string
      with (two_digits d ++ ".csv.gz")%string by reflexivity.
    rewrite HD2. cbn [mbind option_bind]. exact Hdt.
Qed.

(** X23: the retention worker reads the date of a daily log back from the
    path the writer gave it: for a valid date from the year 1000 on, the
    directory and file name that [periodic_csv_writer] builds, with the
    extension [.csv] or, once compressed, [.csv.gz], parse to that date. *)
Theorem log_path_round_trip (y m d : Z) (today : date) :
  datetime y m d = Some today ->
  1000 <= y ->
  file_date (log_dir_path today) (log_basename today) = Some today /\
  file_date (log_dir_path today) (log_basename today ++ ".gz") = Some today.
Proof. apply log_file_dates. Qed.

Lemma log_path_round_trip_witness :
  file_date (log_dir_path Scenario.today) (log_basename Scenario.today)
  = Some Scenario.today /\
  file_date (log_dir_path Scenario.today) (log_basename Scenario.today ++ ".gz")
  = Some Scenario.today.
Proof.
  apply (log_path_round_trip 2025 6 1 Scenario.today).
  - reflexivity.
  - lia.
Defined.

Section PassFacts.
Variable abspath : string -> string.

(** Whatever a pass removes has names that parse to a date before the
    cut-off of the pass. *)
Lemma removes_inv (today : date) (us : Settings)
    (walk : list (string * list string)) (dirpath filename : string) :
  removes (maintenance_pass abspath today us walk).2 dirpath filename ->
  exists fd,
    file_date dirpath filename = Some fd /\
    ymd2ord fd < ymd2ord today - retention_days (logRetentionPeriod us).
Proof.
  unfold maintenance_pass.
  destruct (String.eqb _ _ && negb _); cbn [snd removes]; [contradiction|].
  unfold cutoff_ordinal.
  destruct (_ && _); cbn [snd removes]; [|contradiction].
  rewrite sweep_in. intros (fs & _ & _ & Hs). symmetry in Hs.
  apply sweep_file_removed in Hs as (_ & _ & Hfd). exact Hfd.
Qed.
End PassFacts.

(** X24: a pass never removes a file that lies directly in the log root,
    or in a directory one level below it: the names of such a file give
    no year and month. *)
Theorem shallow_files_never_removed (abspath : string -> string) (today : date)
    (us : Settings) (walk : list (string * list string))
    (name filename : string) :
  rfind "/" name = None ->
  let r := (maintenance_pass abspath today us walk).2 in
  ~ removes r LOG_DIR filename /\
  ~ removes r (LOG_DIR ++ String "/" name) filename.
Proof.
  intros Hname r. subst r. split; intros Hrem;
    apply removes_inv in Hrem as (fd & Hfd & _); unfold file_date in Hfd.
  - replace (py_int (basename (dirname LOG_DIR))) with (@None Z) in Hfd
      by (vm_compute; reflexivity).
    discriminate.
  - rewrite dirname_sep in Hfd by (first [exact Hname | discriminate | reflexivity]).
    replace (py_int (basename LOG_DIR)) with (@None Z) in Hfd
      by (vm_compute; reflexivity).
    discriminate.
Qed.

Lemma shallow_files_never_removed_witness :
  let r := (maintenance_pass Scenario.abspath Scenario.today default_settings
              Scenario.log_tree).2 in
  ~ removes r LOG_DIR "summary.csv" /\
  ~ removes r (LOG_DIR ++ String "/" "2025") "summary.csv".
Proof.
  apply (shallow_files_never_removed Scenario.abspath Scenario.today
           default_settings Scenario.log_tree "2025" "summary.csv").
  vm_compute. reflexivity.
Defined.



(** X26: a request for a manual clean-up is used up by one pass: every
    pass leaves the flag unset and the other settings as they were, so
    under "forever" the pass that follows a manual one skips again. *)
Theorem manual_request_used_once (abspath : string -> string)
    (today1 today2 : date) (us : Settings)
    (walk1 walk2 : list (string * list string)) :
  let p1 := maintenance_pass abspath today1 us walk1 in
  let p2 := maintenance_pass abspath today2 p1.1 walk2 in
  run_manual_cleanup p1.1 = false /\
  logRetentionPeriod p1.1 = logRetentionPeriod us /\
  enableSmokeDetection p1.1 = enableSmokeDetection us /\
  emergencyAlert p1.1 = emergencyAlert us /\
  alertThreshold p1.1 = alertThreshold us /\
  p2.1 = p1.1 /\
  (logRetentionPeriod us = "forever"%string -> p2.2 = SkippedForever).
Proof.
  intros p1 p2.
  assert (H1 : p1.1 = {| enableSmokeDetection := enableSmokeDetection us;
                         emergencyAlert := emergencyAlert us;
                         alertThreshold := alertThreshold us;
                         logRetentionPeriod := logRetentionPeriod us;
                         run_manual_cleanup := false |}).
  { subst p1. unfold maintenance_pass.
    destruct (_ && _); [reflexivity|]. destruct (cutoff_ordinal _ _); reflexivity. }
  assert (H2 : p2.1 = p1.1).
  { subst p2. rewrite H1. unfold maintenance_pass. cbn.
    destruct (_ && _); [reflexivity|]. destruct (cutoff_ordinal _ _); reflexivity. }
  rewrite H1. cbn. repeat split; try (rewrite H2, H1; reflexivity).
  intros Hf. subst p2. rewrite H1. unfold maintenance_pass. cbn.
  rewrite Hf. reflexivity.
Qed.





(** * The retention pass over the interpreter's [int] *)

(** With [py_int] for the reader the second statement of the worker is
    the first. *)
Lemma maintenance_pass_with_py_int (abspath : string -> string) (today : date)
    (us : Settings) (walk : list (string * list string)) :
  maintenance_pass_with py_int abspath today us walk
  = maintenance_pass abspath today us walk.
Proof. reflexivity. Qed.

Section ParserFacts.
Variable int_of : string -> option Z.
Variable abspath : string -> string.
Hypothesis int_of_agrees : int_agrees int_of.

Lemma year_names_plain :
  forallb (fun y => plain_name (four_digits y)) (Zrange 1000 (Z.to_nat 9000))
  = true.
Proof. vm_compute. reflexivity. Qed.

Lemma month_names_plain :
  forallb (fun m => plain_name (two_digits m)) (Zrange 1 12) = true.
Proof. vm_compute. reflexivity. Qed.

Lemma day_files_plain : forallb day_file_plain (Zrange 1 31) = true.
Proof. vm_compute. reflexivity. Qed.

Lemma datetime_day_le_31 (y m d : Z) (dt : date) :
  datetime y m d = Some dt -> 1 <= d <= 31.
Proof.
  intros Hdt. apply datetime_some in Hdt as (_ & _ & Hmr & Hdr).
  split; [lia|]. unfold days_in_month in Hdr.
  destruct ((m =? 2) && is_leap y); [lia|].
  assert (Hc : m = 1 \/ m = 2 \/ m = 3 \/ m = 4 \/ m = 5 \/ m = 6 \/ m = 7 \/
               m = 8 \/ m = 9 \/ m = 10 \/ m = 11 \/ m = 12) by lia.
  repeat (destruct Hc as [-> | Hc]; [month_tables; lia|]).
  subst m. month_tables. lia.
Qed.

(** The two directory names that the worker takes from the directory of
    the writer. *)
Lemma log_dir_path_names (today : date) :
  1000 <= year today <= 9999 -> 1 <= month today <= 12 ->
  basename (log_dir_path today) = two_digits (month today) /\
  basename (dirname (log_dir_path today)) = four_digits (year today).
Proof.
  intros Hy Hm.
  destruct (log_dir_path_reads_back today Hy Hm) as (Hj & _ & _).
  assert (HinY : In (year today) (Zrange 1000 (Z.to_nat 9000)))
    by (apply In_Zrange; rewrite Z2Nat.id by lia; lia).
  assert (HinM : In (month today) (Zrange 1 12))
    by (apply In_Zrange; lia).
  pose proof (proj1 (List.forallb_forall _ _) year_names_ok _ HinY) as HY.
  pose proof (proj1 (List.forallb_forall _ _) month_names_ok _ HinM) as HM.
  cbv beta in HY, HM.
  apply component_ok_spec in HY as (Y1 & Y2 & Y3 & Y4 & Y5).
  apply component_ok_spec in HM as (M1 & M2 & M3 & M4 & M5).
  rewrite Hj. split.
  - apply basename_sep. exact M1.
  - rewrite dirname_sep.
    + apply basename_sep. exact Y1.
    + exact M1.
    + apply append_not_empty.
    + rewrite endswith_char_app by discriminate.
      destruct (four_digits (year today)) as [|c Y']; [contradiction|]. exact Y3.
Qed.

(** On plain names the reader of the interpreter dates a file as
    [py_int] does. *)
Lemma file_date_with_plain (dirpath filename : string) :
  plain_name (basename (dirname dirpath)) = true ->
  plain_name (basename dirpath) = true ->
  plain_name (day_str_of filename) = true ->
  file_date_with int_of dirpath filename = file_date dirpath filename.
Proof.
  intros Hy Hm Hd. unfold file_date_with, file_date.
  unfold day_str_of in Hd.
  rewrite (int_of_agrees _ Hy), (int_of_agrees _ Hm), (int_of_agrees _ Hd).
  reflexivity.
Qed.

(** The worker dates the partition of a day as the writer named it. *)
Lemma log_file_dates_with (y m d : Z) (p : date) :
  datetime y m d = Some p ->
  1000 <= y ->
  file_date_with int_of (log_dir_path p) (log_basename p) = Some p /\
  file_date_with int_of (log_dir_path p) (log_basename p ++ ".gz") = Some p.
Proof.
  intros Hdt Hy.
  destruct (log_file_dates y m d p Hdt Hy) as [H1 H2].
  pose proof (datetime_day_le_31 y m d p Hdt) as Hd31.
  pose proof Hdt as Hdt'.
  apply datetime_some in Hdt' as (-> & Hyr & Hmr & Hdr).
  cbn [year month day] in *.
  destruct (log_dir_path_names {| year := y; month := m; day := d |}
              ltac:(cbn; lia) ltac:(cbn; lia)) as (HM & HY).
  cbn [year month day] in HM, HY.
  assert (HinY : In y (Zrange 1000 (Z.to_nat 9000)))
    by (apply In_Zrange; rewrite Z2Nat.id by lia; lia).
  assert (HinM : In m (Zrange 1 12)) by (apply In_Zrange; lia).
  assert (HinD : In d (Zrange 1 31)) by (apply In_Zrange; lia).
  pose proof (proj1 (List.forallb_forall _ _) year_names_plain _ HinY) as PY.
  pose proof (proj1 (List.forallb_forall _ _) month_names_plain _ HinM) as PM.
  pose proof (proj1 (List.forallb_forall _ _) day_files_plain _ HinD) as PD.
  cbv beta in PY, PM. unfold day_file_plain in PD.
  apply andb_true_iff in PD as [PD1 PD2].
  split.
  - rewrite <- H1. apply file_date_with_plain.
    + rewrite HY. exact PY.
    + rewrite HM. exact PM.
    + unfold log_basename. cbn [day]. exact PD1.
  - rewrite <- H2. apply file_date_with_plain.
    + rewrite HY. exact PY.
    + rewrite HM. exact PM.
    + unfold log_basename. cbn [day].
      replace ((two_digits d ++ ".csv") ++ ".gz")%string
        with (two_digits d ++ ".csv.gz")%string by reflexivity.
      exact PD2.
Qed.

Lemma sweep_with_in (cutoff : Z) (walk : list (string * list string))
    (dirpath filename : string) (a : file_action) :
  In (dirpath, filename, a) (sweep_with int_of abspath cutoff walk) <->
  exists filenames,
    In (dirpath, filenames) walk /\ In filename filenames /\
    a = sweep_file_with int_of abspath cutoff dirpath filename.
Proof.
  unfold sweep_with. rewrite List.in_flat_map. split.
  - intros [[d fs] [Hw Hin]]. apply List.in_map_iff in Hin as [f [Heq Hf]].
    injection Heq as -> -> <-. exists fs. auto.
  - intros [fs (Hw & Hf & ->)]. exists (dirpath, fs). split; [exact Hw|].
    apply List.in_map_iff. exists filename. auto.
Qed.

Lemma sweep_file_with_removed (cutoff : Z) (dirpath filename : string) (p : string) :
  sweep_file_with int_of abspath cutoff dirpath filename = Removed p <->
  p = path_join dirpath filename /\
  startswith (abspath (path_join dirpath filename)) (abspath LOG_DIR) = true /\
  exists fd, file_date_with int_of dirpath filename = Some fd /\ ymd2ord fd < cutoff.
Proof.
  unfold sweep_file_with.
  destruct (file_date_with int_of dirpath filename) as [fd|].
  - destruct (Z.ltb_spec (ymd2ord fd) cutoff) as [Hlt | Hge].
    + destruct (startswith _ _) eqn:Eg; cbn [negb]; split.
      * intros [= <-]. eauto.
      * intros (-> & _ & _). reflexivity.
      * discriminate.
      * intros (_ & Hg & _). discriminate.
    + split; [discriminate|]. intros (_ & _ & fd' & [= <-] & Hlt). lia.
  - split; [discriminate|]. intros (_ & _ & fd' & Hfd & _). discriminate.
Qed.

(** Under a readable policy whose cut-off exists the pass walks the
    tree. *)
Lemma days_policy_sweeps (today : date) (us : Settings)
    (walk : list (string * list string)) (ds : string) (N : Z) :
  logRetentionPeriod us = (ds ++ "d")%string ->
  int_of ds = Some N ->
  cutoff_ordinal today N = Some (ymd2ord today - N) ->
  (maintenance_pass_with int_of abspath today us walk).2
  = Swept N (sweep_with int_of abspath (ymd2ord today - N) walk).
Proof.
  intros Hpol Hint Hcut. unfold maintenance_pass_with, retention_days_with.
  rewrite Hpol, days_policy_not_forever. cbn [andb].
  rewrite str_drop_last_snoc, Hint, Hcut. reflexivity.
Qed.

(** Under the guard a walked file goes exactly when it is dated before
    the cut-off. *)
Lemma sweep_with_removes (cutoff N : Z) (walk : list (string * list string))
    (dirpath : string) (filenames : list string) (filename : string) :
  (forall dirpath filenames filename,
      In (dirpath, filenames) walk -> In filename filenames ->
      startswith (abspath (path_join dirpath filename)) (abspath LOG_DIR) = true) ->
  In (dirpath, filenames) walk -> In filename filenames ->
  (removes (Swept N (sweep_with int_of abspath cutoff walk)) dirpath filename <->
   exists fd, file_date_with int_of dirpath filename = Some fd /\
              ymd2ord fd < cutoff).
Proof.
  intros Hguard Hw Hf. cbn [removes]. rewrite sweep_with_in. split.
  - intros (fs' & _ & _ & Hs). symmetry in Hs.
    apply sweep_file_with_removed in Hs as (_ & _ & Hfd). exact Hfd.
  - intros Hfd. exists filenames. split; [exact Hw|]. split; [exact Hf|].
    symmetry. apply sweep_file_with_removed.
    split; [reflexivity|].
    split; [exact (Hguard dirpath filenames filename Hw Hf) | exact Hfd].
Qed.
End ParserFacts.

(** C8: under a policy "Nd" whose cut-off date exists, and for an [int]
    of the interpreter that is [py_int] on plain ASCII names, a pass
    removes exactly the walked files whose directory and file names parse
    to a valid date strictly before today - N days, and no file whose
    names do not parse to a valid date.  The partition of a day, under
    the names that the writer gives it (from the year 1000 on, plain or
    compressed), is removed exactly when that day is before the cut-off:
    under "90d" the partition of the day 91 days ago is removed and that
    of the day 89 days ago is not. *)
Theorem retention_removes_before_cutoff (int_of : string -> option Z)
    (abspath : string -> string)
    (today : date) (us : Settings) (walk : list (string * list string))
    (ds : string) (N : Z) :
  int_agrees int_of ->
  logRetentionPeriod us = (ds ++ "d")%string ->
  int_of ds = Some N ->
  cutoff_ordinal today N = Some (ymd2ord today - N) ->
  (forall dirpath filenames filename,
      In (dirpath, filenames) walk -> In filename filenames ->
      startswith (abspath (path_join dirpath filename)) (abspath LOG_DIR) = true) ->
  let r := (maintenance_pass_with int_of abspath today us walk).2 in
  (forall dirpath filenames filename,
      In (dirpath, filenames) walk -> In filename filenames ->
      (removes r dirpath filename <->
       exists fd, file_date_with int_of dirpath filename = Some fd /\
                  ymd2ord fd < ymd2ord today - N)) /\
  (forall dirpath filename,
      file_date_with int_of dirpath filename = None ->
      ~ removes r dirpath filename) /\
  (forall y m d p filenames filename,
      datetime y m d = Some p -> 1000 <= y ->
      In (log_dir_path p, filenames) walk -> In filename filenames ->
      filename = log_basename p \/ filename = (log_basename p ++ ".gz")%string ->
      (removes r (log_dir_path p) filename <-> ymd2ord p < ymd2ord today - N) /\
      (N = 90 -> ymd2ord p = ymd2ord today - 91 ->
       removes r (log_dir_path p) filename) /\
      (N = 90 -> ymd2ord p = ymd2ord today - 89 ->
       ~ removes r (log_dir_path p) filename)).
Proof.
  intros Hagree Hpol Hint Hcut Hguard r.
  assert (Hr : r = Swept N (sweep_with int_of abspath (ymd2ord today - N) walk))
    by (exact (days_policy_sweeps int_of abspath today us walk ds N Hpol Hint Hcut)).
  rewrite Hr.
  assert (Hday : forall y m d p filenames filename,
      datetime y m d = Some p -> 1000 <= y ->
      In (log_dir_path p, filenames) walk -> In filename filenames ->
      filename = log_basename p \/ filename = (log_basename p ++ ".gz")%string ->
      (removes (Swept N (sweep_with int_of abspath (ymd2ord today - N) walk))
               (log_dir_path p) filename
       <-> ymd2ord p < ymd2ord today - N)).
  { intros y m d p fs f Hdt Hy Hw Hf Hname.
    destruct (log_file_dates_with int_of Hagree y m d p Hdt Hy) as [H1 H2].
    assert (Hfd : file_date_with int_of (log_dir_path p) f = Some p)
      by (destruct Hname as [-> | ->]; assumption).
    rewrite (sweep_with_removes int_of abspath _ N walk _ fs f Hguard Hw Hf).
    rewrite Hfd. split.
    - intros (fd & [= <-] & Hlt). exact Hlt.
    - intros Hlt. exists p. split; [reflexivity | exact Hlt]. }
  split; [|split].
  - intros dp fs f Hw Hf.
    exact (sweep_with_removes int_of abspath _ N walk dp fs f Hguard Hw Hf).
  - intros dp f Hnone. cbn [removes]. rewrite sweep_with_in.
    intros (fs' & _ & _ & Hs). symmetry in Hs.
    apply sweep_file_with_removed in Hs as (_ & _ & fd & Hfd & _). congruence.
  - intros y m d p fs f Hdt Hy Hw Hf Hname.
    pose proof (Hday y m d p fs f Hdt Hy Hw Hf Hname) as Hiff.
    split; [exact Hiff|]. split.
    + intros -> Hord. apply Hiff. lia.
    + intros -> Hord Hrem. apply Hiff in Hrem. lia.
Qed.

Lemma retention_removes_before_cutoff_witness :
  let r := (maintenance_pass_with py_int Scenario.abspath Scenario.today
              default_settings Scenario.log_tree).2 in
  (forall dirpath filenames filename,
      In (dirpath, filenames) Scenario.log_tree -> In filename filenames ->
      (removes r dirpath filename <->
       exists fd, file_date_with py_int dirpath filename = Some fd /\
                  ymd2ord fd < ymd2ord Scenario.today - 90)) /\
  (forall dirpath filename,
      file_date_with py_int dirpath filename = None ->
      ~ removes r dirpath filename) /\
  (forall y m d p filenames filename,
      datetime y m d = Some p -> 1000 <= y ->
      In (log_dir_path p, filenames) Scenario.log_tree -> In filename filenames ->
      filename = log_basename p \/ filename = (log_basename p ++ ".gz")%string ->
      (removes r (log_dir_path p) filename
       <-> ymd2ord p < ymd2ord Scenario.today - 90) /\
      (90 = 90 -> ymd2ord p = ymd2ord Scenario.today - 91 ->
       removes r (log_dir_path p) filename) /\
      (90 = 90 -> ymd2ord p = ymd2ord Scenario.today - 89 ->
       ~ removes r (log_dir_path p) filename)).
Proof.
  apply (retention_removes_before_cutoff py_int Scenario.abspath Scenario.today
           default_settings Scenario.log_tree "90" 90).
  - intros s _. reflexivity.
  - reflexivity.
  - vm_compute. reflexivity.
  - vm_compute. reflexivity.
  - intros dirpath filenames filename Hw Hf. cbn in Hw.
    repeat (destruct Hw as [[= <- <-] | Hw]; [cbn in Hf|]); try contradiction;
      repeat (destruct Hf as [<- | Hf]; [vm_compute; reflexivity|]);
      contradiction.
Defined.
